(** * Craterra: the authorization pipeline and the album rules

    A shallow embedding of the Express application (index.js, the routers,
    the middlewares in auth.middleware.js, the four controller modules and
    sendResponse.js) together with the Mongoose models it queries.

    Conventions of the embedding.
    - A JavaScript string is a [string]: a sequence of code units below 256
      (the Latin-1 range); [trim] and [toLowerCase] follow ECMAScript there.
    - A handler is a function of the request and the world (the two
      collections, the log of asset deletions asked of the image host and
      the log of tokens handed to the JWT verifier); [throw] and
      [try/catch] are an error monad over that world, so what a handler
      wrote before it threw stays written.
    - req.body is read at the types of the schema paths the handlers use
      (an absent path is [None]) and holds plain fields, no update or
      query operators; the three fields of a password change, which the
      handler compares and measures before any schema sees them, are
      arbitrary JSON values.
    - An ObjectId is its string rendering, 24 hexadecimal digits; the
      :id of an album route is any string, and the cast Mongoose applies
      to it is part of the album lookups. *)

From Stdlib Require Import String Ascii List Bool Arith NArith ZArith Lia.
From Stdlib Require Import DecimalString Sorted Permutation.
Import ListNotations.
Local Open Scope string_scope.
Local Open Scope list_scope.

(** ** JavaScript strings *)

Module JsString.

(** WhiteSpace and LineTerminator code units below 256, as
    String.prototype.trim strips them. *)
Definition isWhiteSpace (c : ascii) : bool :=
  let n := nat_of_ascii c in
  (((9 <=? n) && (n <=? 13)) || (n =? 32) || (n =? 160))%nat.

Fixpoint trimStart (s : string) : string :=
  match s with
  | EmptyString => EmptyString
  | String c s' => if isWhiteSpace c then trimStart s' else s
  end.

Fixpoint trimEnd (s : string) : string :=
  match s with
  | EmptyString => EmptyString
  | String c s' =>
      match trimEnd s' with
      | EmptyString => if isWhiteSpace c then EmptyString else String c EmptyString
      | t => String c t
      end
  end.

Definition trim (s : string) : string := trimEnd (trimStart s).

(** Upper-case letters of Latin-1: A-Z and U+00C0-U+00DE without U+00D7. *)
Definition isUpper (c : ascii) : bool :=
  let n := nat_of_ascii c in
  (((65 <=? n) && (n <=? 90))
   || ((192 <=? n) && (n <=? 222) && negb (n =? 215)))%nat.

Definition lowerChar (c : ascii) : ascii :=
  if isUpper c then ascii_of_nat (nat_of_ascii c + 32) else c.

Fixpoint toLowerCase (s : string) : string :=
  match s with
  | EmptyString => EmptyString
  | String c s' => String (lowerChar c) (toLowerCase s')
  end.

Fixpoint startsWith (p s : string) : bool :=
  match p, s with
  | EmptyString, _ => true
  | String a p', String b s' => Ascii.eqb a b && startsWith p' s'
  | String _ _, EmptyString => false
  end.

Fixpoint drop (n : nat) (s : string) : string :=
  match n, s with
  | O, _ => s
  | S n', String _ s' => drop n' s'
  | S _, EmptyString => EmptyString
  end.

(** [s.includes(p)]. *)
Fixpoint includes (p s : string) : bool :=
  startsWith p s ||
  match s with
  | EmptyString => false
  | String _ s' => includes p s'
  end.

(** [s.replace(p, "")] for a string pattern [p]: the first occurrence of
    [p] is removed, wherever it stands; without one [s] comes back whole. *)
Fixpoint removeFirst (p s : string) : string :=
  if startsWith p s then drop (String.length p) s
  else match s with
       | EmptyString => EmptyString
       | String c s' => String c (removeFirst p s')
       end.

(** Truthiness of a string: every string but the empty one. *)
Definition nonEmpty (s : string) : bool :=
  match s with EmptyString => false | _ => true end.

End JsString.

#[local] Set Warnings "-register-all".

Inductive Value : Type :=
| VUndefined
| VNull
| VBool (b : bool)
| VNum (n : Z)
| VStr (s : string)
| VArr (items : list Value)
| VObj (fields : list (string * Value)).

(** ToBoolean: undefined, null, false, 0 and the empty string are falsy;
    every array and every object is truthy, the empty ones too. *)
Definition truthy (v : Value) : bool :=
  match v with
  | VUndefined | VNull => false
  | VBool b => b
  | VNum n => negb (n =? 0)%Z
  | VStr s => JsString.nonEmpty s
  | VArr _ | VObj _ => true
  end.

(** The keys of an object, in insertion order. *)
Definition keys (v : Value) : list string :=
  match v with
  | VObj fields => map fst fields
  | _ => []
  end.

Definition getField (k : string) (v : Value) : option Value :=
  match v with
  | VObj fields =>
      match find (fun kv => String.eqb (fst kv) k) fields with
      | Some kv => Some (snd kv)
      | None => None
      end
  | _ => None
  end.

(** The string [h] occurs as a string value somewhere inside [v]. *)
Fixpoint mentions (h : string) (v : Value) : bool :=
  match v with
  | VStr s => String.eqb s h
  | VArr items => existsb (mentions h) items
  | VObj fields => existsb (fun kv => match kv with (_, x) => mentions h x end) fields
  | _ => false
  end.

(** A path that is set contributes its key; an undefined one is left out
    by JSON.stringify. *)
Definition optField (k : string) (o : option string) : list (string * Value) :=
  match o with
  | Some s => [(k, VStr s)]
  | None => []
  end.

Definition ObjectId := string.

(** The strings the driver's ObjectId accepts: 24 hexadecimal digits.
    (Drivers before bson 6 also read any string of 12 bytes as an id; the
    statements about strings that are no ObjectId leave those of length
    12 aside.) *)
Definition isHexDigit (c : ascii) : bool :=
  let n := nat_of_ascii c in
  (((48 <=? n) && (n <=? 57)) || ((97 <=? n) && (n <=? 102))
   || ((65 <=? n) && (n <=? 70)))%nat.

Fixpoint allHex (s : string) : bool :=
  match s with
  | EmptyString => true
  | String c s' => isHexDigit c && allHex s'
  end.

Definition isObjectId (s : string) : bool :=
  Nat.eqb (String.length s) 24 && allHex s.

(** The rendering of the [k] lowest hexadecimal digits of [n], in front
    of [acc]. *)
Definition hexDigit (d : N) : ascii :=
  nth (N.to_nat d)
      ["0"; "1"; "2"; "3"; "4"; "5"; "6"; "7"; "8"; "9";
       "a"; "b"; "c"; "d"; "e"; "f"]%char "0"%char.

Fixpoint hexOf (k : nat) (n : N) (acc : string) : string :=
  match k with
  | O => acc
  | S k' => hexOf k' (N.div n 16) (String (hexDigit (N.modulo n 16)) acc)
  end.

(** The ObjectId the driver renders for counter value [n]. *)
Definition oidOfNat (n : nat) : ObjectId := hexOf 24 (N.of_nat n) "".

(** The dates a JavaScript Date can hold, in milliseconds since the
    epoch: beyond them [new Date(t)] is an Invalid Date. *)
Definition validDate (t : Z) : bool :=
  ((-8640000000000000 <=? t) && (t <=? 8640000000000000))%Z.

(** ** Documents of the two collections *)

Module UserDoc.

(** userSchema (timestamps are left out: no handler reads them). *)
Record t : Type := mk {
  _id : ObjectId;
  name : string;
  email : string;
  password : string;          (* the bcrypt hash, once saved *)
  role : string;
  profileImageUrl : option string;
  profileImageId : option string
}.

(** The virtual [id] getter: [_id.toString()]. *)
Definition id (u : t) : string := _id u.

Definition toObject (u : t) : list (string * Value) :=
  [("_id", VStr (_id u)); ("name", VStr (name u)); ("email", VStr (email u));
   ("password", VStr (password u)); ("role", VStr (role u))]
  ++ optField "profileImageUrl" (profileImageUrl u)
  ++ optField "profileImageId" (profileImageId u).

Definition toJSON (u : t) : Value := VObj (toObject u).

(** [delete obj.password] on the plain object. *)
Definition deletePassword (o : list (string * Value)) : list (string * Value) :=
  filter (fun kv => negb (String.eqb (fst kv) "password")) o.

(** A document loaded with [.select("-password")]. *)
Definition toJSON_selectMinusPassword (u : t) : Value :=
  VObj (deletePassword (toObject u)).

End UserDoc.

Module AlbumDoc.

(** albumSchema, the paths the handlers touch; labels, genres, tags,
    personalNote, dimensions, connections and listeningContext, which no
    handler reads, are left out of documents and bodies alike. The schema
    has no titleNormalized and no artistsNormalized path. *)
Record t : Type := mk {
  _id : ObjectId;
  title : string;
  artists : list string;
  format : string;
  releaseDate : Z;
  coverArtUrl : option string;
  coverArtId : option string;
  addedBy : ObjectId;
  createdAt : Z
}.

Definition toJSON (a : t) : Value :=
  VObj ([("_id", VStr (_id a)); ("title", VStr (title a));
         ("artists", VArr (map VStr (artists a)));
         ("format", VStr (format a)); ("releaseDate", VNum (releaseDate a))]
        ++ optField "coverArtUrl" (coverArtUrl a)
        ++ optField "coverArtId" (coverArtId a)
        ++ [("addedBy", VStr (addedBy a)); ("createdAt", VNum (createdAt a))]).

End AlbumDoc.

(** ** Requests *)

Module File.
(** req.file as multer-storage-cloudinary fills it: the asset's URL and
    its public id. *)
Record t : Type := mk { path : string; filename : string }.
End File.

Module Body.
(** req.body, read at the types of the paths the handlers and the two
    schemas use; currentPassword, newPassword and confirmPassword are
    kept as the JSON values they are ([VUndefined] when absent). *)
Record t : Type := Build {
  title : option string;
  artists : option (list string);
  format : option string;
  releaseDate : option Z;
  coverArtUrl : option string;
  coverArtId : option string;
  addedBy : option ObjectId;
  titleNormalized : option string;
  artistsNormalized : option (list string);
  name : option string;
  email : option string;
  password : option string;
  role : option string;
  profileImageUrl : option string;
  profileImageId : option string;
  currentPasswordValue : Value;
  newPasswordValue : Value;
  confirmPasswordValue : Value
}.

Definition asString (v : Value) : option string :=
  match v with VStr s => Some s | _ => None end.

Definition ofString (o : option string) : Value :=
  match o with Some s => VStr s | None => VUndefined end.

(** The three password fields where they are strings. *)
Definition currentPassword (b : t) : option string :=
  asString (currentPasswordValue b).

Definition newPassword (b : t) : option string :=
  asString (newPasswordValue b).

Definition confirmPassword (b : t) : option string :=
  asString (confirmPasswordValue b).

(** A body whose password fields, where present, are strings. *)
Definition mk (title : option string) (artists : option (list string))
    (format : option string) (releaseDate : option Z)
    (coverArtUrl coverArtId : option string) (addedBy : option ObjectId)
    (titleNormalized : option string) (artistsNormalized : option (list string))
    (name email password role profileImageUrl profileImageId : option string)
    (currentPassword newPassword confirmPassword : option string) : t :=
  Build title artists format releaseDate coverArtUrl coverArtId addedBy
    titleNormalized artistsNormalized name email password role
    profileImageUrl profileImageId
    (ofString currentPassword) (ofString newPassword) (ofString confirmPassword).

Definition empty : t :=
  mk None None None None None None None None None
     None None None None None None None None None.
End Body.

Module Req.
Record t : Type := mk {
  authorization : option string;   (* req.headers.authorization *)
  params_id : string;              (* req.params.id *)
  body : Body.t;
  attachment : option File.t;      (* the multipart file part, if any *)
  file : option File.t;            (* req.file, set by upload.single *)
  user : option UserDoc.t;            (* req.user, set by isAuth *)
  album : option AlbumDoc.t           (* req.album, set by isOwner *)
}.

Definition setUser (r : t) (u : UserDoc.t) : t :=
  mk (authorization r) (params_id r) (body r) (attachment r) (file r)
     (Some u) (album r).

Definition setAlbum (r : t) (a : AlbumDoc.t) : t :=
  mk (authorization r) (params_id r) (body r) (attachment r) (file r)
     (user r) (Some a).

Definition setFile (r : t) (f : option File.t) : t :=
  mk (authorization r) (params_id r) (body r) (attachment r) f
     (user r) (album r).
End Req.

(** ** Errors *)

Module JsError.
(** A thrown Error object: its constructor's name, the [status] property
    (only createError sets one) and the message. *)
Record t : Type := mk { name : string; status : option nat; message : string }.
End JsError.

(** Modelled from the spec: utils/createError.js is not among the sources;
    section 7 has every component raise a typed error carrying a status
    code and a message. *)
Definition createError (status : nat) (message : string) : JsError.t :=
  JsError.mk "Error" (Some status) message.

(** What the engine throws when an identifier has no binding in scope. *)
Definition ReferenceError (ident : string) : JsError.t :=
  JsError.mk "ReferenceError" None (ident ++ " is not defined").

(** Reading a property of undefined, or calling what is no function. *)
Definition TypeError (message : string) : JsError.t :=
  JsError.mk "TypeError" None message.

(** Mongoose's validation failure and the server's duplicate-key error:
    neither carries a [status]. *)
Definition ValidationError (model : string) : JsError.t :=
  JsError.mk "ValidationError" None (model ++ " validation failed").

Definition DuplicateKeyError : JsError.t :=
  JsError.mk "MongoServerError" None "E11000 duplicate key error".

(** Mongoose's cast failure of a value to the type of a path: it carries
    no [status] either. *)
Definition CastError (kind path : string) : JsError.t :=
  JsError.mk "CastError" None ("Cast to " ++ kind ++ " failed at path " ++ path).

(** ** The world and the handler monad *)

Record World : Type := mkWorld {
  users : list UserDoc.t;         (* the users collection, in insertion order *)
  albums : list AlbumDoc.t;       (* the albums collection, in insertion order *)
  destroyed : list string;     (* public ids passed to cloudinary.uploader.destroy *)
  verified : list string;      (* tokens passed to verifyToken *)
  nextOid : nat;               (* the driver's ObjectId counter *)
  clock : Z                    (* Date.now() *)
}.

Definition setUsers (w : World) (us : list UserDoc.t) : World :=
  mkWorld us (albums w) (destroyed w) (verified w) (nextOid w) (clock w).

Definition setAlbums (w : World) (als : list AlbumDoc.t) : World :=
  mkWorld (users w) als (destroyed w) (verified w) (nextOid w) (clock w).

Inductive Completion (A : Type) : Type :=
| Normal (a : A)
| Thrown (e : JsError.t).
Arguments Normal {A} a.
Arguments Thrown {A} e.

Definition Js (A : Type) : Type := World -> Completion A * World.

Definition ret {A} (a : A) : Js A := fun w => (Normal a, w).

Definition throw {A} (e : JsError.t) : Js A := fun w => (Thrown e, w).

Definition bind {A B} (m : Js A) (k : A -> Js B) : Js B :=
  fun w =>
    match m w with
    | (Normal a, w') => k a w'
    | (Thrown e, w') => (Thrown e, w')
    end.

(** [try { m } catch (error) { h error }]. *)
Definition tryCatch {A} (m : Js A) (h : JsError.t -> Js A) : Js A :=
  fun w =>
    match m w with
    | (Normal a, w') => (Normal a, w')
    | (Thrown e, w') => h e w'
    end.

Declare Scope js_scope.
Delimit Scope js_scope with js.
Notation "x <- m ;; k" := (bind m (fun x => k))
  (at level 100, m at next level, right associativity) : js_scope.
Notation "m ;;; k" := (bind m (fun _ => k))
  (at level 100, right associativity) : js_scope.
Local Open Scope js_scope.

(** [if (c) { m }] for its effect. *)
Definition when (c : bool) (m : Js unit) : Js unit :=
  if c then m else ret tt.

(** A fresh ObjectId, as [new Model(...)] draws one. *)
Definition newObjectId : Js ObjectId :=
  fun w =>
    (Normal (oidOfNat (nextOid w)),
     mkWorld (users w) (albums w) (destroyed w) (verified w)
             (S (nextOid w)) (clock w)).

(** ** The image host *)

(** utils/deleteImage.js: nothing is asked for a falsy public id; a
    failure of the host is caught and logged, so the call completes
    normally either way. The world records what was asked. *)
Definition deleteImgCloudinary (publicId : option string) : Js unit :=
  match publicId with
  | Some pid =>
      if JsString.nonEmpty pid
      then fun w =>
             (Normal tt,
              mkWorld (users w) (albums w) (destroyed w ++ [pid]) (verified w)
                      (nextOid w) (clock w))
      else ret tt
  | None => ret tt
  end.

(** file.middleware.js, [upload.single(field)]: the file part of the
    request, stored at the host, becomes req.file. *)
Definition upload_single (req : Req.t) : Js Req.t :=
  ret (Req.setFile req (Req.attachment req)).

(** ** MongoDB query operators *)

(** [{ $all: q }] on an array path: every element of [q] is an element
    of the stored array; an empty [q] matches no document. *)
Definition mq_all (q stored : list string) : bool :=
  match q with
  | [] => false
  | _ => forallb (fun x => existsb (String.eqb x) stored) q
  end.

(** [{ $size: n }]. *)
Definition mq_size (n : nat) (stored : list string) : bool :=
  Nat.eqb (List.length stored) n.

(** updateOne and deleteOne: the first document selected by [sel], in the
    collection's order, is replaced or removed. *)
Fixpoint replaceFirst {D} (sel : D -> bool) (d' : D) (l : list D) : list D :=
  match l with
  | [] => []
  | d :: rest => if sel d then d' :: rest else d :: replaceFirst sel d' rest
  end.

Fixpoint deleteFirst {D} (sel : D -> bool) (l : list D) : list D :=
  match l with
  | [] => []
  | d :: rest => if sel d then rest else d :: deleteFirst sel rest
  end.

Definition isSome {A} (o : option A) : bool :=
  match o with Some _ => true | None => false end.

(** The [required] validator on a String path: set and not empty. *)
Definition requiredString (o : option string) : bool :=
  match o with Some s => JsString.nonEmpty s | None => false end.

Definition inEnum (allowed : list string) (s : string) : bool :=
  existsb (String.eqb s) allowed.

(** ** The User model (user.model.js) *)

Module User.

(** A document built by [new User(...)] and not saved yet: required paths
    may still be undefined. *)
Record draft : Type := mkDraft {
  d_id : ObjectId;
  d_name : option string;
  d_email : option string;
  d_password : option string;
  d_role : string;
  d_profileImageUrl : option string;
  d_profileImageId : option string
}.

(** The setters of the email path: lowercase and trim. *)
Definition castEmail (s : string) : string :=
  JsString.trim (JsString.toLowerCase s).

(** [new User(req.body)]: the schema's paths are cast with their setters,
    [role] defaults to "user", other keys are dropped. *)
Definition new (b : Body.t) : Js draft :=
  oid <- newObjectId ;;
  ret (mkDraft oid
         (option_map JsString.trim (Body.name b))
         (option_map castEmail (Body.email b))
         (option_map JsString.trim (Body.password b))
         (match Body.role b with Some r => r | None => "user" end)
         (option_map JsString.trim (Body.profileImageUrl b))
         (option_map JsString.trim (Body.profileImageId b))).

Definition setImage (d : draft) (url pid : string) : draft :=
  mkDraft (d_id d) (d_name d) (d_email d) (d_password d) (d_role d)
          (Some (JsString.trim url)) (Some (JsString.trim pid)).

Definition roles : list string := ["user"; "admin"].

Definition validPassword (p : string) : bool :=
  JsString.nonEmpty p && (8 <=? String.length p)%nat.

Definition findById (id : ObjectId) : Js (option UserDoc.t) :=
  fun w => (Normal (List.find (fun u => String.eqb (UserDoc._id u) id) (users w)), w).

(** [User.findOne({ email })]: the query value is cast with the path's
    setters, like a value being stored; an undefined email selects
    nobody, every stored user having one. *)
Definition findOne_email (e : option string) : Js (option UserDoc.t) :=
  fun w =>
    (Normal (match e with
             | Some e' =>
                 List.find (fun u => String.eqb (UserDoc.email u) (castEmail e'))
                           (users w)
             | None => None
             end), w).

Definition find : Js (list UserDoc.t) := fun w => (Normal (users w), w).

(** [draft.save()] for a new document: validation, then the pre-save
    hook (the password is new, so it is hashed), then the insert, which
    the unique index on email may refuse. *)
Definition save (hash : string -> string) (d : draft) : Js UserDoc.t :=
  match d_name d, d_email d, d_password d with
  | Some n, Some e, Some p =>
      if JsString.nonEmpty n && JsString.nonEmpty e && validPassword p
         && inEnum roles (d_role d)
      then fun w =>
             if existsb (fun u => String.eqb (UserDoc.email u) e) (users w)
             then (Thrown DuplicateKeyError, w)
             else
               let u := UserDoc.mk (d_id d) n e (hash p) (d_role d)
                          (d_profileImageUrl d) (d_profileImageId d) in
               (Normal u, setUsers w (users w ++ [u]))
      else throw (ValidationError "User")
  | _, _, _ => throw (ValidationError "User")
  end.

(** [user.save()] for a document [old] loaded from the collection and
    since assigned to, giving [cur]: the modified paths are validated,
    the pre-save hook hashes the password when that path was modified,
    and the stored document is replaced. *)
Definition saveLoaded (hash : string -> string) (old cur : UserDoc.t)
  : Js UserDoc.t :=
  let pwModified := negb (String.eqb (UserDoc.password cur) (UserDoc.password old)) in
  if JsString.nonEmpty (UserDoc.name cur) && JsString.nonEmpty (UserDoc.email cur)
     && (negb pwModified || validPassword (UserDoc.password cur))
  then fun w =>
         if existsb (fun u => String.eqb (UserDoc.email u) (UserDoc.email cur)
                              && negb (String.eqb (UserDoc._id u) (UserDoc._id cur)))
                    (users w)
         then (Thrown DuplicateKeyError, w)
         else
           let saved :=
             UserDoc.mk (UserDoc._id cur) (UserDoc.name cur) (UserDoc.email cur)
               (if pwModified then hash (UserDoc.password cur) else UserDoc.password cur)
               (UserDoc.role cur) (UserDoc.profileImageUrl cur)
               (UserDoc.profileImageId cur) in
           (Normal saved,
            setUsers w (replaceFirst
                          (fun u => String.eqb (UserDoc._id u) (UserDoc._id cur))
                          saved (users w)))
  else throw (ValidationError "User").

(** Returns the deleted document, or null when the id selects none. *)
Definition findByIdAndDelete (id : ObjectId) : Js (option UserDoc.t) :=
  fun w =>
    match List.find (fun u => String.eqb (UserDoc._id u) id) (users w) with
    | Some u =>
        (Normal (Some u),
         setUsers w (deleteFirst (fun x => String.eqb (UserDoc._id x) id) (users w)))
    | None => (Normal None, w)
    end.

End User.

(** ** The Album model (album.model.js) *)

Module Album.

Record draft : Type := mkDraft {
  d_id : ObjectId;
  d_title : option string;
  d_artists : list string;
  d_format : option string;
  d_releaseDate : option Z;
  d_coverArtUrl : option string;
  d_coverArtId : option string;
  d_addedBy : option ObjectId
}.

Definition formats : list string :=
  ["LP"; "EP"; "Reissue"; "Live"; "Compilation"; "Box Set"; "Holiday";
   "Instrumental"; "Remix"; "Soundtrack"; "Mixtape"].

(** [new Album(obj)]: the schema is strict, so only its own paths are
    read off [obj] (titleNormalized and artistsNormalized are not among
    them); title, artists and the cover paths are trimmed, artists
    defaults to the empty array. *)
Definition new (obj : Body.t) : Js draft :=
  oid <- newObjectId ;;
  ret (mkDraft oid
         (option_map JsString.trim (Body.title obj))
         (map JsString.trim (match Body.artists obj with Some l => l | None => [] end))
         (Body.format obj)
         (Body.releaseDate obj)
         (option_map JsString.trim (Body.coverArtUrl obj))
         (option_map JsString.trim (Body.coverArtId obj))
         (Body.addedBy obj)).

Definition setCover (d : draft) (url pid : string) : draft :=
  mkDraft (d_id d) (d_title d) (d_artists d) (d_format d) (d_releaseDate d)
          (Some (JsString.trim url)) (Some (JsString.trim pid)) (d_addedBy d).

(** [Album.findById(id)]: the id is cast to an ObjectId first, and a
    string that is none makes the query reject with a CastError. *)
Definition findById (id : string) : Js (option AlbumDoc.t) :=
  if isObjectId id
  then fun w =>
         (Normal (List.find (fun a => String.eqb (AlbumDoc._id a) id) (albums w)), w)
  else throw (CastError "ObjectId" "_id").

(** The filter object of postAlbum's duplicate check:
    [{ title, artists: { $all, $size }, addedBy }]. *)
Record filter : Type := mkFilter {
  f_title : string;
  f_artists_all : list string;
  f_artists_size : nat;
  f_addedBy : ObjectId
}.

(** A stored document is selected when its [title] path equals the
    queried title (compared code unit by code unit), its [artists] array
    satisfies [$all] and [$size], and its owner is the queried one. The
    queried strings are cast with the paths' trim setter. *)
Definition selects (f : filter) (a : AlbumDoc.t) : bool :=
  String.eqb (AlbumDoc.title a) (JsString.trim (f_title f))
  && mq_all (map JsString.trim (f_artists_all f)) (AlbumDoc.artists a)
  && mq_size (f_artists_size f) (AlbumDoc.artists a)
  && String.eqb (AlbumDoc.addedBy a) (f_addedBy f).

(** [Album.findOne(filter)]: the first stored document the filter selects. *)
Definition findOne (f : filter) : Js (option AlbumDoc.t) :=
  fun w => (Normal (List.find (selects f) (albums w)), w).

(** Stable insertion by descending createdAt, for [.sort({ createdAt: -1 })]. *)
Fixpoint insertDesc (a : AlbumDoc.t) (l : list AlbumDoc.t) : list AlbumDoc.t :=
  match l with
  | [] => [a]
  | b :: rest =>
      if (AlbumDoc.createdAt b <? AlbumDoc.createdAt a)%Z
      then a :: l
      else b :: insertDesc a rest
  end.

Definition sortCreatedAtDesc (l : list AlbumDoc.t) : list AlbumDoc.t :=
  fold_left (fun acc a => insertDesc a acc) l [].

(** [Album.find({ addedBy }).sort({ createdAt: -1 })]. *)
Definition find_addedBy_sorted (owner : ObjectId) : Js (list AlbumDoc.t) :=
  fun w =>
    (Normal (sortCreatedAtDesc
               (List.filter (fun a => String.eqb (AlbumDoc.addedBy a) owner) (albums w))),
     w).

(** One album of [Album.find().populate("addedBy", "name email")]: the
    owner reference is replaced by the owner's _id, name and email, or by
    null when no such user is left. *)
Definition populated (us : list UserDoc.t) (a : AlbumDoc.t) : Value :=
  let owner :=
    match List.find (fun u => String.eqb (UserDoc._id u) (AlbumDoc.addedBy a)) us with
    | Some u => VObj [("_id", VStr (UserDoc._id u)); ("name", VStr (UserDoc.name u));
                      ("email", VStr (UserDoc.email u))]
    | None => VNull
    end in
  VObj ([("_id", VStr (AlbumDoc._id a)); ("title", VStr (AlbumDoc.title a));
         ("artists", VArr (map VStr (AlbumDoc.artists a)));
         ("format", VStr (AlbumDoc.format a));
         ("releaseDate", VNum (AlbumDoc.releaseDate a))]
        ++ optField "coverArtUrl" (AlbumDoc.coverArtUrl a)
        ++ optField "coverArtId" (AlbumDoc.coverArtId a)
        ++ [("addedBy", owner); ("createdAt", VNum (AlbumDoc.createdAt a))]).

Definition find_populated : Js (list Value) :=
  fun w => (Normal (map (populated (users w)) (albums w)), w).

(** [draft.save()]: the required paths and the enum are validated (a
    release date no Date can hold failed its cast and fails here), the
    timestamp is taken and the document inserted. *)
Definition save (d : draft) : Js AlbumDoc.t :=
  match d_title d, d_format d, d_releaseDate d, d_addedBy d with
  | Some t, Some f, Some r, Some o =>
      if JsString.nonEmpty t && forallb JsString.nonEmpty (d_artists d)
         && inEnum formats f && validDate r
      then fun w =>
             let a := AlbumDoc.mk (d_id d) t (d_artists d) f r
                        (d_coverArtUrl d) (d_coverArtId d) o (clock w) in
             (Normal a, setAlbums w (albums w ++ [a]))
      else throw (ValidationError "Album")
  | _, _, _, _ => throw (ValidationError "Album")
  end.

Definition orElse {A} (o : option A) (d : A) : A :=
  match o with Some x => x | None => d end.

(** The document after [$set] of every schema path present in [updates],
    a plain object of fields. *)
Definition applyUpdates (updates : Body.t) (a : AlbumDoc.t) : AlbumDoc.t :=
  AlbumDoc.mk (AlbumDoc._id a)
    (orElse (option_map JsString.trim (Body.title updates)) (AlbumDoc.title a))
    (orElse (option_map (map JsString.trim) (Body.artists updates)) (AlbumDoc.artists a))
    (orElse (Body.format updates) (AlbumDoc.format a))
    (orElse (Body.releaseDate updates) (AlbumDoc.releaseDate a))
    (match Body.coverArtUrl updates with
     | Some u => Some (JsString.trim u) | None => AlbumDoc.coverArtUrl a end)
    (match Body.coverArtId updates with
     | Some i => Some (JsString.trim i) | None => AlbumDoc.coverArtId a end)
    (orElse (Body.addedBy updates) (AlbumDoc.addedBy a))
    (AlbumDoc.createdAt a).

(** The casts of the paths being set: a release date a Date can hold and
    an owner that is an ObjectId. *)
Definition castableUpdates (updates : Body.t) : bool :=
  match Body.releaseDate updates with
  | Some r => validDate r | None => true end
  && match Body.addedBy updates with
     | Some o => isObjectId o | None => true end.

(** The casts, and with runValidators the validators, of the paths being
    set. *)
Definition validUpdates (updates : Body.t) : bool :=
  match Body.title updates with
  | Some t => JsString.nonEmpty (JsString.trim t) | None => true end
  && match Body.artists updates with
     | Some l => forallb (fun x => JsString.nonEmpty (JsString.trim x)) l
     | None => true end
  && match Body.format updates with
     | Some f => inEnum formats f | None => true end
  && castableUpdates updates.

(** [Album.findByIdAndUpdate(id, updates, { new: true, runValidators: true })]:
    the id and the updates are cast and validated, which may reject the
    query; it returns the updated document, or null when the id selects
    none. *)
Definition findByIdAndUpdate (id : string) (updates : Body.t)
  : Js (option AlbumDoc.t) :=
  if negb (isObjectId id)
  then throw (CastError "ObjectId" "_id")
  else if validUpdates updates
  then fun w =>
         match List.find (fun a => String.eqb (AlbumDoc._id a) id) (albums w) with
         | Some a =>
             let a' := applyUpdates updates a in
             (Normal (Some a'),
              setAlbums w (replaceFirst (fun x => String.eqb (AlbumDoc._id x) id)
                             a' (albums w)))
         | None => (Normal None, w)
         end
  else if castableUpdates updates
  then throw (ValidationError "Album")
  else throw (match Body.releaseDate updates with
              | Some r => if validDate r
                          then CastError "ObjectId" "addedBy"
                          else CastError "date" "releaseDate"
              | None => CastError "ObjectId" "addedBy"
              end).

Definition findByIdAndDelete (id : ObjectId) : Js (option AlbumDoc.t) :=
  fun w =>
    match List.find (fun a => String.eqb (AlbumDoc._id a) id) (albums w) with
    | Some a =>
        (Normal (Some a),
         setAlbums w (deleteFirst (fun x => String.eqb (AlbumDoc._id x) id) (albums w)))
    | None => (Normal None, w)
    end.

End Album.

(** ** Responses (sendResponse.js and the two terminal handlers of index.js) *)

Record Response : Type := mkResponse { statusCode : nat; json : Value }.

(** [sendResponse(res, statusCode, success, message, data = null)]: the
    body is [{ success, message }], and [data] is added when it is
    truthy. *)
Definition sendResponse (statusCode : nat) (success : bool) (message : string)
    (data : Value) : Response :=
  mkResponse statusCode
    (VObj ([("success", VBool success); ("message", VStr message)]
           ++ (if truthy data then [("data", data)] else []))).

(** index.js, the 404 handler. *)
Definition notFoundHandler : Response :=
  sendResponse 404 false "Route not found" VNull.

(** index.js, the error handler: [err.status || 500] and
    [err.message || "Unexpected error"]. *)
Definition errorHandler (err : JsError.t) : Response :=
  sendResponse
    (match JsError.status err with
     | Some 0 | None => 500
     | Some s => s
     end)
    false
    (if JsString.nonEmpty (JsError.message err)
     then JsError.message err else "Unexpected error")
    VNull.

(** A controller answers every request: with what it sent, or, after
    [next(error)], with what the error handler sends. *)
Definition Handler : Type := Req.t -> World -> Response * World.

(** [try { body } catch (error) { cleanup; next(error) }]. The cleanup is
    a call of deleteImgCloudinary, which does not throw. *)
Definition tryNext (body : Js Response) (cleanup : Js unit)
  : World -> Response * World :=
  fun w =>
    match body w with
    | (Normal r, w') => (r, w')
    | (Thrown e, w') => (errorHandler e, snd (cleanup w'))
    end.

(** A guard of the chain: it completes with the (augmented) request,
    which is [next()], or throws, which is [next(error)]. *)
Definition Middleware : Type := Req.t -> Js Req.t.

(** A route: the guards in order, then the controller; the first guard
    that throws ends the chain at the error handler. *)
Fixpoint chain (guards : list Middleware) (h : Handler) : Handler :=
  fun req w =>
    match guards with
    | [] => h req w
    | g :: rest =>
        match g req w with
        | (Normal req', w') => chain rest h req' w'
        | (Thrown e, w') => (errorHandler e, w')
        end
    end.

(** [req.user] and [req.album] where the source reads a property of
    them: undefined throws a TypeError. *)
Definition reqUser (req : Req.t) : Js UserDoc.t :=
  match Req.user req with
  | Some u => ret u
  | None => throw (TypeError "Cannot read properties of undefined")
  end.

Definition reqAlbum (req : Req.t) : Js AlbumDoc.t :=
  match Req.album req with
  | Some a => ret a
  | None => throw (TypeError "Cannot read properties of undefined")
  end.

Definition truthyOpt (o : option string) : bool :=
  match o with Some s => JsString.nonEmpty s | None => false end.

(** ** The primitives the application is linked against *)

Module Decoded.
(** The payload of a verified token. *)
Record t : Type := mk { id : ObjectId; email : string }.
End Decoded.

(** A Number: NaN, an infinity, or the rational [num / den] it holds. *)
Inductive JsNumber : Type :=
| NaN
| Infinity (negative : bool)
| Finite (num : Z) (den : positive).

Module Primitives.
(** utils/token.js (not among the sources) and the bcrypt package, taken
    as given: [verifyToken] returns the payload or throws,
    [generateToken] signs an id and an email, [hash] is
    [bcrypt.hash(p, await bcrypt.genSalt(10))] and [compare] is
    [bcrypt.compare] on two strings. With them the engine's two
    conversions between strings and Numbers: [number] is [Number(s)] and
    [numberToString] is [String(n)] for an integer [n]. *)
Record t : Type := mk {
  verifyToken : string -> JsError.t + Decoded.t;
  generateToken : ObjectId -> string -> string;
  hash : string -> string;
  compare : string -> string -> bool;
  number : string -> JsNumber;
  numberToString : Z -> string
}.
End Primitives.

(** ** The comparisons and casts of untyped values *)

Module Ecma.

Definition numEq (a b : JsNumber) : bool :=
  match a, b with
  | Finite p q, Finite p' q' => (p * Zpos q' =? p' * Zpos q)%Z
  | Infinity s, Infinity s' => Bool.eqb s s'
  | _, _ => false
  end.

Definition numLt (a b : JsNumber) : bool :=
  match a, b with
  | Finite p q, Finite p' q' => (p * Zpos q' <? p' * Zpos q)%Z
  | Infinity true, Finite _ _ | Infinity true, Infinity false => true
  | Finite _ _, Infinity false => true
  | _, _ => false
  end.

Fixpoint joinComma (l : list string) : string :=
  match l with
  | [] => ""
  | [x] => x
  | x :: rest => x ++ "," ++ joinComma rest
  end.

Fixpoint allSome {A} (l : list (option A)) : option (list A) :=
  match l with
  | [] => Some []
  | Some x :: rest => option_map (cons x) (allSome rest)
  | None :: _ => None
  end.

(** An object of a parsed body has data properties only, so an own
    [toString] key hides Object.prototype.toString behind a value that
    cannot be called. *)
Definition hasOwn (k : string) (v : Value) : bool := isSome (getField k v).

(** ToString, [None] where it throws a TypeError. An array is its
    elements joined by commas, undefined and null elements giving the
    empty string; an object is "[object Object]", unless its own
    [toString] key leaves it without a method to call. *)
Fixpoint toString (prim : Primitives.t) (v : Value) : option string :=
  match v with
  | VUndefined => Some "undefined"
  | VNull => Some "null"
  | VBool b => Some (if b then "true" else "false")
  | VNum n => Some (Primitives.numberToString prim n)
  | VStr s => Some s
  | VArr items =>
      option_map joinComma
        (allSome (map (fun x => match x with
                                | VUndefined | VNull => Some ""
                                | _ => toString prim x
                                end) items))
  | VObj _ => if hasOwn "toString" v then None else Some "[object Object]"
  end.

Definition isNullish (v : Value) : bool :=
  match v with VUndefined | VNull => true | _ => false end.

Definition isObject (v : Value) : bool :=
  match v with VArr _ | VObj _ => true | _ => false end.

(** ToPrimitive: an array or an object of a parsed body has no valueOf
    that returns a primitive, so it becomes its string. *)
Definition toPrimitive (prim : Primitives.t) (v : Value) : option Value :=
  if isObject v then option_map VStr (toString prim v) else Some v.

(** ToNumber of a primitive. *)
Definition toNumber (prim : Primitives.t) (v : Value) : JsNumber :=
  match v with
  | VNull => Finite 0 1
  | VBool b => Finite (if b then 1 else 0) 1
  | VNum n => Finite n 1
  | VStr s => Primitives.number prim s
  | VUndefined | VArr _ | VObj _ => NaN
  end.

(** [x == y] (IsLooselyEqual) for two values of a parsed body, [None]
    where it throws: undefined and null equal each other and nothing
    else; two arrays or objects are two different objects; otherwise an
    array or object is replaced by its primitive, two strings are
    compared as strings and any other pair as Numbers. *)
Definition looseEq (prim : Primitives.t) (x y : Value) : option bool :=
  if isNullish x || isNullish y then Some (isNullish x && isNullish y)
  else if isObject x && isObject y then Some false
  else match toPrimitive prim x, toPrimitive prim y with
       | Some (VStr a), Some (VStr b) => Some (String.eqb a b)
       | Some x', Some y' => Some (numEq (toNumber prim x') (toNumber prim y'))
       | _, _ => None
       end.

(** [v.length] for a value that is neither undefined nor null. *)
Definition lengthOf (v : Value) : Value :=
  match v with
  | VStr s => VNum (Z.of_nat (String.length s))
  | VArr items => VNum (Z.of_nat (List.length items))
  | VObj _ => match getField "length" v with Some x => x | None => VUndefined end
  | _ => VUndefined
  end.

(** [v < n] for a Number [n], [None] where it throws. *)
Definition lessThan (prim : Primitives.t) (v : Value) (n : Z) : option bool :=
  option_map (fun p => numLt (toNumber prim p) (Finite n 1)) (toPrimitive prim v).

(** The value of an expression, or the TypeError it throws. *)
Definition orThrow {A} (o : option A) : Js A :=
  match o with
  | Some a => ret a
  | None => throw (TypeError "Cannot convert object to primitive value")
  end.

(** Mongoose's cast of a value assigned to a String path: a string is
    kept, a number or a boolean is rendered, an object with a string
    [_id] gives that, and an array or any other object fails the cast. *)
Definition castString (prim : Primitives.t) (v : Value) : option string :=
  match v with
  | VStr s => Some s
  | VNum n => Some (Primitives.numberToString prim n)
  | VBool b => Some (if b then "true" else "false")
  | VObj _ =>
      match getField "_id" v with
      | Some (VStr s) => if JsString.nonEmpty s then Some s else None
      | _ => None
      end
  | VArr _ | VUndefined | VNull => None
  end.

End Ecma.

(** [if (req.file?.filename) await deleteImgCloudinary(req.file.filename)],
    the cleanup of the catch blocks that follow an upload. *)
Definition fileCleanup (req : Req.t) : Js unit :=
  match Req.file req with
  | Some f => deleteImgCloudinary (Some (File.filename f))
  | None => ret tt
  end.

(** [throw createError(status, message)] inside a module whose top-level
    bindings are [scope]: the call needs [createError] to be bound there;
    where it is not, evaluating the identifier throws a ReferenceError in
    its place. *)
Definition throwCreateError {A} (scope : list string) (status : nat)
    (message : string) : Js A :=
  if existsb (String.eqb "createError") scope
  then throw (createError status message)
  else throw (ReferenceError "createError").

(** ** middlewares/auth.middleware.js *)

Module AuthMiddleware.

Definition imports : list string :=
  ["Album"; "User"; "verifyToken"; "createError"].

(** [req.headers.authorization?.replace("Bearer ", "")]. *)
Definition tokenOf (req : Req.t) : option string :=
  option_map (JsString.removeFirst "Bearer ") (Req.authorization req).

(** The call [verifyToken(token)]; the world records the token. *)
Definition callVerifyToken (prim : Primitives.t) (token : string) : Js Decoded.t :=
  fun w =>
    (match Primitives.verifyToken prim token with
     | inl e => Thrown e
     | inr d => Normal d
     end,
     mkWorld (users w) (albums w) (destroyed w) (verified w ++ [token])
             (nextOid w) (clock w)).

Definition isAuth (prim : Primitives.t) (allowedRoles : list string) : Middleware :=
  fun req =>
    if truthyOpt (tokenOf req)
    then
      decoded <- callVerifyToken prim
                   (match tokenOf req with Some t => t | None => "" end) ;;
      user <- User.findById (Decoded.id decoded) ;;
      match user with
      | None => throwCreateError imports 401 "Unauthorized: No user found in request"
      | Some u =>
          if negb (Nat.eqb (List.length allowedRoles) 0)
             && negb (existsb (String.eqb (UserDoc.role u)) allowedRoles)
          then throwCreateError imports 403
                 ("Access denied for role: " ++ UserDoc.role u)
          else ret (Req.setUser req u)
      end
    else throwCreateError imports 401 "No token provided".

Definition isOwner : Middleware :=
  fun req =>
    album <- Album.findById (Req.params_id req) ;;
    match album with
    | None => throwCreateError imports 404 "Album not found"
    | Some a =>
        user <- reqUser req ;;
        if negb (String.eqb (AlbumDoc.addedBy a) (UserDoc.id user))
        then throwCreateError imports 403 "Not authorized"
        else ret (Req.setAlbum req a)
    end.

End AuthMiddleware.

(** ** api/controllers/albums.controllers.js *)

Module AlbumsControllers.

Definition imports : list string :=
  ["deleteImgCloudinary"; "Album"; "sendResponse"; "createError"].

Definition getMyAlbums : Handler :=
  fun req =>
    tryNext
      (user <- reqUser req ;;
       myAlbums <- Album.find_addedBy_sorted (UserDoc._id user) ;;
       if Nat.eqb (List.length myAlbums) 0
       then ret (sendResponse 200 true "You haven't added any albums yet" (VArr []))
       else ret (sendResponse 200 true "Albums fetched successfully"
                   (VArr (map AlbumDoc.toJSON myAlbums))))
      (ret tt).

Definition getAlbumById : Handler :=
  fun req =>
    tryNext
      (ret (sendResponse 200 true "Album fetched successfully"
              (match Req.album req with
               | Some a => AlbumDoc.toJSON a
               | None => VUndefined
               end)))
      (ret tt).

(** [{ ...req.body, titleNormalized, artistsNormalized, addedBy }]. *)
Definition spreadForCreate (b : Body.t) (normalizedTitle : string)
    (normalizedArtists : list string) (addedBy : ObjectId) : Body.t :=
  Body.Build (Body.title b) (Body.artists b) (Body.format b) (Body.releaseDate b)
    (Body.coverArtUrl b) (Body.coverArtId b) (Some addedBy)
    (Some normalizedTitle) (Some normalizedArtists)
    (Body.name b) (Body.email b) (Body.password b) (Body.role b)
    (Body.profileImageUrl b) (Body.profileImageId b)
    (Body.currentPasswordValue b) (Body.newPasswordValue b)
    (Body.confirmPasswordValue b).

Definition postAlbum : Handler :=
  fun req =>
    tryNext
      (let artists :=
         match Body.artists (Req.body req) with Some l => l | None => [] end in
       user <- reqUser req ;;
       let addedBy := UserDoc._id user in
       title <- match Body.title (Req.body req) with
                | Some t => ret t
                | None => throw (TypeError "Cannot read properties of undefined")
                end ;;
       let normalizedTitle := JsString.toLowerCase (JsString.trim title) in
       let normalizedArtists :=
         map (fun a => JsString.toLowerCase (JsString.trim a)) artists in
       albumExist <- Album.findOne
                       (Album.mkFilter normalizedTitle normalizedArtists
                          (List.length normalizedArtists) addedBy) ;;
       if isSome albumExist
       then throwCreateError imports 400
              "This album already exists in your collection"
       else
         newAlbum <- Album.new (spreadForCreate (Req.body req) normalizedTitle
                                  normalizedArtists addedBy) ;;
         albumSaved <- Album.save
                         (match Req.file req with
                          | Some f => Album.setCover newAlbum (File.path f) (File.filename f)
                          | None => newAlbum
                          end) ;;
         ret (sendResponse 201 true "Album created successfully"
                (AlbumDoc.toJSON albumSaved)))
      (fileCleanup req).

(** [{ ...req.body }], then the two cover paths when a file came. *)
Definition updatesOf (req : Req.t) : Body.t :=
  let b := Req.body req in
  match Req.file req with
  | Some f =>
      Body.Build (Body.title b) (Body.artists b) (Body.format b) (Body.releaseDate b)
        (Some (File.path f)) (Some (File.filename f)) (Body.addedBy b)
        (Body.titleNormalized b) (Body.artistsNormalized b)
        (Body.name b) (Body.email b) (Body.password b) (Body.role b)
        (Body.profileImageUrl b) (Body.profileImageId b)
        (Body.currentPasswordValue b) (Body.newPasswordValue b)
        (Body.confirmPasswordValue b)
  | None => b
  end.

Definition updateAlbum : Handler :=
  fun req =>
    tryNext
      (let id := Req.params_id req in
       prev <- Album.findById id ;;
       match prev with
       | None => throwCreateError imports 404 "Album not found"
       | Some p =>
           let newCoverArtId := option_map File.filename (Req.file req) in
           updated <- Album.findByIdAndUpdate id (updatesOf req) ;;
           when (truthyOpt newCoverArtId && truthyOpt (AlbumDoc.coverArtId p))
                (deleteImgCloudinary (AlbumDoc.coverArtId p)) ;;;
           ret (sendResponse 200 true "Album updated successfully"
                  (match updated with
                   | Some a => AlbumDoc.toJSON a
                   | None => VNull
                   end))
       end)
      (fileCleanup req).

Definition deleteAlbum : Handler :=
  fun req =>
    tryNext
      (album <- reqAlbum req ;;
       when (truthyOpt (AlbumDoc.coverArtId album))
            (deleteImgCloudinary (AlbumDoc.coverArtId album)) ;;;
       Album.findByIdAndDelete (AlbumDoc._id album) ;;;
       ret (sendResponse 200 true "Album deleted successfully"
              (AlbumDoc.toJSON album)))
      (ret tt).

End AlbumsControllers.

(** ** api/controllers/users.controllers.js *)

Module UsersControllers.

Definition imports : list string :=
  ["User"; "bcrypt"; "deleteImgCloudinary"; "sendResponse"; "createError"].

Definition getMyProfile : Handler :=
  fun req =>
    tryNext
      (me <- reqUser req ;;
       user <- User.findById (UserDoc._id me) ;;
       match user with
       | None => throwCreateError imports 404 "User not found"
       | Some u =>
           ret (sendResponse 200 true "User fetched successfully"
                  (UserDoc.toJSON_selectMinusPassword u))
       end)
      (ret tt).

(** The assignments [user.name = ...] and [user.email = ...], each
    through the path's setter. *)
Definition assignName (u : UserDoc.t) (v : string) : UserDoc.t :=
  UserDoc.mk (UserDoc._id u) (JsString.trim v) (UserDoc.email u)
    (UserDoc.password u) (UserDoc.role u) (UserDoc.profileImageUrl u)
    (UserDoc.profileImageId u).

Definition assignEmail (u : UserDoc.t) (v : string) : UserDoc.t :=
  UserDoc.mk (UserDoc._id u) (UserDoc.name u) (User.castEmail v)
    (UserDoc.password u) (UserDoc.role u) (UserDoc.profileImageUrl u)
    (UserDoc.profileImageId u).

Definition assignPassword (u : UserDoc.t) (v : string) : UserDoc.t :=
  UserDoc.mk (UserDoc._id u) (UserDoc.name u) (UserDoc.email u)
    (JsString.trim v) (UserDoc.role u) (UserDoc.profileImageUrl u)
    (UserDoc.profileImageId u).

Definition assignImage (u : UserDoc.t) (url pid : string) : UserDoc.t :=
  UserDoc.mk (UserDoc._id u) (UserDoc.name u) (UserDoc.email u)
    (UserDoc.password u) (UserDoc.role u) (Some (JsString.trim url))
    (Some (JsString.trim pid)).

Definition updateMyProfile (prim : Primitives.t) : Handler :=
  fun req =>
    tryNext
      (me <- reqUser req ;;
       found <- User.findById (UserDoc._id me) ;;
       match found with
       | None => throwCreateError imports 404 "User not found"
       | Some user =>
           if truthyOpt (Body.role (Req.body req))
           then throwCreateError imports 403 "You are not allowed to change your role"
           else if truthyOpt (Body.password (Req.body req))
           then throwCreateError imports 403
                  "You are not allowed to change your password here. Use /users/change-password instead"
           else
             let user1 :=
               match Body.name (Req.body req) with
               | Some n => if JsString.nonEmpty n
                           then assignName user (JsString.trim n) else user
               | None => user
               end in
             let user2 :=
               match Body.email (Req.body req) with
               | Some e => if JsString.nonEmpty e
                           then assignEmail user1 (JsString.trim (JsString.toLowerCase e))
                           else user1
               | None => user1
               end in
             user3 <- match Req.file req with
                      | Some f =>
                          when (truthyOpt (UserDoc.profileImageId user2))
                               (deleteImgCloudinary (UserDoc.profileImageId user2)) ;;;
                          ret (assignImage user2 (File.path f) (File.filename f))
                      | None => ret user2
                      end ;;
             updatedUser <- User.saveLoaded (Primitives.hash prim) user user3 ;;
             ret (sendResponse 200 true "Profile updated successfully"
                    (VObj (UserDoc.deletePassword (UserDoc.toObject updatedUser))))
       end)
      (ret tt).

(** [await bcrypt.compare(data, hash)]: the package rejects data that
    is no string. *)
Definition bcryptCompare (prim : Primitives.t) (data : Value) (hash : string)
  : Js bool :=
  match data with
  | VStr s => ret (Primitives.compare prim s hash)
  | _ => throw (JsError.mk "Error" None "data and hash must be strings")
  end.

(** [user.password = v; await user.save()]: a value the String path
    cannot cast fails the validation of the save. *)
Definition savePassword (prim : Primitives.t) (user : UserDoc.t) (v : Value)
  : Js UserDoc.t :=
  match Ecma.castString prim v with
  | Some s => User.saveLoaded (Primitives.hash prim) user (assignPassword user s)
  | None => throw (ValidationError "User")
  end.

Definition changeMyPassword (prim : Primitives.t) : Handler :=
  fun req =>
    tryNext
      (let currentPassword := Body.currentPasswordValue (Req.body req) in
       let newPassword := Body.newPasswordValue (Req.body req) in
       let confirmPassword := Body.confirmPasswordValue (Req.body req) in
       if negb (truthy currentPassword) || negb (truthy newPassword)
          || negb (truthy confirmPassword)
       then throwCreateError imports 400 "All fields are required"
       else
         equal <- Ecma.orThrow (Ecma.looseEq prim newPassword confirmPassword) ;;
         if negb equal
         then throwCreateError imports 400 "New passwords do not match"
         else
           me <- reqUser req ;;
           found <- User.findById (UserDoc._id me) ;;
           match found with
           | None => throwCreateError imports 404 "User not found"
           | Some user =>
               isMatch <- bcryptCompare prim currentPassword (UserDoc.password user) ;;
               if negb isMatch
               then throwCreateError imports 401 "Current password is incorrect"
               else
                 short <- Ecma.orThrow (Ecma.lessThan prim (Ecma.lengthOf newPassword) 8) ;;
                 if short
                 then throwCreateError imports 400
                        "Password must be at least 8 characters long"
                 else
                   saved <- savePassword prim user newPassword ;;
                   ret (sendResponse 200 true "Password changed successfully"
                          (VStr (UserDoc.password saved)))
           end)
      (ret tt).

Definition deleteMyAccount : Handler :=
  fun req =>
    tryNext
      (me <- reqUser req ;;
       found <- User.findById (UserDoc._id me) ;;
       match found with
       | None => throwCreateError imports 404 "User not found"
       | Some user =>
           when (truthyOpt (UserDoc.profileImageId user))
                (deleteImgCloudinary (UserDoc.profileImageId user)) ;;;
           User.findByIdAndDelete (UserDoc._id me) ;;;
           ret (sendResponse 200 true "Account deleted successfully"
                  (UserDoc.toJSON user))
       end)
      (ret tt).

End UsersControllers.

(** ** api/controllers/auth.controllers.js *)

Module AuthControllers.

Definition imports : list string :=
  ["User"; "bcrypt"; "generateToken"; "deleteImgCloudinary"; "sendResponse";
   "createError"].

Definition registerUser (prim : Primitives.t) : Handler :=
  fun req =>
    tryNext
      (user <- User.new (Req.body req) ;;
       userExist <- User.findOne_email (User.d_email user) ;;
       if isSome userExist
       then
         match Req.file req with
         | Some f => deleteImgCloudinary (Some (File.filename f))
         | None => ret tt
         end ;;;
         throwCreateError imports 400 "This user already exists"
       else
         userDB <- User.save (Primitives.hash prim)
                     (match Req.file req with
                      | Some f => User.setImage user (File.path f) (File.filename f)
                      | None => user
                      end) ;;
         ret (sendResponse 201 true "User registered successfully"
                (UserDoc.toJSON userDB)))
      (fileCleanup req).

Definition loginUser (prim : Primitives.t) : Handler :=
  fun req =>
    tryNext
      (found <- User.findOne_email (Body.email (Req.body req)) ;;
       match found with
       | None => throwCreateError imports 404 "User not found"
       | Some user =>
           match Body.password (Req.body req) with
           | Some p =>
               if Primitives.compare prim p (UserDoc.password user)
               then ret (sendResponse 200 true "Token created successfully"
                           (VStr (Primitives.generateToken prim
                                    (UserDoc._id user) (UserDoc.email user))))
               else throwCreateError imports 401 "Invalid credentials"
           | None => throw (JsError.mk "Error" None "data and hash arguments required")
           end
       end)
      (ret tt).

End AuthControllers.

(** ** api/controllers/admin.controllers.js *)

Module AdminControllers.

(** The module's four require lines; createError is not one of them. *)
Definition imports : list string :=
  ["Album"; "User"; "deleteImgCloudinary"; "sendResponse"].

Definition getAllAlbums : Handler :=
  fun req =>
    tryNext
      (albums <- Album.find_populated ;;
       ret (sendResponse 200 true "Albums fetched successfully" (VArr albums)))
      (ret tt).

Definition deleteAlbum : Handler :=
  fun req =>
    tryNext
      (album <- reqAlbum req ;;
       when (truthyOpt (AlbumDoc.coverArtId album))
            (deleteImgCloudinary (AlbumDoc.coverArtId album)) ;;;
       Album.findByIdAndDelete (AlbumDoc._id album) ;;;
       ret (sendResponse 200 true "Album deleted successfully"
              (AlbumDoc.toJSON album)))
      (ret tt).

Definition getAllUsers : Handler :=
  fun req =>
    tryNext
      (users <- User.find ;;
       ret (sendResponse 200 true "Users fetched successfully"
              (VArr (map UserDoc.toJSON users))))
      (ret tt).

Definition deleteUser : Handler :=
  fun req =>
    tryNext
      (let id := Req.params_id req in
       userDeleted <- User.findByIdAndDelete id ;;
       match userDeleted with
       | None => throwCreateError imports 404 "User not found"
       | Some u =>
           when (truthyOpt (UserDoc.profileImageId u))
                (deleteImgCloudinary (UserDoc.profileImageId u)) ;;;
           ret (sendResponse 200 true "User deleted successfully"
                  (UserDoc.toJSON u))
       end)
      (ret tt).

End AdminControllers.

(** ** The routers (api/routes) and the application (index.js) *)

Module Routes.

Inductive auth : Type := Register | Login | AuthOther.

Inductive albums : Type :=
  ListAlbums | CreateAlbum | GetAlbum | UpdateAlbum | DeleteAlbum | AlbumsOther.

Inductive users : Type :=
  GetMe | UpdateMe | ChangePassword | DeleteMe | UsersOther.

Inductive admin : Type :=
  AdminAlbums | AdminUsers | AdminDeleteAlbum | AdminDeleteUser | AdminOther.

(** A request as the application dispatches it: the mount point and the
    route below it, the root route, or a path no mount point takes. *)
Inductive t : Type :=
| Auth (r : auth)
| Albums (r : albums)
| Users (r : users)
| Admin (r : admin)
| Root
| Unmatched.

End Routes.

(** A request that leaves a router unanswered reaches the 404 handler. *)
Definition fallThrough : Handler := fun _ w => (notFoundHandler, w).

Definition authRouter (prim : Primitives.t) (r : Routes.auth) : Handler :=
  match r with
  | Routes.Register => chain [upload_single] (AuthControllers.registerUser prim)
  | Routes.Login => AuthControllers.loginUser prim
  | Routes.AuthOther => fallThrough
  end.

Definition albumsRouter (prim : Primitives.t) (r : Routes.albums) : Handler :=
  let isAuth := AuthMiddleware.isAuth prim [] in
  let isOwner := AuthMiddleware.isOwner in
  match r with
  | Routes.ListAlbums => chain [isAuth] AlbumsControllers.getMyAlbums
  | Routes.CreateAlbum => chain [isAuth; upload_single] AlbumsControllers.postAlbum
  | Routes.GetAlbum => chain [isAuth; isOwner] AlbumsControllers.getAlbumById
  | Routes.UpdateAlbum =>
      chain [isAuth; isOwner; upload_single] AlbumsControllers.updateAlbum
  | Routes.DeleteAlbum => chain [isAuth; isOwner] AlbumsControllers.deleteAlbum
  | Routes.AlbumsOther => chain [isAuth] fallThrough
  end.

Definition usersRouter (prim : Primitives.t) (r : Routes.users) : Handler :=
  let isAuth := AuthMiddleware.isAuth prim [] in
  match r with
  | Routes.GetMe => chain [isAuth] UsersControllers.getMyProfile
  | Routes.UpdateMe =>
      chain [isAuth; upload_single] (UsersControllers.updateMyProfile prim)
  | Routes.ChangePassword => chain [isAuth] (UsersControllers.changeMyPassword prim)
  | Routes.DeleteMe => chain [isAuth] UsersControllers.deleteMyAccount
  | Routes.UsersOther => chain [isAuth] fallThrough
  end.

Definition adminRouter (prim : Primitives.t) (r : Routes.admin) : Handler :=
  let isAuth := AuthMiddleware.isAuth prim ["admin"] in
  match r with
  | Routes.AdminAlbums => chain [isAuth] AdminControllers.getAllAlbums
  | Routes.AdminUsers => chain [isAuth] AdminControllers.getAllUsers
  | Routes.AdminDeleteAlbum => chain [isAuth] AdminControllers.deleteAlbum
  | Routes.AdminDeleteUser => chain [isAuth] AdminControllers.deleteUser
  | Routes.AdminOther => chain [isAuth] fallThrough
  end.

Definition app (prim : Primitives.t) (r : Routes.t) : Handler :=
  match r with
  | Routes.Auth r' => authRouter prim r'
  | Routes.Albums r' => albumsRouter prim r'
  | Routes.Users r' => usersRouter prim r'
  | Routes.Admin r' => adminRouter prim r'
  | Routes.Root => fun _ w => (sendResponse 200 true "API is running" VNull, w)
  | Routes.Unmatched => fallThrough
  end.

(** ** A concrete deployment, for running the handlers *)

Module Sample.

(** Stand-ins for the linked primitives: a token is "tok-" followed by
    the user's id, a hash is "$2b$" followed by the password; a string
    of decimal digits converts to the Number it writes, any other string
    used here to NaN. *)
Fixpoint digitsValue (acc : Z) (s : string) : option Z :=
  match s with
  | EmptyString => Some acc
  | String c s' =>
      let n := nat_of_ascii c in
      if ((48 <=? n) && (n <=? 57))%nat
      then digitsValue (10 * acc + Z.of_nat (n - 48))%Z s'
      else None
  end.

Definition number (s : string) : JsNumber :=
  match s with
  | EmptyString => Finite 0 1
  | _ => match digitsValue 0 s with
         | Some n => Finite n 1
         | None => NaN
         end
  end.

Definition numberToString (n : Z) : string :=
  NilZero.string_of_int (Z.to_int n).

Definition verifyToken (t : string) : JsError.t + Decoded.t :=
  if JsString.startsWith "tok-" t
  then inr (Decoded.mk (JsString.drop 4 t) "")
  else inl (createError 401 "Invalid or expired token").

Definition prim : Primitives.t :=
  Primitives.mk verifyToken
    (fun id _ => String.append "tok-" id)
    (fun p => String.append "$2b$" p)
    (fun p h => String.eqb h (String.append "$2b$" p))
    number numberToString.

Definition alice : UserDoc.t :=
  UserDoc.mk "5f0000000000000000000001" "Alice" "alice@x.com" "$2b$pw12345678" "user" None None.

Definition bob : UserDoc.t :=
  UserDoc.mk "5f0000000000000000000002" "Bob" "bob@x.com" "$2b$hunter2hunter2" "user" None None.

Definition root : UserDoc.t :=
  UserDoc.mk "5f0000000000000000000000" "Root" "root@x.com" "$2b$rootrootroot" "admin" None None.

Definition okComputer : AlbumDoc.t :=
  AlbumDoc.mk "6a0000000000000000000001" "OK Computer" ["Radiohead"] "LP" 864950400000
              None None "5f0000000000000000000001" 1000.

Definition world : World :=
  mkWorld [root; alice; bob] [okComputer] [] [] 0 2000.

(** The same users with no album stored. *)
Definition emptyShelf : World :=
  mkWorld [root; alice; bob] [] [] [] 0 2000.

Definition request (authorization : option string) (id : ObjectId)
    (body : Body.t) (attachment : option File.t) : Req.t :=
  Req.mk authorization id body attachment None None None.

Definition thriller : Body.t :=
  Body.mk (Some "Thriller") (Some ["Michael Jackson"]) (Some "LP")
    (Some 407462400000%Z) None None None None None
    None None None None None None None None None.

Definition giveAway (owner : ObjectId) : Body.t :=
  Body.mk None None None None None None (Some owner) None None
    None None None None None None None None None.

Definition passwords (cur new confirm : string) : Body.t :=
  Body.mk None None None None None None None None None
    None None None None None None (Some cur) (Some new) (Some confirm).

(** A password change whose three fields are any JSON values. *)
Definition passwordValues (cur new confirm : Value) : Body.t :=
  Body.Build None None None None None None None None None
    None None None None None None cur new confirm.

Definition registration (name email password : string) : Body.t :=
  Body.mk None None None None None None None None None
    (Some name) (Some email) (Some password) None None None None None None.

Definition avatar : File.t :=
  File.mk "https://res.cloudinary.com/demo/Craterra/avatar.png" "Craterra/avatar".

End Sample.

(** The two collections and the deletions asked of the image host are the
    same in both worlds. *)
Definition sameStore (w w' : World) : Prop :=
  users w' = users w /\ albums w' = albums w /\ destroyed w' = destroyed w.


(** Every normal completion of [m] satisfies [Q]. *)
Definition post {A} (m : Js A) (Q : A -> Prop) : Prop :=
  forall w a w', m w = (Normal a, w') -> Q a.

(** A Hoare triple for the handler monad: from a world satisfying [P],
    [m] completes normally with a value and a world satisfying [Q], or
    throws in a world satisfying [E]. *)
Definition triple {A} (P : World -> Prop) (m : Js A)
    (Q : A -> World -> Prop) (E : World -> Prop) : Prop :=
  forall w, P w ->
    match m w with
    | (Normal a, w') => Q a w'
    | (Thrown _, w') => E w'
    end.

(** [m] leaves the users collection as it found it. *)
Definition keepsUsers {A} (m : Js A) : Prop :=
  forall w, users (snd (m w)) = users w.

(** Every stored email is in the form the schema's setters produce. *)
Definition castAll (us : list UserDoc.t) : Prop :=
  forall u, In u us -> User.castEmail (UserDoc.email u) = UserDoc.email u.

Definition emailsCast (w : World) : Prop := castAll (users w).

(** Nothing to strip in front: the string is empty or starts with a
    character that is no white space. *)
Definition noLeadingSpace (s : string) : Prop :=
  match s with
  | EmptyString => True
  | String c _ => JsString.isWhiteSpace c = false
  end.

(** ** Notions the further properties are stated with *)

Definition logVerified (w : World) (t : string) : World :=
  mkWorld (users w) (albums w) (destroyed w) (verified w ++ [t])
          (nextOid w) (clock w).

Definition isGuarded (r : Routes.t) : bool :=
  match r with
  | Routes.Albums _ | Routes.Users _ | Routes.Admin _ => true
  | _ => false
  end.


(** The public ids deleteAlbum asks the image host to delete. *)
Definition coverIds (a : AlbumDoc.t) : list string :=
  match AlbumDoc.coverArtId a with
  | Some c => if JsString.nonEmpty c then [c] else []
  | None => []
  end.

(** Newest first: each album is at least as recent as the next. *)
Definition newerFirst (a b : AlbumDoc.t) : Prop :=
  (AlbumDoc.createdAt b <= AlbumDoc.createdAt a)%Z.

(** The user document a registration stores. *)
Definition registered (prim : Primitives.t) (req : Req.t) (w : World)
    (n e pw : string) : UserDoc.t :=
  UserDoc.mk (oidOfNat (nextOid w))
    (JsString.trim n) (User.castEmail e)
    (Primitives.hash prim (JsString.trim pw))
    (match Body.role (Req.body req) with Some r => r | None => "user" end)
    (match Req.file req with
     | Some f => Some (JsString.trim (File.path f))
     | None => option_map JsString.trim (Body.profileImageUrl (Req.body req))
     end)
    (match Req.file req with
     | Some f => Some (JsString.trim (File.filename f))
     | None => option_map JsString.trim (Body.profileImageId (Req.body req))
     end).

(** The conditions under which the schema accepts a registration. *)
Definition acceptable (req : Req.t) (n e pw : string) : Prop :=
  Body.name (Req.body req) = Some n
  /\ Body.email (Req.body req) = Some e
  /\ Body.password (Req.body req) = Some pw
  /\ JsString.nonEmpty (JsString.trim n) = true
  /\ JsString.nonEmpty (User.castEmail e) = true
  /\ User.validPassword (JsString.trim pw) = true
  /\ inEnum User.roles
       (match Body.role (Req.body req) with Some r => r | None => "user" end) = true.

(** What a profile update must not touch: who the user is, the role and
    the credential. *)
Definition credentials (u : UserDoc.t) : ObjectId * string * string :=
  (UserDoc._id u, UserDoc.role u, UserDoc.password u).

(** The public ids the account handlers ask the image host to delete. *)
Definition profileIds (u : UserDoc.t) : list string :=
  match UserDoc.profileImageId u with
  | Some c => if JsString.nonEmpty c then [c] else []
  | None => []
  end.

(** A payload that is a user document shows no password path. *)
Definition hidesPassword (r : Response) : Prop :=
  forall d, getField "data" (json r) = Some d -> getField "password" d = None.

(** The world after a sequence of requests, served one after another. *)
Fixpoint serve (prim : Primitives.t) (trace : list (Routes.t * Req.t)) (w : World)
  : World :=
  match trace with
  | [] => w
  | (r, req) :: rest => serve prim rest (snd (app prim r req w))
  end.

Definition artistsOf (req : Req.t) : list string :=
  match Body.artists (Req.body req) with Some l => l | None => [] end.

(** The filter of postAlbum's duplicate check for caller [u] and title [t]. *)
Definition duplicateFilter (req : Req.t) (u : UserDoc.t) (t : string) : Album.filter :=
  Album.mkFilter (JsString.toLowerCase (JsString.trim t))
    (map (fun a => JsString.toLowerCase (JsString.trim a)) (artistsOf req))
    (List.length (map (fun a => JsString.toLowerCase (JsString.trim a)) (artistsOf req)))
    (UserDoc._id u).

(** What the schema's casts and validators ask of a new album, for a
    body made of the paths kept here whose release date comes as a
    timestamp. *)
Definition storable (req : Req.t) (t f : string) (r : Z) : Prop :=
  Body.title (Req.body req) = Some t
  /\ Body.format (Req.body req) = Some f
  /\ Body.releaseDate (Req.body req) = Some r
  /\ JsString.nonEmpty (JsString.trim t) = true
  /\ forallb JsString.nonEmpty (map JsString.trim (artistsOf req)) = true
  /\ inEnum Album.formats f = true
  /\ validDate r = true.

(** The album document a successful POST /albums stores. *)
Definition created (req : Req.t) (w : World) (u : UserDoc.t) (t f : string) (r : Z)
  : AlbumDoc.t :=
  AlbumDoc.mk (oidOfNat (nextOid w))
    (JsString.trim t) (map JsString.trim (artistsOf req)) f r
    (match Req.file req with
     | Some x => Some (JsString.trim (File.path x))
     | None => option_map JsString.trim (Body.coverArtUrl (Req.body req))
     end)
    (match Req.file req with
     | Some x => Some (JsString.trim (File.filename x))
     | None => option_map JsString.trim (Body.coverArtId (Req.body req))
     end)
    (UserDoc._id u) (clock w).

(** A response is a success, sent with 200 or 201, or a failure, which
    carries no data. *)
Definition verdict (r : Response) : Prop :=
  (getField "success" (json r) = Some (VBool true)
   /\ (statusCode r = 200 \/ statusCode r = 201))
  \/ (getField "success" (json r) = Some (VBool false)
      /\ getField "data" (json r) = None).


(** Everything of a user document but the password. *)
Definition profile (u : UserDoc.t)
  : ObjectId * string * string * string * option string * option string :=
  (UserDoc._id u, UserDoc.name u, UserDoc.email u, UserDoc.role u,
   UserDoc.profileImageUrl u, UserDoc.profileImageId u).

(** * Properties *)

(** ** Strings *)

Example trim_thriller : JsString.trim "  THRILLER " = "THRILLER".
Proof. reflexivity. Qed.

Example lower_thriller :
  JsString.toLowerCase (JsString.trim "  THRILLER ") = "thriller".
Proof. reflexivity. Qed.

Lemma startsWith_append (p s : string) :
  JsString.startsWith p (String.append p s) = true.
Proof.
  induction p as [|c p IH]; simpl; [reflexivity|].
  rewrite Ascii.eqb_refl. exact IH.
Qed.

Lemma drop_append (p s : string) :
  JsString.drop (String.length p) (String.append p s) = s.
Proof. induction p as [|c p IH]; simpl; auto. Qed.

(** A header that starts with the pattern loses exactly that prefix. *)
Lemma removeFirst_prefix (p s : string) :
  JsString.removeFirst p (String.append p s) = s.
Proof.
  destruct p as [|c p].
  - destruct s; reflexivity.
  - assert (H := startsWith_append (String c p) s).
    simpl in H. simpl. rewrite H. apply drop_append.
Qed.

(** A string in which the pattern does not occur is left as it is. *)
Lemma removeFirst_absent (p s : string) :
  JsString.includes p s = false -> JsString.removeFirst p s = s.
Proof.
  induction s as [|c s IH]; simpl; intros H.
  - apply orb_false_iff in H. destruct H as [H _]. now rewrite H.
  - apply orb_false_iff in H. destruct H as [H1 H2].
    rewrite H1. now rewrite IH.
Qed.

Lemma isWhiteSpace_lowerChar (c : ascii) :
  JsString.isWhiteSpace (JsString.lowerChar c) = JsString.isWhiteSpace c.
Proof. destruct c as [[] [] [] [] [] [] [] []]; reflexivity. Qed.

Lemma lowerChar_idempotent (c : ascii) :
  JsString.lowerChar (JsString.lowerChar c) = JsString.lowerChar c.
Proof. destruct c as [[] [] [] [] [] [] [] []]; reflexivity. Qed.

Lemma toLowerCase_idempotent (s : string) :
  JsString.toLowerCase (JsString.toLowerCase s) = JsString.toLowerCase s.
Proof.
  induction s as [|c s IH]; simpl; [reflexivity|].
  now rewrite lowerChar_idempotent, IH.
Qed.

Lemma toLowerCase_trimStart (s : string) :
  JsString.toLowerCase (JsString.trimStart s)
  = JsString.trimStart (JsString.toLowerCase s).
Proof.
  induction s as [|c s IH]; simpl; [reflexivity|].
  rewrite isWhiteSpace_lowerChar.
  destruct (JsString.isWhiteSpace c); [exact IH | reflexivity].
Qed.

Lemma toLowerCase_trimEnd (s : string) :
  JsString.toLowerCase (JsString.trimEnd s)
  = JsString.trimEnd (JsString.toLowerCase s).
Proof.
  induction s as [|c s IH]; simpl; [reflexivity|].
  rewrite <- IH, isWhiteSpace_lowerChar.
  destruct (JsString.trimEnd s) as [|a t]; simpl.
  - destruct (JsString.isWhiteSpace c); reflexivity.
  - reflexivity.
Qed.

Lemma toLowerCase_trim (s : string) :
  JsString.toLowerCase (JsString.trim s) = JsString.trim (JsString.toLowerCase s).
Proof.
  unfold JsString.trim. now rewrite toLowerCase_trimEnd, toLowerCase_trimStart.
Qed.

Lemma trimEnd_idempotent (s : string) :
  JsString.trimEnd (JsString.trimEnd s) = JsString.trimEnd s.
Proof.
  induction s as [|c s IH]; simpl; [reflexivity|].
  destruct (JsString.trimEnd s) as [|a t] eqn:E.
  - destruct (JsString.isWhiteSpace c) eqn:W; simpl; [reflexivity|].
    now rewrite W.
  - change (JsString.trimEnd (String c (String a t))) with
      (match JsString.trimEnd (String a t) with
       | EmptyString =>
           if JsString.isWhiteSpace c then EmptyString else String c EmptyString
       | u => String c u
       end).
    now rewrite IH.
Qed.

Lemma trimStart_noLeadingSpace (s : string) : noLeadingSpace (JsString.trimStart s).
Proof.
  induction s as [|c s IH]; simpl; [exact I|].
  destruct (JsString.isWhiteSpace c) eqn:W; [exact IH | exact W].
Qed.

Lemma trimEnd_noLeadingSpace (s : string) :
  noLeadingSpace s -> noLeadingSpace (JsString.trimEnd s).
Proof.
  destruct s as [|c s]; simpl; [trivial|]. intros W.
  destruct (JsString.trimEnd s); [now rewrite W | exact W].
Qed.

Lemma trimStart_fixed (s : string) : noLeadingSpace s -> JsString.trimStart s = s.
Proof. destruct s as [|c s]; simpl; [trivial|]. now intros ->. Qed.

Lemma trim_idempotent (s : string) :
  JsString.trim (JsString.trim s) = JsString.trim s.
Proof.
  unfold JsString.trim.
  rewrite (trimStart_fixed (JsString.trimEnd (JsString.trimStart s))).
  - apply trimEnd_idempotent.
  - apply trimEnd_noLeadingSpace, trimStart_noLeadingSpace.
Qed.

(** The email setters leave an email they produced as it is. *)
Lemma castEmail_idempotent (s : string) :
  User.castEmail (User.castEmail s) = User.castEmail s.
Proof.
  unfold User.castEmail.
  now rewrite toLowerCase_trim, toLowerCase_idempotent, trim_idempotent.
Qed.

(** ** The handler monad *)

Lemma throwCreateError_bound {A} (scope : list string) (status : nat) (m : string) :
  existsb (String.eqb "createError") scope = true ->
  @throwCreateError A scope status m = throw (createError status m).
Proof. intros H. unfold throwCreateError. now rewrite H. Qed.


Lemma errorHandler_createError (status : nat) (m : string) :
  status <> 0 ->
  statusCode (errorHandler (createError status m)) = status.
Proof. intros H. destruct status; [contradiction | reflexivity]. Qed.

Lemma find_none_iff {D} (sel : D -> bool) (l : list D) :
  List.find sel l = None <-> forall d, In d l -> sel d = false.
Proof.
  split.
  - intros H d Hd. exact (find_none sel l H d Hd).
  - intros H. destruct (List.find sel l) as [d|] eqn:E; [|reflexivity].
    apply find_some in E. destruct E as [Hin Hsel].
    rewrite (H d Hin) in Hsel. discriminate.
Qed.

(** *** Triples *)

Section Triples.

Context {A : Type}.
Variables (P E : World -> Prop).

Lemma triple_ret (a : A) (Q : A -> World -> Prop) :
  (forall w, P w -> Q a w) -> triple P (ret a) Q E.
Proof. intros H w Hw. now apply H. Qed.

Lemma triple_throw (e : JsError.t) (Q : A -> World -> Prop) :
  (forall w, P w -> E w) -> triple P (throw e) Q E.
Proof. intros H w Hw. now apply H. Qed.

Lemma triple_throwCreateError scope st m (Q : A -> World -> Prop) :
  (forall w, P w -> E w) -> triple P (throwCreateError scope st m) Q E.
Proof.
  intros H. unfold throwCreateError.
  destruct (existsb (String.eqb "createError") scope); now apply triple_throw.
Qed.

Lemma triple_bind {B} (m : Js B) (k : B -> Js A) (M : B -> World -> Prop)
    (Q : A -> World -> Prop) :
  triple P m M E -> (forall b, triple (M b) (k b) Q E) -> triple P (bind m k) Q E.
Proof.
  intros Hm Hk w Hw. specialize (Hm w Hw). unfold bind.
  destruct (m w) as [[b|e] w1]; [exact (Hk b w1 Hm) | exact Hm].
Qed.

(** A computation that only reads. *)
Lemma triple_read (m : Js A) (Q : A -> World -> Prop) :
  (forall w, snd (m w) = w) ->
  (forall w a, P w -> fst (m w) = Normal a -> Q a w) ->
  (forall w, P w -> E w) ->
  triple P m Q E.
Proof.
  intros Hs Hq He w Hw. specialize (Hs w). specialize (Hq w).
  destruct (m w) as [[a|e] w1]; cbn [fst snd] in *; subst w1;
    [now apply Hq | now apply He].
Qed.

End Triples.

Lemma triple_tryNext (P Q : World -> Prop) (body : Js Response) (cleanup : Js unit) :
  triple P body (fun _ => Q) Q ->
  (forall w, Q w -> Q (snd (cleanup w))) ->
  forall w, P w -> Q (snd (tryNext body cleanup w)).
Proof.
  intros Hb Hc w Hw. specialize (Hb w Hw). unfold tryNext.
  destruct (body w) as [[r|e] w1]; cbn [snd]; [exact Hb | now apply Hc].
Qed.

(** *** Computations that leave the users collection alone *)

Ltac crush_match :=
  repeat match goal with
         | |- context [match ?x with _ => _ end] => destruct x
         end.

Ltac keeps_users :=
  intros ?;
  unfold User.new, Album.new, fileCleanup, when, upload_single;
  unfold reqUser, reqAlbum, deleteImgCloudinary, newObjectId,
    AuthMiddleware.callVerifyToken, UsersControllers.bcryptCompare, Ecma.orThrow,
    User.findById, User.findOne_email, User.find,
    Album.findById, Album.findOne, Album.find_addedBy_sorted, Album.find_populated,
    Album.save, Album.findByIdAndUpdate, Album.findByIdAndDelete,
    bind, ret, throw;
  crush_match; reflexivity.

Lemma triple_keepsUsers {A} (I : list UserDoc.t -> Prop) (m : Js A) :
  keepsUsers m ->
  triple (fun w => I (users w)) m (fun _ w => I (users w)) (fun w => I (users w)).
Proof.
  intros H w Hw. specialize (H w).
  destruct (m w) as [[a|e] w1]; cbn [snd] in H; now rewrite H.
Qed.

Ltac triple_step :=
  cbv zeta;
  first
    [ apply triple_throwCreateError; solve [auto]
    | apply triple_throw; solve [auto]
    | apply triple_ret; solve [auto]
    | eapply triple_bind;
      [ apply triple_keepsUsers; solve [keeps_users] | intros ? ]
    | apply triple_keepsUsers; solve [keeps_users]
    | match goal with
      | |- triple _ (match ?x with _ => _ end) _ _ => destruct x
      end ].

Ltac triple_auto := repeat triple_step.

Lemma chain_keeps (P : World -> Prop) (guards : list Middleware) (h : Handler) :
  Forall (fun g => forall req, triple P (g req) (fun _ => P) P) guards ->
  (forall req w, P w -> P (snd (h req w))) ->
  forall req w, P w -> P (snd (chain guards h req w)).
Proof.
  intros Hg Hh. induction Hg as [|g rest Hg _ IH]; intros req w Hw; simpl.
  - now apply Hh.
  - specialize (Hg req w Hw). destruct (g req w) as [[req'|e] w1].
    + now apply IH.
    + exact Hg.
Qed.

Section KeepUsers.

Variable I : list UserDoc.t -> Prop.
Let P := fun w : World => I (users w).

Lemma cleanup_keeps (c : Js unit) : keepsUsers c -> forall w, P w -> P (snd (c w)).
Proof. intros H w Hw. unfold P. now rewrite H. Qed.

Lemma isAuth_keeps prim R req :
  triple P (AuthMiddleware.isAuth prim R req) (fun _ => P) P.
Proof. unfold AuthMiddleware.isAuth, P. triple_auto. Qed.

Lemma isOwner_keeps req : triple P (AuthMiddleware.isOwner req) (fun _ => P) P.
Proof. unfold AuthMiddleware.isOwner, P. triple_auto. Qed.

Lemma upload_keeps req : triple P (upload_single req) (fun _ => P) P.
Proof. unfold P. triple_auto. Qed.

Lemma albums_controllers_keep (req : Req.t) (w : World) :
  P w ->
  P (snd (AlbumsControllers.getMyAlbums req w))
  /\ P (snd (AlbumsControllers.getAlbumById req w))
  /\ P (snd (AlbumsControllers.postAlbum req w))
  /\ P (snd (AlbumsControllers.updateAlbum req w))
  /\ P (snd (AlbumsControllers.deleteAlbum req w)).
Proof.
  intros Hw.
  repeat split;
    (apply (triple_tryNext P P);
     [ unfold P; triple_auto
     | apply cleanup_keeps; keeps_users
     | exact Hw ]).
Qed.

Lemma admin_reads_keep (req : Req.t) (w : World) :
  P w ->
  P (snd (AdminControllers.getAllAlbums req w))
  /\ P (snd (AdminControllers.deleteAlbum req w))
  /\ P (snd (AdminControllers.getAllUsers req w)).
Proof.
  intros Hw.
  repeat split;
    (apply (triple_tryNext P P);
     [ unfold P; triple_auto
     | apply cleanup_keeps; keeps_users
     | exact Hw ]).
Qed.

Lemma users_reads_keep prim (req : Req.t) (w : World) :
  P w ->
  P (snd (UsersControllers.getMyProfile req w))
  /\ P (snd (AuthControllers.loginUser prim req w)).
Proof.
  intros Hw.
  repeat split;
    (apply (triple_tryNext P P);
     [ unfold P; triple_auto
     | apply cleanup_keeps; keeps_users
     | exact Hw ]).
Qed.

End KeepUsers.

Lemma deleteImgCloudinary_albums (pid : option string) (w : World) :
  albums (snd (deleteImgCloudinary pid w)) = albums w
  /\ users (snd (deleteImgCloudinary pid w)) = users w.
Proof.
  unfold deleteImgCloudinary. destruct pid as [p|]; [|now split].
  destruct (JsString.nonEmpty p); now split.
Qed.

Lemma fileCleanup_albums (req : Req.t) (w : World) :
  albums (snd (fileCleanup req w)) = albums w
  /\ users (snd (fileCleanup req w)) = users w.
Proof.
  unfold fileCleanup. destruct (Req.file req); [|now split].
  apply deleteImgCloudinary_albums.
Qed.

(** ** Lookups by id *)

Example oidOfNat_zero : oidOfNat 0 = "000000000000000000000000".
Proof. reflexivity. Qed.

Example oidOfNat_255 : oidOfNat 255 = "0000000000000000000000ff".
Proof. reflexivity. Qed.

Lemma hexDigit_isHex (d : N) : isHexDigit (hexDigit d) = true.
Proof.
  unfold hexDigit. generalize (N.to_nat d) as k. intros k.
  do 16 (destruct k as [|k]; [reflexivity|]).
  destruct k; reflexivity.
Qed.

Lemma hexOf_shape (k : nat) :
  forall n acc,
    allHex acc = true ->
    allHex (hexOf k n acc) = true
    /\ String.length (hexOf k n acc) = k + String.length acc.
Proof.
  induction k as [|k IH]; intros n acc Hacc; simpl.
  - now split.
  - destruct (IH (N.div n 16) (String (hexDigit (N.modulo n 16)) acc)) as [H1 H2].
    + simpl. now rewrite hexDigit_isHex.
    + split; [exact H1|]. rewrite H2. simpl. lia.
Qed.

(** Every id the driver draws is one the cast accepts. *)
Lemma oidOfNat_isObjectId (n : nat) : isObjectId (oidOfNat n) = true.
Proof.
  unfold isObjectId, oidOfNat.
  destruct (hexOf_shape 24 (N.of_nat n) "" eq_refl) as [H1 H2].
  rewrite H1, H2. reflexivity.
Qed.

Lemma findById_wellFormed (id : string) (w : World) :
  isObjectId id = true ->
  Album.findById id w
  = (Normal (List.find (fun a => String.eqb (AlbumDoc._id a) id) (albums w)), w).
Proof. intros H. unfold Album.findById. now rewrite H. Qed.


Lemma findById_found (id : string) (w : World) (a : AlbumDoc.t) :
  Album.findById id w = (Normal (Some a), w) ->
  isObjectId id = true
  /\ List.find (fun x => String.eqb (AlbumDoc._id x) id) (albums w) = Some a.
Proof.
  unfold Album.findById. destruct (isObjectId id); [|discriminate].
  intros H. injection H as H. now split.
Qed.

(** ** The ownership gate *)



(** ** The role gate *)

Lemma includes_iff (role : string) (R : list string) :
  existsb (String.eqb role) R = true <-> In role R.
Proof.
  rewrite existsb_exists. split.
  - intros [x [Hx E]]. apply String.eqb_eq in E. now subst.
  - intros H. exists role. split; [exact H | apply String.eqb_refl].
Qed.

(** What isAuth does for a request whose token verifies and whose
    principal is still stored. *)
Lemma isAuth_authenticated :
  forall prim (R : list string) req w t d p,
    AuthMiddleware.tokenOf req = Some t ->
    JsString.nonEmpty t = true ->
    Primitives.verifyToken prim t = inr d ->
    User.findById (Decoded.id d) w = (Normal (Some p), w) ->
    AuthMiddleware.isAuth prim R req w
    = (if negb (Nat.eqb (List.length R) 0)
          && negb (existsb (String.eqb (UserDoc.role p)) R)
       then Thrown (createError 403
                      (String.append "Access denied for role: " (UserDoc.role p)))
       else Normal (Req.setUser req p),
       mkWorld (users w) (albums w) (destroyed w) (verified w ++ [t])
               (nextOid w) (clock w)).
Proof.
  intros prim R req w t d p Ht Hne Hv Hu.
  unfold User.findById in Hu. injection Hu as Hu.
  unfold AuthMiddleware.isAuth, truthyOpt. rewrite Ht, Hne.
  unfold bind, AuthMiddleware.callVerifyToken. rewrite Hv.
  unfold User.findById. cbn [users]. rewrite Hu.
  destruct (negb (Nat.eqb (List.length R) 0)
            && negb (existsb (String.eqb (UserDoc.role p)) R)); reflexivity.
Qed.

(** C4. For a principal [p] authenticated by the token of the request and
    a list [R] of allowed roles: the role gate passes the request on when
    [R] is empty; when [R] is not empty it passes exactly when [p]'s role
    is in [R] and otherwise fails with the 403 error; the collections and
    the image host are untouched either way. In particular every route
    of the admin router answers a principal whose role is not admin with
    403 and an untouched store, whatever the request carries. *)
Theorem isAuth_role_gate :
  forall prim (R : list string) req w t d p,
    AuthMiddleware.tokenOf req = Some t ->
    JsString.nonEmpty t = true ->
    Primitives.verifyToken prim t = inr d ->
    User.findById (Decoded.id d) w = (Normal (Some p), w) ->
    let out := AuthMiddleware.isAuth prim R req w in
    sameStore w (snd out)
    /\ (R = [] -> fst out = Normal (Req.setUser req p))
    /\ (R <> [] ->
        (In (UserDoc.role p) R <-> fst out = Normal (Req.setUser req p)))
    /\ (R <> [] -> ~ In (UserDoc.role p) R ->
        fst out = Thrown (createError 403
                            (String.append "Access denied for role: " (UserDoc.role p))))
    /\ (UserDoc.role p <> "admin" ->
        forall r : Routes.admin,
          statusCode (fst (adminRouter prim r req w)) = 403
          /\ sameStore w (snd (adminRouter prim r req w))).
Proof.
  intros prim R req w t d p Ht Hne Hv Hu out.
  assert (E := isAuth_authenticated prim R req w t d p Ht Hne Hv Hu).
  subst out. rewrite E. simpl fst; simpl snd.
  split; [repeat split|].
  split.
  { intros ->. reflexivity. }
  split.
  { intros HR. destruct R as [|r0 R']; [contradiction|]. simpl negb at 1.
    rewrite andb_true_l.
    destruct (existsb (String.eqb (UserDoc.role p)) (r0 :: R')) eqn:Ex; simpl.
    - split; [reflexivity|]. intros _.
      exact (proj1 (includes_iff (UserDoc.role p) (r0 :: R')) Ex).
    - split; [|discriminate]. intros Hin.
      apply (proj2 (includes_iff (UserDoc.role p) (r0 :: R'))) in Hin.
      rewrite Hin in Ex. discriminate. }
  split.
  { intros HR Hnin. destruct R as [|r0 R']; [contradiction|]. simpl negb at 1.
    rewrite andb_true_l.
    destruct (existsb (String.eqb (UserDoc.role p)) (r0 :: R')) eqn:Ex; simpl.
    - apply (proj1 (includes_iff (UserDoc.role p) (r0 :: R'))) in Ex.
      contradiction.
    - reflexivity. }
  intros Hrole r.
  assert (A := isAuth_authenticated prim ["admin"] req w t d p Ht Hne Hv Hu).
  assert (Ex : existsb (String.eqb (UserDoc.role p)) ["admin"] = false).
  { simpl. rewrite orb_false_r. now apply String.eqb_neq. }
  rewrite Ex in A. simpl in A.
  destruct r; unfold adminRouter, chain; rewrite A; simpl; repeat split.
Qed.

Lemma isAuth_role_gate_witness :
  AuthMiddleware.tokenOf (Sample.request (Some "Bearer tok-5f0000000000000000000001") "5f0000000000000000000002" Body.empty None)
    = Some "tok-5f0000000000000000000001"
  /\ statusCode
       (fst (adminRouter Sample.prim Routes.AdminDeleteUser
               (Sample.request (Some "Bearer tok-5f0000000000000000000001") "5f0000000000000000000002" Body.empty None)
               Sample.world)) = 403
  /\ users (snd (adminRouter Sample.prim Routes.AdminDeleteUser
                   (Sample.request (Some "Bearer tok-5f0000000000000000000001") "5f0000000000000000000002" Body.empty None)
                   Sample.world)) = users Sample.world.
Proof.
  split; [reflexivity|].
  destruct (isAuth_role_gate Sample.prim ["admin"]
              (Sample.request (Some "Bearer tok-5f0000000000000000000001") "5f0000000000000000000002" Body.empty None)
              Sample.world "tok-5f0000000000000000000001" (Decoded.mk "5f0000000000000000000001" "") Sample.alice
              eq_refl eq_refl eq_refl eq_refl)
    as [_ [_ [_ [_ H]]]].
  assert (Hrole : UserDoc.role Sample.alice <> "admin") by discriminate.
  destruct (H Hrole Routes.AdminDeleteUser) as [H1 [H2 _]].
  split; [exact H1 | exact H2].
Defined.

(** ** Password change *)

Lemma asString_inv (v : Value) (s : string) :
  Body.asString v = Some s -> v = VStr s.
Proof. destruct v; simpl; intros H; try discriminate. now injection H as <-. Qed.

(** On a string, [.length < 8] measures the string. *)
Lemma lessThan_length prim (s : string) :
  Ecma.lessThan prim (Ecma.lengthOf (VStr s)) 8 = Some (String.length s <? 8)%nat.
Proof.
  unfold Ecma.lessThan, Ecma.lengthOf, Ecma.toPrimitive, Ecma.toNumber, Ecma.numLt.
  cbn [Ecma.isObject option_map]. f_equal.
  rewrite Z.mul_1_r.
  destruct (Nat.ltb_spec (String.length s) 8);
    [apply Z.ltb_lt | apply Z.ltb_ge]; lia.
Qed.

(** Two strings are loosely equal exactly when they are the same string. *)
Lemma looseEq_strings prim (a b : string) :
  Ecma.looseEq prim (VStr a) (VStr b) = Some (String.eqb a b).
Proof. reflexivity. Qed.

(** A string and the array of that one string are loosely equal. *)
Lemma looseEq_string_array prim (a : string) :
  Ecma.looseEq prim (VStr a) (VArr [VStr a]) = Some true.
Proof. unfold Ecma.looseEq. simpl. now rewrite String.eqb_refl. Qed.

(** C6, as stated, fails. The number 12345678 and the string "12345678"
    are different values, yet a password change giving the one as
    newPassword and the other as confirmPassword is not answered with
    400: the comparison is the loose one, which converts the string to a
    Number first, and the credential is replaced. *)
Lemma loosely_equal_passwords_pass :
  ~ (forall prim (req : Req.t) (w : World),
       Body.newPasswordValue (Req.body req)
         <> Body.confirmPasswordValue (Req.body req) ->
       exists resp,
         UsersControllers.changeMyPassword prim req w = (resp, w)
         /\ statusCode resp = 400).
Proof.
  intros H.
  destruct (H Sample.prim
              (Req.setUser
                 (Sample.request None ""
                    (Sample.passwordValues (VStr "pw12345678") (VNum 12345678)
                       (VStr "12345678")) None)
                 Sample.alice)
              Sample.world) as [resp [E _]].
  - discriminate.
  - vm_compute in E. discriminate.
Qed.

(** What that request does: 200, and alice's stored hash is the hash of
    "12345678". *)
Example number_and_its_digits_pass :
  let out := UsersControllers.changeMyPassword Sample.prim
               (Req.setUser
                  (Sample.request None ""
                     (Sample.passwordValues (VStr "pw12345678") (VNum 12345678)
                        (VStr "12345678")) None)
                  Sample.alice)
               Sample.world in
  statusCode (fst out) = 200
  /\ map UserDoc.password (users (snd out))
     = ["$2b$rootrootroot"; "$2b$12345678"; "$2b$hunter2hunter2"].
Proof. vm_compute. split; reflexivity. Qed.

(** The same with a string and the array holding it, where no Number is
    involved. *)
Example string_and_its_array_pass :
  let out := UsersControllers.changeMyPassword Sample.prim
               (Req.setUser
                  (Sample.request None ""
                     (Sample.passwordValues (VStr "pw12345678") (VStr "newpassword")
                        (VArr [VStr "newpassword"])) None)
                  Sample.alice)
               Sample.world in
  statusCode (fst out) = 200
  /\ map UserDoc.password (users (snd out))
     = ["$2b$rootrootroot"; "$2b$newpassword"; "$2b$hunter2hunter2"].
Proof. vm_compute. split; reflexivity. Qed.

(** Values the comparison cannot convert, or a new password no String
    path can hold, end in 500 and write nothing. *)
Example unconvertible_passwords_fail :
  let run new confirm :=
    UsersControllers.changeMyPassword Sample.prim
      (Req.setUser
         (Sample.request None ""
            (Sample.passwordValues (VStr "pw12345678") new confirm) None)
         Sample.alice)
      Sample.world in
  (statusCode (fst (run (VObj [("toString", VNum 1)]) (VStr "x"))),
   snd (run (VObj [("toString", VNum 1)]) (VStr "x")))
  = (500, Sample.world)
  /\ (statusCode (fst (run (VObj [("length", VNum 9)]) (VStr "[object Object]"))),
      snd (run (VObj [("length", VNum 9)]) (VStr "[object Object]")))
     = (500, Sample.world)
  /\ (statusCode (fst (run (VArr [VNum 1; VNum 2]) (VStr "1,2"))),
      snd (run (VArr [VNum 1; VNum 2]) (VStr "1,2")))
     = (400, Sample.world).
Proof. vm_compute. repeat split. Qed.

(** C6, amended. A password-change request is answered with 400 and the
    failure envelope, and the world, the stored credential included, is
    exactly what it was, whenever one of the three fields is missing or
    falsy, or newPassword and confirmPassword are not loosely equal
    (JavaScript's [!=] holds of them), as is the case whenever both are
    strings and differ. Values of different types that are loosely equal
    count as a match. *)
Theorem changeMyPassword_mismatch :
  forall prim (req : Req.t) (w : World),
    truthy (Body.currentPasswordValue (Req.body req)) = false
    \/ truthy (Body.newPasswordValue (Req.body req)) = false
    \/ truthy (Body.confirmPasswordValue (Req.body req)) = false
    \/ Ecma.looseEq prim (Body.newPasswordValue (Req.body req))
         (Body.confirmPasswordValue (Req.body req)) = Some false
    \/ (exists new confirm : string,
          Body.newPasswordValue (Req.body req) = VStr new
          /\ Body.confirmPasswordValue (Req.body req) = VStr confirm
          /\ new <> confirm) ->
    exists resp,
      UsersControllers.changeMyPassword prim req w = (resp, w)
      /\ statusCode resp = 400
      /\ getField "success" (json resp) = Some (VBool false)
      /\ getField "data" (json resp) = None.
Proof.
  intros prim req w H.
  unfold UsersControllers.changeMyPassword, tryNext. cbv zeta.
  destruct (negb (truthy (Body.currentPasswordValue (Req.body req)))
            || negb (truthy (Body.newPasswordValue (Req.body req)))
            || negb (truthy (Body.confirmPasswordValue (Req.body req)))) eqn:T;
    [eexists; repeat split; reflexivity|].
  apply orb_false_iff in T. destruct T as [T T3].
  apply orb_false_iff in T. destruct T as [T1 T2].
  apply negb_false_iff in T1, T2, T3.
  assert (L : Ecma.looseEq prim (Body.newPasswordValue (Req.body req))
                (Body.confirmPasswordValue (Req.body req)) = Some false).
  { destruct H as [H|[H|[H|[H|H]]]]; try congruence.
    destruct H as [new [confirm [E1 [E2 N]]]].
    rewrite E1, E2, looseEq_strings. f_equal. now apply String.eqb_neq. }
  unfold bind, Ecma.orThrow. rewrite L. eexists; repeat split; reflexivity.
Qed.

Lemma changeMyPassword_mismatch_witness :
  "newpassword" <> "newpassw0rd"
  /\ exists resp,
       UsersControllers.changeMyPassword Sample.prim
         (Req.setUser
            (Sample.request None ""
               (Sample.passwords "pw12345678" "newpassword" "newpassw0rd") None)
            Sample.alice)
         Sample.world = (resp, Sample.world)
       /\ statusCode resp = 400
       /\ getField "success" (json resp) = Some (VBool false)
       /\ getField "data" (json resp) = None.
Proof.
  split; [discriminate|].
  apply (changeMyPassword_mismatch Sample.prim
           (Req.setUser
              (Sample.request None ""
                 (Sample.passwords "pw12345678" "newpassword" "newpassw0rd") None)
              Sample.alice)
           Sample.world).
  right; right; right; right.
  exists "newpassword", "newpassw0rd".
  split; [reflexivity|]. split; [reflexivity|]. discriminate.
Defined.

(** ** Registration *)

(** C10. A registration whose email is that of a stored user (stored, as
    every email written through the model is, in the form the schema's
    setters give it) is answered with 400; no user and no album is
    written; and when a file came with the request, the image host is
    asked to delete it (once before the throw and once more by the
    catch block), which it may or may not manage. *)
Theorem registerUser_existing_email :
  forall prim (req : Req.t) (w : World) (u : UserDoc.t) (e : string),
    In u (users w) ->
    User.castEmail (UserDoc.email u) = UserDoc.email u ->
    Body.email (Req.body req) = Some e ->
    e = UserDoc.email u ->
    exists resp w',
      AuthControllers.registerUser prim req w = (resp, w')
      /\ statusCode resp = 400
      /\ getField "success" (json resp) = Some (VBool false)
      /\ users w' = users w
      /\ albums w' = albums w
      /\ destroyed w'
         = destroyed w
           ++ match Req.file req with
              | Some f => if JsString.nonEmpty (File.filename f)
                          then [File.filename f; File.filename f] else []
              | None => []
              end.
Proof.
  intros prim req w u e Hin Hcast He Heq. subst e.
  assert (F : exists u', List.find
                (fun x => String.eqb (UserDoc.email x)
                            (User.castEmail (User.castEmail (UserDoc.email u))))
                (users w) = Some u').
  { rewrite Hcast, Hcast.
    destruct (List.find (fun x => String.eqb (UserDoc.email x) (UserDoc.email u))
                (users w)) as [u'|] eqn:E; [now exists u'|].
    apply find_none_iff with (d := u) in E; [|exact Hin].
    rewrite String.eqb_refl in E. discriminate. }
  destruct F as [u' F].
  unfold AuthControllers.registerUser, tryNext, bind, User.new, bind,
    newObjectId, ret, User.findOne_email, fileCleanup.
  cbn [User.d_email users]. rewrite He. cbn [option_map]. rewrite F.
  cbn [isSome].
  destruct (Req.file req) as [f|].
  - unfold deleteImgCloudinary.
    destruct (JsString.nonEmpty (File.filename f)) eqn:N.
    + eexists; eexists. repeat split. simpl.
      now rewrite <- app_assoc.
    + eexists; eexists. repeat split. simpl.
      now rewrite app_nil_r.
  - eexists; eexists. repeat split. simpl. now rewrite app_nil_r.
Qed.

Lemma registerUser_existing_email_witness :
  In Sample.alice (users Sample.world)
  /\ exists resp w',
       AuthControllers.registerUser Sample.prim
         (Req.setFile
            (Sample.request None "" (Sample.registration "Al" "alice@x.com" "whatever1")
               (Some Sample.avatar))
            (Some Sample.avatar))
         Sample.world = (resp, w')
       /\ statusCode resp = 400
       /\ getField "success" (json resp) = Some (VBool false)
       /\ users w' = users Sample.world
       /\ albums w' = albums Sample.world
       /\ destroyed w' = ["Craterra/avatar"; "Craterra/avatar"].
Proof.
  assert (Hin : In Sample.alice (users Sample.world)) by (simpl; auto).
  split; [exact Hin|].
  exact (registerUser_existing_email Sample.prim
           (Req.setFile
              (Sample.request None "" (Sample.registration "Al" "alice@x.com" "whatever1")
                 (Some Sample.avatar))
              (Some Sample.avatar))
           Sample.world Sample.alice "alice@x.com" Hin eq_refl eq_refl eq_refl).
Defined.

(** *** Stored emails stay in the form the setters give them *)

Lemma triple_bind_fact {A B} (P E : World -> Prop) (m : Js B) (k : B -> Js A)
    (F : B -> Prop) (Q : A -> World -> Prop) :
  triple P m (fun b w => P w /\ F b) E ->
  (forall b, F b -> triple P (k b) Q E) ->
  triple P (bind m k) Q E.
Proof.
  intros Hm Hk. apply (triple_bind P E m k (fun b w => P w /\ F b) Q Hm).
  intros b w [Hw Hb]. now apply Hk.
Qed.

Lemma in_replaceFirst {D} (sel : D -> bool) (d' x : D) (l : list D) :
  In x (replaceFirst sel d' l) -> x = d' \/ In x l.
Proof.
  induction l as [|y l IH]; simpl; [tauto|].
  destruct (sel y); simpl; intros [H|H]; auto.
  destruct (IH H); auto.
Qed.

Lemma in_deleteFirst {D} (sel : D -> bool) (x : D) (l : list D) :
  In x (deleteFirst sel l) -> In x l.
Proof.
  induction l as [|y l IH]; simpl; [tauto|].
  destruct (sel y); simpl; [auto|]. intros [H|H]; auto.
Qed.

Lemma findById_cast (id : ObjectId) :
  triple emailsCast (User.findById id)
    (fun r w => emailsCast w
                /\ forall u, r = Some u ->
                             User.castEmail (UserDoc.email u) = UserDoc.email u)
    emailsCast.
Proof.
  intros w Hw. unfold User.findById. split; [exact Hw|].
  intros u Hu. apply find_some in Hu. now apply Hw.
Qed.

Lemma save_cast (hash : string -> string) (d : User.draft) :
  (forall e, User.d_email d = Some e -> User.castEmail e = e) ->
  triple emailsCast (User.save hash d) (fun _ => emailsCast) emailsCast.
Proof.
  intros Hd w Hw. unfold User.save.
  destruct (User.d_name d), (User.d_email d) as [e|], (User.d_password d);
    try exact Hw.
  match goal with |- context [if ?c then _ else _] => destruct c end;
    [|exact Hw].
  destruct (existsb _ (users w)); [exact Hw|].
  intros u Hu. cbn [users setUsers] in Hu. apply in_app_iff in Hu.
  destruct Hu as [Hu|[<-|[]]]; [now apply Hw|]. cbn [UserDoc.email]. now apply Hd.
Qed.

Lemma saveLoaded_cast (hash : string -> string) (old cur : UserDoc.t) :
  User.castEmail (UserDoc.email cur) = UserDoc.email cur ->
  triple emailsCast (User.saveLoaded hash old cur) (fun _ => emailsCast) emailsCast.
Proof.
  intros Hc w Hw. unfold User.saveLoaded.
  match goal with |- context [if ?c then _ else _] => destruct c end;
    [|exact Hw].
  destruct (existsb _ (users w)); [exact Hw|].
  intros u Hu. cbn [users setUsers] in Hu. apply in_replaceFirst in Hu.
  destruct Hu as [->|Hu]; [exact Hc | now apply Hw].
Qed.

Lemma findByIdAndDelete_cast (id : ObjectId) :
  triple emailsCast (User.findByIdAndDelete id) (fun _ => emailsCast) emailsCast.
Proof.
  intros w Hw. unfold User.findByIdAndDelete.
  destruct (List.find _ (users w)); [|exact Hw].
  intros u Hu. cbn [users setUsers] in Hu. apply in_deleteFirst in Hu.
  now apply Hw.
Qed.

Ltac cast_step :=
  cbv zeta;
  first
    [ apply triple_throwCreateError; solve [auto]
    | apply triple_throw; solve [auto]
    | apply triple_ret; solve [auto]
    | apply findByIdAndDelete_cast
    | eapply triple_bind; [ apply findByIdAndDelete_cast | intros ? ]
    | apply (triple_bind_fact emailsCast emailsCast _ _
               (fun r => forall u, r = Some u ->
                                   User.castEmail (UserDoc.email u) = UserDoc.email u)
               _ (findById_cast _));
      intros ? ?
    | eapply triple_bind;
      [ apply (triple_keepsUsers castAll); solve [keeps_users] | intros ? ]
    | apply (triple_keepsUsers castAll); solve [keeps_users]
    | match goal with
      | |- triple _ (match ?x with _ => _ end) _ _ => destruct x
      end ].

Lemma registerUser_cast prim (req : Req.t) (w : World) :
  emailsCast w -> emailsCast (snd (AuthControllers.registerUser prim req w)).
Proof.
  apply (triple_tryNext emailsCast emailsCast);
    [|apply (cleanup_keeps castAll); keeps_users].
  apply (triple_bind_fact emailsCast emailsCast _ _
           (fun d => forall e, User.d_email d = Some e -> User.castEmail e = e)).
  { intros w0 Hw0. unfold User.new, bind, newObjectId, ret. cbn.
    split; [exact Hw0|]. intros e He.
    destruct (Body.email (Req.body req)); [|discriminate].
    injection He as <-. apply castEmail_idempotent. }
  intros d Hd. unfold emailsCast. repeat cast_step.
  eapply triple_bind; [apply save_cast | intros ?; apply triple_ret; auto].
  destruct (Req.file req); exact Hd.
Qed.

Ltac stored_email :=
  match goal with
  | H : forall u, Some ?x = Some u -> _ |- _ => specialize (H x eq_refl)
  end.

Lemma changeMyPassword_cast prim (req : Req.t) (w : World) :
  emailsCast w -> emailsCast (snd (UsersControllers.changeMyPassword prim req w)).
Proof.
  apply (triple_tryNext emailsCast emailsCast);
    [|apply (cleanup_keeps castAll); keeps_users].
  unfold emailsCast. repeat cast_step. stored_email.
  apply (triple_bind emailsCast emailsCast _ _ (fun _ => emailsCast));
    [|intros ?; apply triple_ret; auto].
  unfold UsersControllers.savePassword.
  destruct (Ecma.castString _ _);
    [apply saveLoaded_cast; assumption | apply triple_throw; auto].
Qed.

Lemma deleteMyAccount_cast (req : Req.t) (w : World) :
  emailsCast w -> emailsCast (snd (UsersControllers.deleteMyAccount req w)).
Proof.
  apply (triple_tryNext emailsCast emailsCast);
    [|apply (cleanup_keeps castAll); keeps_users].
  unfold emailsCast. repeat cast_step.
Qed.

Lemma deleteUser_cast (req : Req.t) (w : World) :
  emailsCast w -> emailsCast (snd (AdminControllers.deleteUser req w)).
Proof.
  apply (triple_tryNext emailsCast emailsCast);
    [|apply (cleanup_keeps castAll); keeps_users].
  unfold emailsCast. repeat cast_step.
Qed.

Lemma updateMyProfile_cast prim (req : Req.t) (w : World) :
  emailsCast w -> emailsCast (snd (UsersControllers.updateMyProfile prim req w)).
Proof.
  apply (triple_tryNext emailsCast emailsCast);
    [|apply (cleanup_keeps castAll); keeps_users].
  unfold emailsCast. repeat cast_step. stored_email.
  match goal with
  | H : User.castEmail (UserDoc.email ?user) = _
    |- triple _ (bind (match Req.file req with
                       | Some _ => _
                       | None => ret ?u2
                       end) _) _ _ =>
      assert (H2 : User.castEmail (UserDoc.email u2) = UserDoc.email u2)
        by (destruct (Body.email (Req.body req)) as [e|];
            [destruct (JsString.nonEmpty e)|];
            destruct (Body.name (Req.body req)) as [n|];
            try destruct (JsString.nonEmpty n);
            cbn [UsersControllers.assignEmail UsersControllers.assignName
                 UserDoc.email];
            auto using castEmail_idempotent);
      revert H2; generalize u2; intros user2 H2
  end.
  apply (triple_bind_fact emailsCast emailsCast _ _
           (fun u3 => User.castEmail (UserDoc.email u3) = UserDoc.email u3)).
  - destruct (Req.file req) as [f|].
    + apply (triple_bind emailsCast emailsCast _ _ (fun _ => emailsCast)).
      * apply (triple_keepsUsers castAll). keeps_users.
      * intros _. apply triple_ret. intros w0 Hw0. split; [exact Hw0|]. exact H2.
    + apply triple_ret. intros w0 Hw0. split; [exact Hw0|]. exact H2.
  - intros u3 H3. eapply triple_bind; [apply saveLoaded_cast; exact H3|].
    intros ?. apply triple_ret. auto.
Qed.

Ltac guards_known :=
  repeat (apply Forall_cons; [solve [auto] |]); apply Forall_nil.

Lemma app_keeps_emails_cast prim (r : Routes.t) (req : Req.t) (w : World) :
  emailsCast w -> emailsCast (snd (app prim r req w)).
Proof.
  assert (G : forall R guards h,
             Forall (fun g => g = AuthMiddleware.isAuth prim R
                              \/ g = AuthMiddleware.isOwner \/ g = upload_single)
                    guards ->
             (forall req w, emailsCast w -> emailsCast (snd (h req w))) ->
             forall req w, emailsCast w -> emailsCast (snd (chain guards h req w))).
  { intros R guards h Hg. apply chain_keeps.
    eapply Forall_impl; [|exact Hg]. intros g [->|[->| ->]] req0.
    - apply (isAuth_keeps castAll).
    - apply (isOwner_keeps castAll).
    - apply (upload_keeps castAll). }
  assert (A := fun req w Hw => albums_controllers_keep castAll req w Hw).
  assert (D := fun req w Hw => admin_reads_keep castAll req w Hw).
  assert (U := fun req w Hw => users_reads_keep castAll prim req w Hw).
  revert req w.
  destruct r as [[]|[]|[]|[]| |];
    cbn [app authRouter albumsRouter usersRouter adminRouter]; cbv zeta.
  - apply (G []); [guards_known|]. apply registerUser_cast.
  - intros req w Hw. exact (proj2 (U req w Hw)).
  - intros req w Hw. exact Hw.
  - apply (G []); [guards_known|].
    intros req w Hw. exact (proj1 (A req w Hw)).
  - apply (G []); [guards_known|].
    intros req w Hw. exact (proj1 (proj2 (proj2 (A req w Hw)))).
  - apply (G []); [guards_known|].
    intros req w Hw. exact (proj1 (proj2 (A req w Hw))).
  - apply (G []); [guards_known|].
    intros req w Hw. exact (proj1 (proj2 (proj2 (proj2 (A req w Hw))))).
  - apply (G []); [guards_known|].
    intros req w Hw. exact (proj2 (proj2 (proj2 (proj2 (A req w Hw))))).
  - apply (G []); [guards_known|]. intros req w Hw. exact Hw.
  - apply (G []); [guards_known|].
    intros req w Hw. exact (proj1 (U req w Hw)).
  - apply (G []); [guards_known|]. apply updateMyProfile_cast.
  - apply (G []); [guards_known|]. apply changeMyPassword_cast.
  - apply (G []); [guards_known|]. apply deleteMyAccount_cast.
  - apply (G []); [guards_known|]. intros req w Hw. exact Hw.
  - apply (G ["admin"]); [guards_known|].
    intros req w Hw. exact (proj1 (D req w Hw)).
  - apply (G ["admin"]); [guards_known|].
    intros req w Hw. exact (proj2 (proj2 (D req w Hw))).
  - apply (G ["admin"]); [guards_known|].
    intros req w Hw. exact (proj1 (proj2 (D req w Hw))).
  - apply (G ["admin"]); [guards_known|]. apply deleteUser_cast.
  - apply (G ["admin"]); [guards_known|]. intros req w Hw. exact Hw.
  - intros req w Hw. exact Hw.
  - intros req w Hw. exact Hw.
Qed.

(** ** Token extraction *)

(** After the verifier was called, isAuth only reads: the log of verified
    tokens is what the call left. *)
Lemma isAuth_verified_log :
  forall prim R req w t,
    AuthMiddleware.tokenOf req = Some t ->
    JsString.nonEmpty t = true ->
    verified (snd (AuthMiddleware.isAuth prim R req w)) = verified w ++ [t].
Proof.
  intros prim R req w t Ht Hne.
  unfold AuthMiddleware.isAuth, truthyOpt. rewrite Ht, Hne.
  unfold bind, AuthMiddleware.callVerifyToken.
  destruct (Primitives.verifyToken prim t) as [e|d]; [reflexivity|].
  unfold User.findById. cbn [users].
  destruct (List.find _ (users w)) as [u|]; [|reflexivity].
  destruct (negb (Nat.eqb (List.length R) 0)
            && negb (existsb (String.eqb (UserDoc.role u)) R)); reflexivity.
Qed.

Lemma isAuth_no_token :
  forall prim R req w,
    truthyOpt (AuthMiddleware.tokenOf req) = false ->
    AuthMiddleware.isAuth prim R req w
    = (Thrown (createError 401 "No token provided"), w).
Proof.
  intros prim R req w H. unfold AuthMiddleware.isAuth. now rewrite H.
Qed.

(** C8, as stated, fails: a header without the "Bearer " prefix is handed
    to the verifier whole. *)
Lemma unprefixed_header_reaches_verifier :
  ~ (forall prim R req w h,
       Req.authorization req = Some h ->
       JsString.startsWith "Bearer " h = false ->
       verified (snd (AuthMiddleware.isAuth prim R req w)) = verified w).
Proof.
  intros H.
  specialize (H Sample.prim []
                (Sample.request (Some "tok-5f0000000000000000000001") "" Body.empty None)
                Sample.world "tok-5f0000000000000000000001" eq_refl eq_refl).
  vm_compute in H. discriminate.
Qed.

(** C8, amended. For a request whose authorization header is [h], the
    token is [h] with the first occurrence of "Bearer " removed: what
    follows the prefix when [h] starts with it, and [h] itself when
    "Bearer " does not occur in [h]. The verifier is called, with that
    token, exactly when the token is not empty; an empty token, like a
    missing header, is refused with 401 and the verifier is not called. *)
Theorem isAuth_token_extraction :
  forall prim R req w,
    match Req.authorization req with
    | Some h =>
        let t := JsString.removeFirst "Bearer " h in
        if JsString.nonEmpty t
        then verified (snd (AuthMiddleware.isAuth prim R req w)) = verified w ++ [t]
        else AuthMiddleware.isAuth prim R req w
             = (Thrown (createError 401 "No token provided"), w)
    | None =>
        AuthMiddleware.isAuth prim R req w
        = (Thrown (createError 401 "No token provided"), w)
    end
    /\ (forall t, JsString.removeFirst "Bearer " (String.append "Bearer " t) = t)
    /\ (forall h, JsString.includes "Bearer " h = false ->
                  JsString.removeFirst "Bearer " h = h).
Proof.
  intros prim R req w. split; [|split].
  - destruct (Req.authorization req) as [h|] eqn:Hh.
    + cbv zeta.
      destruct (JsString.nonEmpty (JsString.removeFirst "Bearer " h)) eqn:N.
      * apply isAuth_verified_log; [|exact N].
        unfold AuthMiddleware.tokenOf. now rewrite Hh.
      * apply isAuth_no_token. unfold AuthMiddleware.tokenOf.
        rewrite Hh. exact N.
    + apply isAuth_no_token. unfold AuthMiddleware.tokenOf. now rewrite Hh.
  - intros t. apply removeFirst_prefix.
  - intros h. apply removeFirst_absent.
Qed.

Lemma isAuth_token_extraction_witness :
  JsString.includes "Bearer " "tok-5f0000000000000000000001" = false
  /\ JsString.removeFirst "Bearer " "tok-5f0000000000000000000001" = "tok-5f0000000000000000000001"
  /\ verified (snd (AuthMiddleware.isAuth Sample.prim []
                      (Sample.request (Some "Bearer tok-5f0000000000000000000001") "" Body.empty None)
                      Sample.world)) = ["tok-5f0000000000000000000001"].
Proof.
  split; [reflexivity|]. split.
  - apply (isAuth_token_extraction Sample.prim []
             (Sample.request None "" Body.empty None) Sample.world).
    reflexivity.
  - exact (proj1 (isAuth_token_extraction Sample.prim []
                    (Sample.request (Some "Bearer tok-5f0000000000000000000001") "" Body.empty None)
                    Sample.world)).
Defined.

(** ** The response envelope *)



Lemma post_ret {A} (a : A) (Q : A -> Prop) : Q a -> post (ret a) Q.
Proof. intros H w a' w' E. unfold ret in E. now inversion E; subst. Qed.

Lemma post_throw {A} (e : JsError.t) (Q : A -> Prop) : post (throw e) Q.
Proof. intros w a w' E. discriminate. Qed.

Lemma post_throwCreateError {A} scope st m (Q : A -> Prop) :
  post (throwCreateError scope st m) Q.
Proof.
  unfold throwCreateError.
  destruct (existsb (String.eqb "createError") scope); apply post_throw.
Qed.

Lemma post_bind {A B} (m : Js A) (k : A -> Js B) (Q : B -> Prop) :
  (forall a, post (k a) Q) -> post (bind m k) Q.
Proof.
  intros H w b w' E. unfold bind in E.
  destruct (m w) as [[a|e] w1]; [exact (H a w1 b w' E) | discriminate].
Qed.















(** ** Where the handlers part from their documentation *)

(** C1 (the code departs from the rule). One owner posts the same album
    twice, letter for letter: the stored title keeps its capitals, the
    duplicate check looks for the lower-cased title in the [title] path,
    finds nothing, and the second request is answered 201 like the
    first; both albums are stored. *)
Theorem postAlbum_same_album_twice :
  let req := Sample.request (Some "Bearer tok-5f0000000000000000000001") "" Sample.thriller None in
  let first := app Sample.prim (Routes.Albums Routes.CreateAlbum) req
                   Sample.emptyShelf in
  let second := app Sample.prim (Routes.Albums Routes.CreateAlbum) req
                    (snd first) in
  statusCode (fst first) = 201
  /\ statusCode (fst second) = 201
  /\ map (fun a => (AlbumDoc.title a, AlbumDoc.artists a, AlbumDoc.addedBy a))
         (albums (snd second))
     = [("Thriller", ["Michael Jackson"], "5f0000000000000000000001");
        ("Thriller", ["Michael Jackson"], "5f0000000000000000000001")].
Proof. vm_compute. repeat split. Qed.

(** The check does its work when title and artists are stored in lower
    case already: the second of two such posts is refused with 400 and
    nothing is added. *)
Example postAlbum_lower_case_twice :
  let body :=
    Body.mk (Some "thriller") (Some ["michael jackson"]) (Some "LP")
      (Some 407462400000%Z) None None None None None
      None None None None None None None None None in
  let req := Req.setUser (Sample.request None "" body None) Sample.alice in
  let first := AlbumsControllers.postAlbum req Sample.emptyShelf in
  let second := AlbumsControllers.postAlbum req (snd first) in
  statusCode (fst first) = 201
  /\ statusCode (fst second) = 400
  /\ albums (snd second) = albums (snd first).
Proof. vm_compute. repeat split. Qed.

(** [$all] with [$size] is weaker than equality of multisets: with
    ["a"; "b"] stored, ["a"; "a"] is taken for a duplicate. *)
Example all_size_not_multiset :
  mq_all ["a"; "a"] ["a"; "b"] && mq_size 2 ["a"; "b"] = true.
Proof. reflexivity. Qed.

(** The creation half of C2: whatever the body says about addedBy, an
    album that postAlbum adds belongs to the caller. *)
Lemma postAlbum_owner_is_caller (req : Req.t) (w : World) (u : UserDoc.t) :
  Req.user req = Some u ->
  forall a, In a (albums (snd (AlbumsControllers.postAlbum req w))) ->
            In a (albums w) \/ AlbumDoc.addedBy a = UserDoc._id u.
Proof.
  intros Hu.
  set (P := fun w' : World =>
              forall a, In a (albums w') ->
                        In a (albums w) \/ AlbumDoc.addedBy a = UserDoc._id u).
  change (P (snd (AlbumsControllers.postAlbum req w))).
  assert (Hkeep : forall w1 w2, albums w2 = albums w1 -> P w1 -> P w2).
  { intros w1 w2 E H a Ha. rewrite E in Ha. now apply H. }
  apply (triple_tryNext P P).
  - unfold reqUser. rewrite Hu. cbv zeta.
    apply (triple_bind_fact P P _ _ (fun x => x = u));
      [apply triple_ret; auto|]. intros ? ->.
    apply (triple_bind P P _ _ (fun _ => P)).
    { destruct (Body.title (Req.body req));
        [apply triple_ret | apply triple_throw]; auto. }
    intros t.
    apply (triple_bind P P _ _ (fun _ => P)); [apply triple_read; auto|].
    intros found. destruct (isSome found); [apply triple_throwCreateError; auto|].
    apply (triple_bind_fact P P _ _
             (fun d => Album.d_addedBy d = Some (UserDoc._id u))).
    { intros w1 H1. unfold Album.new, bind, newObjectId, ret. cbn.
      split; [|reflexivity]. exact H1. }
    intros d Hd.
    apply (triple_bind P P _ _ (fun _ => P)); [|intros ?; apply triple_ret; auto].
    assert (Hd' : Album.d_addedBy
                    (match Req.file req with
                     | Some f => Album.setCover d (File.path f) (File.filename f)
                     | None => d
                     end) = Some (UserDoc._id u)).
    { destruct (Req.file req); exact Hd. }
    revert Hd'. generalize (match Req.file req with
                            | Some f => Album.setCover d (File.path f) (File.filename f)
                            | None => d
                            end). clear d Hd.
    intros d Hd w1 H1. unfold Album.save. rewrite Hd.
    destruct (Album.d_title d), (Album.d_format d), (Album.d_releaseDate d);
      try exact H1.
    match goal with |- context [if ?c then _ else _] => destruct c end;
      [|exact H1].
    intros a Ha. cbn in Ha. apply in_app_iff in Ha.
    destruct Ha as [Ha|[<-|[]]]; [now apply H1 | now right].
  - intros w1 H1. apply (Hkeep w1); [|exact H1].
    apply (proj1 (fileCleanup_albums req w1)).
  - intros a Ha. now left.
Qed.

Lemma find_replaceFirst {D} (sel : D -> bool) (d d' : D) (l : list D) :
  List.find sel l = Some d -> sel d' = true ->
  List.find sel (replaceFirst sel d' l) = Some d'.
Proof.
  intros Hf Hs. induction l as [|x l IH]; simpl in *; [discriminate|].
  destruct (sel x) eqn:E.
  - simpl. now rewrite Hs.
  - simpl. rewrite E. now apply IH.
Qed.

Lemma updatesOf_addedBy (req : Req.t) :
  Body.addedBy (AlbumsControllers.updatesOf req) = Body.addedBy (Req.body req).
Proof. unfold AlbumsControllers.updatesOf. now destruct (Req.file req). Qed.

(** C2 (the code departs from the invariant, and from updateAlbum's own
    note that addedBy cannot be updated). When the body of a PUT on a
    stored album carries an addedBy and passes the validators,
    updateAlbum answers 200 and the stored album's owner is the one the
    body named. *)
Theorem updateAlbum_rewrites_owner :
  forall (req : Req.t) (w : World) (a : AlbumDoc.t) (o : ObjectId),
    Album.findById (Req.params_id req) w = (Normal (Some a), w) ->
    Body.addedBy (Req.body req) = Some o ->
    Album.validUpdates (AlbumsControllers.updatesOf req) = true ->
    exists resp w',
      AlbumsControllers.updateAlbum req w = (resp, w')
      /\ statusCode resp = 200
      /\ exists a',
           Album.findById (Req.params_id req) w' = (Normal (Some a'), w')
           /\ AlbumDoc.addedBy a' = o.
Proof.
  intros req w a o Ha Ho Hv.
  destruct (findById_found _ _ _ Ha) as [Hwf Hfind].
  set (a' := Album.applyUpdates (AlbumsControllers.updatesOf req) a).
  assert (Hid : String.eqb (AlbumDoc._id a') (Req.params_id req) = true).
  { apply find_some in Hfind. exact (proj2 Hfind). }
  assert (Hf := find_replaceFirst _ a a' (albums w) Hfind Hid).
  assert (Hown : AlbumDoc.addedBy a' = o).
  { unfold a', Album.applyUpdates. cbn [AlbumDoc.addedBy].
    rewrite updatesOf_addedBy, Ho. reflexivity. }
  assert (Hlook : forall w', albums w' = replaceFirst
                    (fun x => String.eqb (AlbumDoc._id x) (Req.params_id req))
                    a' (albums w) ->
                  Album.findById (Req.params_id req) w' = (Normal (Some a'), w')).
  { intros w' E. rewrite (findById_wellFormed _ _ Hwf), E, Hf. reflexivity. }
  unfold AlbumsControllers.updateAlbum, tryNext, bind.
  rewrite Ha. unfold Album.findByIdAndUpdate. rewrite Hwf, Hv. cbn [negb].
  rewrite Hfind. fold a'.
  unfold when, ret.
  destruct (truthyOpt (option_map File.filename (Req.file req))
            && truthyOpt (AlbumDoc.coverArtId a)).
  - unfold deleteImgCloudinary.
    destruct (AlbumDoc.coverArtId a) as [c|].
    + destruct (JsString.nonEmpty c);
        eexists; eexists; (split; [reflexivity|]); (split; [reflexivity|]);
        exists a'; (split; [apply Hlook; reflexivity | exact Hown]).
    + eexists; eexists; (split; [reflexivity|]); (split; [reflexivity|]).
      exists a'. split; [apply Hlook; reflexivity | exact Hown].
  - eexists; eexists; (split; [reflexivity|]); (split; [reflexivity|]).
    exists a'. split; [apply Hlook; reflexivity | exact Hown].
Qed.

Lemma updateAlbum_rewrites_owner_witness :
  Album.findById "6a0000000000000000000001" Sample.world = (Normal (Some Sample.okComputer), Sample.world)
  /\ AlbumDoc.addedBy Sample.okComputer = "5f0000000000000000000001"
  /\ exists resp w',
       AlbumsControllers.updateAlbum
         (Req.setAlbum
            (Req.setUser (Sample.request None "6a0000000000000000000001" (Sample.giveAway "5f0000000000000000000002") None)
                         Sample.alice)
            Sample.okComputer)
         Sample.world = (resp, w')
       /\ statusCode resp = 200
       /\ exists a',
            Album.findById "6a0000000000000000000001" w' = (Normal (Some a'), w')
            /\ AlbumDoc.addedBy a' = "5f0000000000000000000002".
Proof.
  split; [reflexivity|]. split; [reflexivity|].
  exact (updateAlbum_rewrites_owner
           (Req.setAlbum
              (Req.setUser (Sample.request None "6a0000000000000000000001" (Sample.giveAway "5f0000000000000000000002") None)
                           Sample.alice)
              Sample.okComputer)
           Sample.world Sample.okComputer "5f0000000000000000000002" eq_refl eq_refl eq_refl).
Defined.

(** The same through the router: alice, the owner, gives her album to
    bob with one PUT, after which the ownership gate turns her away. *)
Example put_then_locked_out :
  let put := app Sample.prim (Routes.Albums Routes.UpdateAlbum)
               (Sample.request (Some "Bearer tok-5f0000000000000000000001") "6a0000000000000000000001" (Sample.giveAway "5f0000000000000000000002") None)
               Sample.world in
  let get := app Sample.prim (Routes.Albums Routes.GetAlbum)
               (Sample.request (Some "Bearer tok-5f0000000000000000000001") "6a0000000000000000000001" Body.empty None)
               (snd put) in
  statusCode (fst put) = 200
  /\ map AlbumDoc.addedBy (albums (snd put)) = ["5f0000000000000000000002"]
  /\ statusCode (fst get) = 403.
Proof. vm_compute. repeat split. Qed.




(** ** Credentials in responses *)

(** C5 (the code departs from the claim, and from changeMyPassword's own
    note that only a success message is returned). For a well-formed
    password change by a stored user (current password right, the new
    one confirmed, at least 8 characters, not padded with white space and
    not the stored hash itself), changeMyPassword answers 200 with, as
    its payload, the hash it has just stored for that user. *)
Theorem changeMyPassword_sends_stored_hash :
  forall prim (req : Req.t) (w : World) (me user : UserDoc.t) (cur new : string),
    Req.user req = Some me ->
    User.findById (UserDoc._id me) w = (Normal (Some user), w) ->
    Body.currentPassword (Req.body req) = Some cur ->
    Body.newPassword (Req.body req) = Some new ->
    Body.confirmPassword (Req.body req) = Some new ->
    JsString.nonEmpty cur = true ->
    Primitives.compare prim cur (UserDoc.password user) = true ->
    (8 <= String.length new)%nat ->
    JsString.trim new = new ->
    new <> UserDoc.password user ->
    JsString.nonEmpty (UserDoc.name user) = true ->
    JsString.nonEmpty (UserDoc.email user) = true ->
    (forall u, In u (users w) -> UserDoc.email u = UserDoc.email user ->
               UserDoc._id u = UserDoc._id user) ->
    exists w' stored,
      UsersControllers.changeMyPassword prim req w
      = (sendResponse 200 true "Password changed successfully"
           (VStr (Primitives.hash prim new)), w')
      /\ User.findById (UserDoc._id me) w' = (Normal (Some stored), w')
      /\ UserDoc.password stored = Primitives.hash prim new.
Proof.
  intros prim req w me user cur new Hme Hu Hc Hn Hcf Hcur Hcmp Hlen Htrim Hneq
    Hname Hemail Huniq.
  unfold User.findById in Hu. injection Hu as Hu.
  assert (Hnew : JsString.nonEmpty new = true).
  { destruct new; [simpl in Hlen; lia | reflexivity]. }
  assert (Hid : String.eqb (UserDoc._id user) (UserDoc._id me) = true).
  { apply find_some in Hu. exact (proj2 Hu). }
  assert (Hlt : (String.length new <? 8)%nat = false) by (apply Nat.ltb_ge; lia).
  assert (Hmod : String.eqb new (UserDoc.password user) = false)
    by now apply String.eqb_neq.
  assert (Hdup : existsb (fun u => String.eqb (UserDoc.email u) (UserDoc.email user)
                                   && negb (String.eqb (UserDoc._id u) (UserDoc._id user)))
                   (users w) = false).
  { apply not_true_is_false. intros H. apply existsb_exists in H.
    destruct H as [u [Hin H]]. apply andb_true_iff in H. destruct H as [H1 H2].
    apply String.eqb_eq in H1. apply negb_true_iff, String.eqb_neq in H2.
    now apply H2, Huniq. }
  apply String.eqb_eq in Hid.
  set (stored := UserDoc.mk (UserDoc._id user) (UserDoc.name user)
                   (UserDoc.email user) (Primitives.hash prim new)
                   (UserDoc.role user) (UserDoc.profileImageUrl user)
                   (UserDoc.profileImageId user)).
  exists (setUsers w (replaceFirst
                        (fun u => String.eqb (UserDoc._id u) (UserDoc._id user))
                        stored (users w))), stored.
  split; [|split; [|reflexivity]].
  - apply asString_inv in Hc, Hn, Hcf.
    unfold UsersControllers.changeMyPassword, tryNext. cbv zeta.
    rewrite Hc, Hn, Hcf. cbn [truthy]. rewrite Hcur, Hnew. cbn [negb orb].
    unfold bind, Ecma.orThrow. rewrite looseEq_strings, String.eqb_refl.
    unfold ret. cbn [negb]. unfold reqUser. rewrite Hme. unfold ret, User.findById.
    rewrite Hu. unfold UsersControllers.bcryptCompare, ret. rewrite Hcmp.
    cbn [negb]. rewrite lessThan_length, Hlt.
    unfold UsersControllers.savePassword, Ecma.castString.
    unfold User.saveLoaded, UsersControllers.assignPassword.
    cbn [UserDoc.password UserDoc.name UserDoc.email UserDoc._id UserDoc.role
         UserDoc.profileImageUrl UserDoc.profileImageId].
    rewrite Htrim, Hmod, Hname, Hemail. cbn [negb andb orb].
    unfold User.validPassword. rewrite Hnew.
    assert (Hle : (8 <=? String.length new)%nat = true) by (apply Nat.leb_le; lia).
    rewrite Hle. cbn [andb]. rewrite Hdup. reflexivity.
  - unfold User.findById. cbn [users setUsers]. rewrite <- Hid.
    erewrite find_replaceFirst; [reflexivity | rewrite Hid; exact Hu |].
    apply String.eqb_refl.
Qed.

Lemma changeMyPassword_sends_stored_hash_witness :
  Primitives.compare Sample.prim "pw12345678" (UserDoc.password Sample.alice) = true
  /\ exists w' stored,
       UsersControllers.changeMyPassword Sample.prim
         (Req.setUser
            (Sample.request None ""
               (Sample.passwords "pw12345678" "newpassword" "newpassword") None)
            Sample.alice)
         Sample.world
       = (sendResponse 200 true "Password changed successfully"
            (VStr "$2b$newpassword"), w')
       /\ User.findById "5f0000000000000000000001" w' = (Normal (Some stored), w')
       /\ UserDoc.password stored = "$2b$newpassword".
Proof.
  split; [reflexivity|].
  refine (changeMyPassword_sends_stored_hash Sample.prim
            (Req.setUser
               (Sample.request None ""
                  (Sample.passwords "pw12345678" "newpassword" "newpassword") None)
               Sample.alice)
            Sample.world Sample.alice Sample.alice "pw12345678" "newpassword"
            eq_refl eq_refl eq_refl eq_refl eq_refl eq_refl eq_refl _ eq_refl _
            eq_refl eq_refl _).
  - simpl. lia.
  - discriminate.
  - intros u [<-|[<-|[<-|[]]]]; simpl; intros H; try discriminate; reflexivity.
Defined.

(** Two more handlers send whole user documents, password path included:
    the admin's list of users, and registration. *)
Lemma getAllUsers_sends_hashes (req : Req.t) (w : World) (u : UserDoc.t) :
  In u (users w) ->
  exists d, getField "data" (json (fst (AdminControllers.getAllUsers req w))) = Some d
            /\ mentions (UserDoc.password u) d = true.
Proof.
  intros Hin. exists (VArr (map UserDoc.toJSON (users w))). split; [reflexivity|].
  cbn [mentions]. apply existsb_exists. exists (UserDoc.toJSON u).
  split; [now apply in_map|].
  unfold UserDoc.toJSON, UserDoc.toObject. cbn [mentions].
  apply existsb_exists. exists ("password", VStr (UserDoc.password u)).
  split; [|cbn [mentions]; apply String.eqb_refl].
  apply in_or_app. left. simpl. auto.
Qed.

(** getMyProfile and updateMyProfile do strip the path. *)
Lemma deletePassword_no_key (u : UserDoc.t) :
  getField "password" (UserDoc.toJSON_selectMinusPassword u) = None.
Proof.
  unfold UserDoc.toJSON_selectMinusPassword, UserDoc.toObject, UserDoc.deletePassword.
  destruct (UserDoc.profileImageUrl u), (UserDoc.profileImageId u); reflexivity.
Qed.

(** * Further properties of the routes *)

(** ** The authentication stage of every guarded route *)

(** Every route below /albums, /users and /admin starts with isAuth. *)
Lemma guarded_route_gate prim (r : Routes.t) :
  isGuarded r = true ->
  exists R rest h,
    forall req w,
      app prim r req w
      = match AuthMiddleware.isAuth prim R req w with
        | (Normal req', w') => chain rest h req' w'
        | (Thrown e, w') => (errorHandler e, w')
        end.
Proof.
  destruct r as [r|[]|[]|[]| |]; try discriminate; intros _;
    cbn [app albumsRouter usersRouter adminRouter]; cbv zeta;
    match goal with
    | |- context [chain (AuthMiddleware.isAuth prim ?R :: ?rest) ?h] =>
        exists R, rest, h; reflexivity
    end.
Qed.

(** What isAuth does with a token the verifier rejects, and with a token
    whose principal is gone. *)
Lemma isAuth_rejected prim R req w t e :
  AuthMiddleware.tokenOf req = Some t ->
  JsString.nonEmpty t = true ->
  Primitives.verifyToken prim t = inl e ->
  AuthMiddleware.isAuth prim R req w = (Thrown e, logVerified w t).
Proof.
  intros Ht Hne Hv. unfold AuthMiddleware.isAuth, truthyOpt. rewrite Ht, Hne.
  unfold bind, AuthMiddleware.callVerifyToken. now rewrite Hv.
Qed.

Lemma isAuth_stale prim R req w t d :
  AuthMiddleware.tokenOf req = Some t ->
  JsString.nonEmpty t = true ->
  Primitives.verifyToken prim t = inr d ->
  User.findById (Decoded.id d) w = (Normal None, w) ->
  AuthMiddleware.isAuth prim R req w
  = (Thrown (createError 401 "Unauthorized: No user found in request"),
     logVerified w t).
Proof.
  intros Ht Hne Hv Hu. unfold User.findById in Hu. injection Hu as Hu.
  unfold AuthMiddleware.isAuth, truthyOpt. rewrite Ht, Hne.
  unfold bind, AuthMiddleware.callVerifyToken. rewrite Hv.
  unfold User.findById. cbn [users]. now rewrite Hu.
Qed.

(** X1. A request without a usable token (no authorization header, or a
    header that is empty once "Bearer " is removed) is answered 401 "No
    token provided" on every route below /albums, /users and /admin, and
    the world is exactly what it was: no lookup, no write, no call of
    the verifier. *)
Theorem guarded_routes_need_a_token :
  forall prim (r : Routes.t) (req : Req.t) (w : World),
    isGuarded r = true ->
    truthyOpt (AuthMiddleware.tokenOf req) = false ->
    app prim r req w = (sendResponse 401 false "No token provided" VNull, w).
Proof.
  intros prim r req w Hg Ht.
  destruct (guarded_route_gate prim r Hg) as [R [rest [h E]]].
  rewrite E, (isAuth_no_token prim R req w Ht). reflexivity.
Qed.

Lemma guarded_routes_need_a_token_witness :
  app Sample.prim (Routes.Albums Routes.DeleteAlbum)
      (Sample.request (Some "Bearer ") "6a0000000000000000000001" Body.empty None) Sample.world
  = (sendResponse 401 false "No token provided" VNull, Sample.world).
Proof.
  apply (guarded_routes_need_a_token Sample.prim (Routes.Albums Routes.DeleteAlbum));
    reflexivity.
Defined.

(** X2. When the verifier throws on the token, every guarded route
    answers with the error handler's rendering of that very error (its
    status, or 500 when it has none), the controller does not run, and
    the world only gains the token in the verifier's log. *)
Theorem guarded_routes_forward_verifier_error :
  forall prim (r : Routes.t) (req : Req.t) (w : World) t e,
    isGuarded r = true ->
    AuthMiddleware.tokenOf req = Some t ->
    JsString.nonEmpty t = true ->
    Primitives.verifyToken prim t = inl e ->
    app prim r req w = (errorHandler e, logVerified w t).
Proof.
  intros prim r req w t e Hg Ht Hne Hv.
  destruct (guarded_route_gate prim r Hg) as [R [rest [h E]]].
  rewrite E, (isAuth_rejected prim R req w t e Ht Hne Hv). reflexivity.
Qed.

Lemma guarded_routes_forward_verifier_error_witness :
  app Sample.prim (Routes.Users Routes.DeleteMe)
      (Sample.request (Some "Bearer forged") "" Body.empty None) Sample.world
  = (sendResponse 401 false "Invalid or expired token" VNull,
     logVerified Sample.world "forged").
Proof.
  apply (guarded_routes_forward_verifier_error Sample.prim
           (Routes.Users Routes.DeleteMe)
           (Sample.request (Some "Bearer forged") "" Body.empty None)
           Sample.world "forged" (createError 401 "Invalid or expired token"));
    reflexivity.
Defined.

(** X3. A token that verifies but names a user who is no longer stored
    (deleted after the token was issued) is refused with 401 on every
    guarded route; nothing is read or written beyond that lookup. *)
Theorem guarded_routes_refuse_stale_token :
  forall prim (r : Routes.t) (req : Req.t) (w : World) t d,
    isGuarded r = true ->
    AuthMiddleware.tokenOf req = Some t ->
    JsString.nonEmpty t = true ->
    Primitives.verifyToken prim t = inr d ->
    (forall u, In u (users w) -> UserDoc._id u <> Decoded.id d) ->
    app prim r req w
    = (sendResponse 401 false "Unauthorized: No user found in request" VNull,
       logVerified w t).
Proof.
  intros prim r req w t d Hg Ht Hne Hv Hnone.
  assert (Hu : User.findById (Decoded.id d) w = (Normal None, w)).
  { unfold User.findById. f_equal. f_equal. apply find_none_iff.
    intros u Hin. apply String.eqb_neq. now apply Hnone. }
  destruct (guarded_route_gate prim r Hg) as [R [rest [h E]]].
  rewrite E, (isAuth_stale prim R req w t d Ht Hne Hv Hu). reflexivity.
Qed.

Lemma guarded_routes_refuse_stale_token_witness :
  app Sample.prim (Routes.Admin Routes.AdminUsers)
      (Sample.request (Some "Bearer tok-5f0000000000000000000007") "" Body.empty None) Sample.world
  = (sendResponse 401 false "Unauthorized: No user found in request" VNull,
     logVerified Sample.world "tok-5f0000000000000000000007").
Proof.
  apply (guarded_routes_refuse_stale_token Sample.prim
           (Routes.Admin Routes.AdminUsers)
           (Sample.request (Some "Bearer tok-5f0000000000000000000007") "" Body.empty None)
           Sample.world "tok-5f0000000000000000000007" (Decoded.mk "5f0000000000000000000007" ""));
    try reflexivity.
  intros u [<-|[<-|[<-|[]]]]; discriminate.
Defined.

Lemma isAuth_normal_inv prim R req w req' w' :
  AuthMiddleware.isAuth prim R req w = (Normal req', w') ->
  exists t d p,
    AuthMiddleware.tokenOf req = Some t
    /\ JsString.nonEmpty t = true
    /\ Primitives.verifyToken prim t = inr d
    /\ User.findById (Decoded.id d) w = (Normal (Some p), w)
    /\ (R = [] \/ In (UserDoc.role p) R)
    /\ req' = Req.setUser req p
    /\ w' = logVerified w t.
Proof.
  unfold AuthMiddleware.isAuth, truthyOpt.
  destruct (AuthMiddleware.tokenOf req) as [t|]; [|discriminate].
  destruct (JsString.nonEmpty t) eqn:Hne; [|discriminate].
  unfold bind, AuthMiddleware.callVerifyToken.
  destruct (Primitives.verifyToken prim t) as [e|d] eqn:Hv; [discriminate|].
  unfold User.findById. cbn [users].
  destruct (List.find _ (users w)) as [p|] eqn:Hu; [|discriminate].
  destruct R as [|r0 R'].
  - cbn. intros E. injection E as <- <-.
    exists t, d, p. unfold User.findById. rewrite Hu. repeat split; auto.
  - cbn [List.length Nat.eqb negb andb].
    destruct (existsb (String.eqb (UserDoc.role p)) (r0 :: R')) eqn:Ex;
      cbn [negb]; [|discriminate].
    intros E. injection E as <- <-.
    exists t, d, p. unfold User.findById. rewrite Hu.
    repeat split; auto. right.
    exact (proj1 (includes_iff (UserDoc.role p) (r0 :: R')) Ex).
Qed.

Lemma errorHandler_fails (e : JsError.t) :
  getField "success" (json (errorHandler e)) = Some (VBool false)
  /\ getField "data" (json (errorHandler e)) = None.
Proof. split; reflexivity. Qed.

(** X4. An admin route answers with success only to a stored admin: if
    the response of any route below /admin says [success: true], the
    request carried a token that the verifier accepted and that names a
    stored user whose role is admin. *)
Theorem admin_success_needs_admin :
  forall prim (r : Routes.admin) (req : Req.t) (w : World),
    getField "success" (json (fst (adminRouter prim r req w))) = Some (VBool true) ->
    exists t d p,
      AuthMiddleware.tokenOf req = Some t
      /\ Primitives.verifyToken prim t = inr d
      /\ In p (users w)
      /\ UserDoc._id p = Decoded.id d
      /\ UserDoc.role p = "admin".
Proof.
  intros prim r req w H.
  assert (G : exists h, adminRouter prim r req w
                        = match AuthMiddleware.isAuth prim ["admin"] req w with
                          | (Normal req', w') => h req' w'
                          | (Thrown e, w') => (errorHandler e, w')
                          end).
  { destruct r; cbn [adminRouter chain]; cbv zeta; eexists; reflexivity. }
  destruct G as [h G]. rewrite G in H. clear G.
  destruct (AuthMiddleware.isAuth prim ["admin"] req w) as [[req'|e] w'] eqn:E.
  - apply isAuth_normal_inv in E.
    destruct E as [t [d [p [Ht [_ [Hv [Hu [HR _]]]]]]]].
    unfold User.findById in Hu. injection Hu as Hu. apply find_some in Hu.
    destruct Hu as [Hin Hid]. apply String.eqb_eq in Hid.
    exists t, d, p. repeat split; auto.
    destruct HR as [HR|[HR|[]]]; [discriminate | now symmetry].
  - cbn [fst] in H. rewrite (proj1 (errorHandler_fails e)) in H. discriminate.
Qed.

Lemma admin_success_needs_admin_witness :
  getField "success"
    (json (fst (adminRouter Sample.prim Routes.AdminUsers
                  (Sample.request (Some "Bearer tok-5f0000000000000000000000") "" Body.empty None)
                  Sample.world))) = Some (VBool true)
  /\ exists t d p,
       AuthMiddleware.tokenOf
         (Sample.request (Some "Bearer tok-5f0000000000000000000000") "" Body.empty None) = Some t
       /\ Primitives.verifyToken Sample.prim t = inr d
       /\ In p (users Sample.world)
       /\ UserDoc._id p = Decoded.id d
       /\ UserDoc.role p = "admin".
Proof.
  split; [reflexivity|].
  apply (admin_success_needs_admin Sample.prim Routes.AdminUsers
           (Sample.request (Some "Bearer tok-5f0000000000000000000000") "" Body.empty None) Sample.world).
  reflexivity.
Defined.

(** ** The routes on one album *)

Lemma isOwner_eval (req : Req.t) (p : UserDoc.t) (w : World) :
  Req.user req = Some p ->
  AuthMiddleware.isOwner req w
  = (if isObjectId (Req.params_id req)
     then match List.find (fun a => String.eqb (AlbumDoc._id a) (Req.params_id req))
                          (albums w) with
          | None => Thrown (createError 404 "Album not found")
          | Some a =>
              if String.eqb (AlbumDoc.addedBy a) (UserDoc.id p)
              then Normal (Req.setAlbum req a)
              else Thrown (createError 403 "Not authorized")
          end
     else Thrown (CastError "ObjectId" "_id"), w).
Proof.
  intros Hp. unfold AuthMiddleware.isOwner, bind, Album.findById, reqUser.
  destruct (isObjectId (Req.params_id req)); [|reflexivity].
  destruct (List.find _ (albums w)) as [a|]; [|reflexivity].
  rewrite Hp. unfold ret.
  destruct (String.eqb (AlbumDoc.addedBy a) (UserDoc.id p)); reflexivity.
Qed.




Lemma owner_reaches_controller prim rest h (req : Req.t) (w : World) t d p a :
  AuthMiddleware.tokenOf req = Some t ->
  JsString.nonEmpty t = true ->
  Primitives.verifyToken prim t = inr d ->
  User.findById (Decoded.id d) w = (Normal (Some p), w) ->
  Album.findById (Req.params_id req) w = (Normal (Some a), w) ->
  AlbumDoc.addedBy a = UserDoc.id p ->
  chain (AuthMiddleware.isAuth prim [] :: AuthMiddleware.isOwner :: rest) h req w
  = chain rest h (Req.setAlbum (Req.setUser req p) a) (logVerified w t).
Proof.
  intros Ht Hne Hv Hu Ha Ho.
  assert (A := isAuth_authenticated prim [] req w t d p Ht Hne Hv Hu).
  cbn in A.
  assert (O := isOwner_eval (Req.setUser req p) p (logVerified w t) eq_refl).
  cbn [albums logVerified Req.params_id Req.setUser] in O.
  destruct (findById_found _ _ _ Ha) as [Hwf Hfind].
  apply String.eqb_eq in Ho.
  cbn [chain]. unfold logVerified. rewrite A. fold (logVerified w t).
  rewrite O, Hwf, Hfind, Ho. reflexivity.
Qed.

Lemma in_deleteFirst_unique {D} (f : D -> string) (k : string) (b : D) (l : list D) :
  NoDup (map f l) ->
  In b (deleteFirst (fun x => String.eqb (f x) k) l) <-> In b l /\ f b <> k.
Proof.
  induction l as [|y l IH]; simpl; intros Hnd; [tauto|].
  inversion Hnd as [|? ? Hnotin Hnd']; subst.
  destruct (String.eqb (f y) k) eqn:E.
  - apply String.eqb_eq in E. split.
    + intros Hb. split; [now right|]. intros Hk. apply Hnotin.
      rewrite E, <- Hk. now apply in_map.
    + intros [[->|Hb] Hk]; [contradiction | exact Hb].
  - apply String.eqb_neq in E. simpl. rewrite (IH Hnd'). split.
    + intros [->|[Hb Hk]]; auto.
    + intros [[->|Hb] Hk]; auto.
Qed.

Lemma deleteAlbum_eval (req : Req.t) (w : World) (a : AlbumDoc.t) :
  Req.album req = Some a ->
  let out := AlbumsControllers.deleteAlbum req w in
  fst out = sendResponse 200 true "Album deleted successfully" (AlbumDoc.toJSON a)
  /\ albums (snd out)
     = deleteFirst (fun x => String.eqb (AlbumDoc._id x) (AlbumDoc._id a)) (albums w)
  /\ users (snd out) = users w
  /\ destroyed (snd out) = destroyed w ++ coverIds a
  /\ verified (snd out) = verified w.
Proof.
  intros Ha. cbv zeta.
  unfold AlbumsControllers.deleteAlbum, tryNext, bind, reqAlbum. rewrite Ha.
  unfold when, coverIds, truthyOpt, deleteImgCloudinary,
    Album.findByIdAndDelete, ret.
  assert (D : forall l : list AlbumDoc.t,
             List.find (fun x => String.eqb (AlbumDoc._id x) (AlbumDoc._id a)) l = None ->
             deleteFirst (fun x => String.eqb (AlbumDoc._id x) (AlbumDoc._id a)) l = l).
  { induction l as [|y l IH]; simpl; [reflexivity|].
    destruct (String.eqb (AlbumDoc._id y) (AlbumDoc._id a)); [discriminate|].
    intros H. now rewrite IH. }
  destruct (AlbumDoc.coverArtId a) as [c|]; cbn beta iota;
    [destruct (JsString.nonEmpty c)|];
    cbn [fst snd albums users destroyed verified];
    match goal with
    | |- context [List.find ?f (albums w)] =>
        destruct (List.find f (albums w)) eqn:F
    end;
    cbn [fst snd albums users destroyed verified setAlbums];
    try rewrite (D _ F); rewrite ?app_nil_r; repeat split; reflexivity.
Qed.

(** X6. DELETE /albums/:id by the authenticated owner of the album with
    that id (album ids being unique in the collection): the answer is
    200 with the album as it was; afterwards the collection holds exactly
    the other albums and a lookup of the id finds nothing; the users are
    untouched, and the image host is asked to delete the album's cover
    when it has one and nothing else. *)
Theorem owner_deletes_album :
  forall prim (req : Req.t) (w : World) t d p a,
    AuthMiddleware.tokenOf req = Some t ->
    JsString.nonEmpty t = true ->
    Primitives.verifyToken prim t = inr d ->
    User.findById (Decoded.id d) w = (Normal (Some p), w) ->
    Album.findById (Req.params_id req) w = (Normal (Some a), w) ->
    AlbumDoc.addedBy a = UserDoc.id p ->
    NoDup (map AlbumDoc._id (albums w)) ->
    let out := albumsRouter prim Routes.DeleteAlbum req w in
    fst out = sendResponse 200 true "Album deleted successfully" (AlbumDoc.toJSON a)
    /\ (forall b, In b (albums (snd out))
                  <-> In b (albums w) /\ AlbumDoc._id b <> Req.params_id req)
    /\ Album.findById (Req.params_id req) (snd out) = (Normal None, snd out)
    /\ users (snd out) = users w
    /\ destroyed (snd out) = destroyed w ++ coverIds a.
Proof.
  intros prim req w t d p a Ht Hne Hv Hu Ha Ho Hnd out. subst out.
  cbn [albumsRouter]. cbv zeta.
  rewrite (owner_reaches_controller prim [] _ req w t d p a Ht Hne Hv Hu Ha Ho).
  cbn [chain].
  destruct (deleteAlbum_eval (Req.setAlbum (Req.setUser req p) a)
              (logVerified w t) a eq_refl) as [R1 [R2 [R3 [R4 _]]]].
  cbv zeta in R1, R2, R3, R4. cbn [albums users destroyed logVerified] in R2, R3, R4.
  destruct (findById_found _ _ _ Ha) as [Hwf Hfind]. apply find_some in Hfind.
  destruct Hfind as [_ Hid]. apply String.eqb_eq in Hid.
  assert (I : forall b,
             In b (albums (snd (AlbumsControllers.deleteAlbum
                                  (Req.setAlbum (Req.setUser req p) a)
                                  (logVerified w t))))
             <-> In b (albums w) /\ AlbumDoc._id b <> Req.params_id req).
  { intros b. rewrite R2, Hid. now apply in_deleteFirst_unique. }
  split; [exact R1|]. split; [exact I|]. split; [|split; assumption].
  rewrite (findById_wellFormed _ _ Hwf). f_equal. f_equal. apply find_none_iff.
  intros b Hb. apply I in Hb. now apply String.eqb_neq.
Qed.

Lemma owner_deletes_album_witness :
  NoDup (map AlbumDoc._id (albums Sample.world))
  /\ Album.findById "6a0000000000000000000001"
       (snd (albumsRouter Sample.prim Routes.DeleteAlbum
               (Sample.request (Some "Bearer tok-5f0000000000000000000001") "6a0000000000000000000001" Body.empty None)
               Sample.world))
     = (Normal None,
        snd (albumsRouter Sample.prim Routes.DeleteAlbum
               (Sample.request (Some "Bearer tok-5f0000000000000000000001") "6a0000000000000000000001" Body.empty None)
               Sample.world)).
Proof.
  assert (H : NoDup (map AlbumDoc._id (albums Sample.world))).
  { simpl. constructor; [intros []|constructor]. }
  split; [exact H|].
  exact (proj1 (proj2 (proj2
           (owner_deletes_album Sample.prim
              (Sample.request (Some "Bearer tok-5f0000000000000000000001") "6a0000000000000000000001" Body.empty None)
              Sample.world "tok-5f0000000000000000000001" (Decoded.mk "5f0000000000000000000001" "") Sample.alice
              Sample.okComputer eq_refl eq_refl eq_refl eq_refl eq_refl eq_refl H)))).
Defined.

(** X7. DELETE /admin/albums/:id never deletes anything. The admin
    router runs no isOwner, so the controller finds no req.album, throws
    on reading its coverArtId, and an authenticated admin is answered
    500 whatever the id; albums, users and the image host are
    untouched. *)
Theorem admin_deleteAlbum_always_fails :
  forall prim (req : Req.t) (w : World) t d p,
    Req.album req = None ->
    AuthMiddleware.tokenOf req = Some t ->
    JsString.nonEmpty t = true ->
    Primitives.verifyToken prim t = inr d ->
    User.findById (Decoded.id d) w = (Normal (Some p), w) ->
    UserDoc.role p = "admin" ->
    let out := adminRouter prim Routes.AdminDeleteAlbum req w in
    statusCode (fst out) = 500
    /\ getField "success" (json (fst out)) = Some (VBool false)
    /\ snd out = logVerified w t.
Proof.
  intros prim req w t d p Hal Ht Hne Hv Hu Hrole out. subst out.
  assert (A := isAuth_authenticated prim ["admin"] req w t d p Ht Hne Hv Hu).
  rewrite Hrole in A. cbn in A.
  cbn [adminRouter chain]. cbv zeta. unfold logVerified. rewrite A.
  unfold AdminControllers.deleteAlbum, tryNext, bind, reqAlbum.
  cbn [Req.album Req.setUser]. rewrite Hal. repeat split.
Qed.

Lemma admin_deleteAlbum_always_fails_witness :
  UserDoc.role Sample.root = "admin"
  /\ statusCode
       (fst (adminRouter Sample.prim Routes.AdminDeleteAlbum
               (Sample.request (Some "Bearer tok-5f0000000000000000000000") "6a0000000000000000000001" Body.empty None)
               Sample.world)) = 500
  /\ albums
       (snd (adminRouter Sample.prim Routes.AdminDeleteAlbum
               (Sample.request (Some "Bearer tok-5f0000000000000000000000") "6a0000000000000000000001" Body.empty None)
               Sample.world)) = [Sample.okComputer].
Proof.
  split; [reflexivity|].
  destruct (admin_deleteAlbum_always_fails Sample.prim
              (Sample.request (Some "Bearer tok-5f0000000000000000000000") "6a0000000000000000000001" Body.empty None)
              Sample.world "tok-5f0000000000000000000000" (Decoded.mk "5f0000000000000000000000" "") Sample.root
              eq_refl eq_refl eq_refl eq_refl eq_refl eq_refl) as [H1 [_ H3]].
  split; [exact H1|]. rewrite H3. reflexivity.
Defined.

(** ** The caller's list of albums *)

Lemma insertDesc_perm (a : AlbumDoc.t) (l : list AlbumDoc.t) :
  Permutation (Album.insertDesc a l) (a :: l).
Proof.
  induction l as [|b l IH]; simpl; [reflexivity|].
  destruct (AlbumDoc.createdAt b <? AlbumDoc.createdAt a)%Z; [reflexivity|].
  rewrite IH. apply perm_swap.
Qed.

Lemma insertDesc_sorted (a : AlbumDoc.t) (l : list AlbumDoc.t) :
  Sorted newerFirst l -> Sorted newerFirst (Album.insertDesc a l).
Proof.
  induction l as [|b l IH]; simpl; intros Hs.
  - repeat constructor.
  - inversion Hs as [|? ? Hs' Hd]; subst.
    destruct (AlbumDoc.createdAt b <? AlbumDoc.createdAt a)%Z eqn:E.
    + apply Z.ltb_lt in E. constructor; [exact Hs|]. constructor.
      unfold newerFirst. lia.
    + apply Z.ltb_ge in E. constructor; [now apply IH|].
      destruct l as [|c l]; simpl.
      * constructor. exact E.
      * destruct (AlbumDoc.createdAt c <? AlbumDoc.createdAt a)%Z;
          constructor; [exact E|]. now inversion Hd.
Qed.

Lemma sortCreatedAtDesc_spec (l : list AlbumDoc.t) :
  Permutation (Album.sortCreatedAtDesc l) l
  /\ Sorted newerFirst (Album.sortCreatedAtDesc l).
Proof.
  unfold Album.sortCreatedAtDesc.
  assert (G : forall acc,
             Sorted newerFirst acc ->
             Permutation (fold_left (fun acc a => Album.insertDesc a acc) l acc)
                         (l ++ acc)
             /\ Sorted newerFirst
                  (fold_left (fun acc a => Album.insertDesc a acc) l acc)).
  { induction l as [|a l IH]; simpl; intros acc Hs; [now split|].
    destruct (IH (Album.insertDesc a acc) (insertDesc_sorted a acc Hs)) as [P S].
    split; [|exact S]. rewrite P, insertDesc_perm. symmetry. apply Permutation_middle. }
  destruct (G [] (Sorted_nil _)) as [P S]. rewrite app_nil_r in P. now split.
Qed.

(** X8. GET /albums, for a resolved caller [u]: the answer is 200 and its
    data is an array holding the caller's albums and nothing else: every
    stored album whose owner is [u], each as often as it is stored, no
    album of anybody else, ordered newest first. The world is not
    changed. *)
Theorem getMyAlbums_lists_own_albums :
  forall (req : Req.t) (w : World) (u : UserDoc.t),
    Req.user req = Some u ->
    exists l,
      statusCode (fst (AlbumsControllers.getMyAlbums req w)) = 200
      /\ getField "data" (json (fst (AlbumsControllers.getMyAlbums req w)))
         = Some (VArr (map AlbumDoc.toJSON l))
      /\ Permutation l
           (filter (fun a => String.eqb (AlbumDoc.addedBy a) (UserDoc._id u))
                   (albums w))
      /\ (forall a, In a l <-> In a (albums w) /\ AlbumDoc.addedBy a = UserDoc._id u)
      /\ Sorted newerFirst l
      /\ snd (AlbumsControllers.getMyAlbums req w) = w.
Proof.
  intros req w u Hu.
  set (mine := filter (fun a => String.eqb (AlbumDoc.addedBy a) (UserDoc._id u))
                      (albums w)).
  destruct (sortCreatedAtDesc_spec mine) as [P S].
  remember (Album.sortCreatedAtDesc mine) as sorted eqn:E.
  exists sorted.
  assert (I : forall a, In a sorted
                        <-> In a (albums w) /\ AlbumDoc.addedBy a = UserDoc._id u).
  { intros a. split.
    - intros H. apply (Permutation_in _ P) in H. apply filter_In in H.
      destruct H as [H1 H2]. apply String.eqb_eq in H2. now split.
    - intros [H1 H2]. apply (Permutation_in _ (Permutation_sym P)).
      apply filter_In. split; [exact H1 | now apply String.eqb_eq]. }
  unfold AlbumsControllers.getMyAlbums, tryNext, bind, reqUser,
    Album.find_addedBy_sorted.
  rewrite Hu. unfold ret. fold mine. rewrite <- E.
  destruct sorted as [|a l];
    (split; [reflexivity|]); (split; [reflexivity|]); (split; [exact P|]);
    (split; [exact I|]); (split; [exact S | reflexivity]).
Qed.

Lemma getMyAlbums_lists_own_albums_witness :
  Req.user (Req.setUser (Sample.request None "" Body.empty None) Sample.alice)
    = Some Sample.alice
  /\ exists l,
       statusCode
         (fst (AlbumsControllers.getMyAlbums
                 (Req.setUser (Sample.request None "" Body.empty None) Sample.alice)
                 Sample.world)) = 200
       /\ getField "data"
            (json (fst (AlbumsControllers.getMyAlbums
                          (Req.setUser (Sample.request None "" Body.empty None)
                                       Sample.alice)
                          Sample.world)))
          = Some (VArr (map AlbumDoc.toJSON l))
       /\ Permutation l
            (filter (fun a => String.eqb (AlbumDoc.addedBy a)
                                (UserDoc._id Sample.alice))
                    (albums Sample.world))
       /\ (forall a, In a l <-> In a (albums Sample.world)
                                /\ AlbumDoc.addedBy a = UserDoc._id Sample.alice)
       /\ Sorted newerFirst l
       /\ snd (AlbumsControllers.getMyAlbums
                 (Req.setUser (Sample.request None "" Body.empty None) Sample.alice)
                 Sample.world) = Sample.world.
Proof.
  split; [reflexivity|].
  exact (getMyAlbums_lists_own_albums
           (Req.setUser (Sample.request None "" Body.empty None) Sample.alice)
           Sample.world Sample.alice eq_refl).
Defined.

(** ** Registration and login *)

Lemma find_app_none {D} (sel : D -> bool) (l : list D) (d : D) :
  List.find sel l = None -> List.find sel (l ++ [d]) = (if sel d then Some d else None).
Proof.
  induction l as [|x l IH]; simpl; [reflexivity|].
  destruct (sel x); [discriminate | exact IH].
Qed.

Lemma registerUser_eval prim (req : Req.t) (w : World) (n e pw : string) :
  acceptable req n e pw ->
  (forall u, In u (users w) -> UserDoc.email u <> User.castEmail e) ->
  AuthControllers.registerUser prim req w
  = (sendResponse 201 true "User registered successfully"
       (UserDoc.toJSON (registered prim req w n e pw)),
     mkWorld (users w ++ [registered prim req w n e pw]) (albums w)
             (destroyed w) (verified w) (S (nextOid w)) (clock w)).
Proof.
  intros [Hn [He [Hp [Vn [Ve [Vp Vr]]]]]] Hfresh.
  assert (F : List.find (fun u => String.eqb (UserDoc.email u)
                                    (User.castEmail (User.castEmail e)))
                (users w) = None).
  { rewrite castEmail_idempotent. apply find_none_iff. intros u Hu.
    apply String.eqb_neq. now apply Hfresh. }
  assert (X : existsb (fun u => String.eqb (UserDoc.email u) (User.castEmail e))
                (users w) = false).
  { apply not_true_is_false. intros H. apply existsb_exists in H.
    destruct H as [u [Hu H]]. apply String.eqb_eq in H. now apply (Hfresh u). }
  unfold AuthControllers.registerUser, tryNext, bind, User.new, bind,
    newObjectId, ret, User.findOne_email, registered.
  rewrite Hn, He, Hp. cbn [option_map User.d_email users]. rewrite F.
  cbn [isSome]. unfold User.save.
  destruct (Req.file req) as [f|];
    cbn [User.setImage User.d_name User.d_email User.d_password User.d_role
         User.d_id User.d_profileImageUrl User.d_profileImageId];
    rewrite Vn, Ve, Vp, Vr; cbn [andb users]; rewrite X; reflexivity.
Qed.

(** X9. A registration the schema accepts (name and email not empty once
    trimmed, password of at least 8 characters once trimmed, role absent
    or one of user and admin) with an email no stored user has is
    answered 201, and exactly one user is appended: the name trimmed,
    the email lower-cased and trimmed, the password stored as its hash
    and never as sent, the role taken from the body when the body names
    one (so a client may register itself as admin) and "user"
    otherwise, the image paths those of the uploaded file. Albums and
    the image host are untouched. *)
Theorem registerUser_stores_hashed_user :
  forall prim (req : Req.t) (w : World) (n e pw : string),
    acceptable req n e pw ->
    (forall u, In u (users w) -> UserDoc.email u <> User.castEmail e) ->
    let out := AuthControllers.registerUser prim req w in
    let u := registered prim req w n e pw in
    fst out = sendResponse 201 true "User registered successfully" (UserDoc.toJSON u)
    /\ users (snd out) = users w ++ [u]
    /\ UserDoc.password u = Primitives.hash prim (JsString.trim pw)
    /\ UserDoc.role u
       = match Body.role (Req.body req) with Some r => r | None => "user" end
    /\ albums (snd out) = albums w
    /\ destroyed (snd out) = destroyed w.
Proof.
  intros prim req w n e pw Hacc Hfresh. cbv zeta.
  rewrite (registerUser_eval prim req w n e pw Hacc Hfresh). repeat split.
Qed.

Lemma registerUser_stores_hashed_user_witness :
  acceptable (Sample.request None "" (Sample.registration " Carol " "Carol@X.com " "pw12345678") None)
             " Carol " "Carol@X.com " "pw12345678"
  /\ map (fun u => (UserDoc.name u, UserDoc.email u, UserDoc.password u, UserDoc.role u))
         (users (snd (AuthControllers.registerUser Sample.prim
                        (Sample.request None ""
                           (Sample.registration " Carol " "Carol@X.com " "pw12345678")
                           None)
                        Sample.world)))
     = map (fun u => (UserDoc.name u, UserDoc.email u, UserDoc.password u, UserDoc.role u))
           (users Sample.world)
       ++ [("Carol", "carol@x.com", "$2b$pw12345678", "user")].
Proof.
  assert (A : acceptable
                (Sample.request None ""
                   (Sample.registration " Carol " "Carol@X.com " "pw12345678") None)
                " Carol " "Carol@X.com " "pw12345678").
  { repeat split. }
  split; [exact A|].
  assert (Hfresh : forall u, In u (users Sample.world) ->
                             UserDoc.email u <> User.castEmail "Carol@X.com ").
  { intros u [<-|[<-|[<-|[]]]]; discriminate. }
  destruct (registerUser_stores_hashed_user Sample.prim _ Sample.world
              " Carol " "Carol@X.com " "pw12345678" A Hfresh) as [_ [H _]].
  rewrite H. reflexivity.
Defined.

(** X10. Register, then log in. After a registration as in X9 whose
    password has no white space around it, a login with an email that
    the setters map to the same address (the same letters in any case,
    with any white space around) and with that password, under a
    [compare] that accepts a password against its own hash, finds the
    new user and answers 200 with the token signed for the new user's id
    and stored email; the login changes nothing. *)
Theorem register_then_login :
  forall prim (req login : Req.t) (w : World) (n e pw e' : string),
    acceptable req n e pw ->
    (forall u, In u (users w) -> UserDoc.email u <> User.castEmail e) ->
    JsString.trim pw = pw ->
    Primitives.compare prim pw (Primitives.hash prim pw) = true ->
    Body.email (Req.body login) = Some e' ->
    User.castEmail e' = User.castEmail e ->
    Body.password (Req.body login) = Some pw ->
    let w' := snd (AuthControllers.registerUser prim req w) in
    AuthControllers.loginUser prim login w'
    = (sendResponse 200 true "Token created successfully"
         (VStr (Primitives.generateToken prim
                  (UserDoc._id (registered prim req w n e pw))
                  (User.castEmail e))),
       w').
Proof.
  intros prim req login w n e pw e' Hacc Hfresh Htrim Hcmp He' Hsame Hpw. cbv zeta.
  rewrite (registerUser_eval prim req w n e pw Hacc Hfresh). cbn [snd].
  assert (F : List.find (fun u => String.eqb (UserDoc.email u) (User.castEmail e))
                (users w) = None).
  { apply find_none_iff. intros u Hu. apply String.eqb_neq. now apply Hfresh. }
  unfold AuthControllers.loginUser, tryNext, bind, User.findOne_email.
  rewrite He', Hsame. cbn [users].
  rewrite (find_app_none _ _ _ F).
  assert (Em : UserDoc.email (registered prim req w n e pw) = User.castEmail e)
    by reflexivity.
  assert (Pw : UserDoc.password (registered prim req w n e pw)
               = Primitives.hash prim (JsString.trim pw)) by reflexivity.
  rewrite Em, String.eqb_refl, Hpw, Pw, Htrim, Hcmp. reflexivity.
Qed.

Lemma register_then_login_witness :
  JsString.trim "pw12345678" = "pw12345678"
  /\ statusCode
       (fst (AuthControllers.loginUser Sample.prim
               (Sample.request None ""
                  (Sample.registration "" "  CAROL@x.com" "pw12345678") None)
               (snd (AuthControllers.registerUser Sample.prim
                       (Sample.request None ""
                          (Sample.registration "Carol" "Carol@X.com" "pw12345678")
                          None)
                       Sample.world)))) = 200.
Proof.
  split; [reflexivity|].
  assert (A : acceptable
                (Sample.request None ""
                   (Sample.registration "Carol" "Carol@X.com" "pw12345678") None)
                "Carol" "Carol@X.com" "pw12345678").
  { repeat split. }
  assert (Hfresh : forall u, In u (users Sample.world) ->
                             UserDoc.email u <> User.castEmail "Carol@X.com").
  { intros u [<-|[<-|[<-|[]]]]; discriminate. }
  rewrite (register_then_login Sample.prim
             (Sample.request None ""
                (Sample.registration "Carol" "Carol@X.com" "pw12345678") None)
             (Sample.request None ""
                (Sample.registration "" "  CAROL@x.com" "pw12345678") None)
             Sample.world "Carol" "Carol@X.com" "pw12345678" "  CAROL@x.com"
             A Hfresh eq_refl eq_refl eq_refl eq_refl eq_refl).
  reflexivity.
Defined.

(** X11. loginUser only reads: whatever the request, the world after it
    is the world before it. And it answers with success only with a token
    signed for a stored user whose stored hash [compare] accepts for the
    password of the request: whichever user the lookup selects, nobody
    is logged in without the password of that very user. *)
Theorem loginUser_reads_and_checks :
  forall prim (req : Req.t) (w : World),
    snd (AuthControllers.loginUser prim req w) = w
    /\ (getField "success" (json (fst (AuthControllers.loginUser prim req w)))
          = Some (VBool true) ->
        exists u pw,
          In u (users w)
          /\ Body.password (Req.body req) = Some pw
          /\ Primitives.compare prim pw (UserDoc.password u) = true
          /\ fst (AuthControllers.loginUser prim req w)
             = sendResponse 200 true "Token created successfully"
                 (VStr (Primitives.generateToken prim (UserDoc._id u)
                          (UserDoc.email u)))).
Proof.
  intros prim req w.
  unfold AuthControllers.loginUser, tryNext, bind, User.findOne_email.
  destruct (Body.email (Req.body req)) as [e|]; [|split; [reflexivity|discriminate]].
  destruct (List.find _ (users w)) as [u|] eqn:F;
    [|split; [reflexivity|discriminate]].
  apply find_some in F. destruct F as [Hin He]. apply String.eqb_eq in He.
  destruct (Body.password (Req.body req)) as [pw|];
    [|split; [reflexivity|discriminate]].
  destruct (Primitives.compare prim pw (UserDoc.password u)) eqn:C;
    [|split; [reflexivity|discriminate]].
  split; [reflexivity|]. intros _. exists u, pw. repeat split; auto.
Qed.

Lemma loginUser_reads_and_checks_witness :
  getField "success"
    (json (fst (AuthControllers.loginUser Sample.prim
                  (Sample.request None ""
                     (Sample.registration "" "Alice@x.com" "pw12345678") None)
                  Sample.world))) = Some (VBool true)
  /\ exists u pw,
       In u (users Sample.world)
       /\ Body.password (Req.body (Sample.request None ""
                                     (Sample.registration "" "Alice@x.com" "pw12345678")
                                     None)) = Some pw
       /\ Primitives.compare Sample.prim pw (UserDoc.password u) = true
       /\ fst (AuthControllers.loginUser Sample.prim
                 (Sample.request None ""
                    (Sample.registration "" "Alice@x.com" "pw12345678") None)
                 Sample.world)
          = sendResponse 200 true "Token created successfully"
              (VStr (Primitives.generateToken Sample.prim (UserDoc._id u)
                       (UserDoc.email u))).
Proof.
  split; [reflexivity|].
  apply (proj2 (loginUser_reads_and_checks Sample.prim
                  (Sample.request None ""
                     (Sample.registration "" "Alice@x.com" "pw12345678") None)
                  Sample.world)).
  reflexivity.
Defined.

(** ** The caller's own account *)

Lemma map_replaceFirst {D E} (f : D -> E) (sel : D -> bool) (d d' : D) (l : list D) :
  List.find sel l = Some d -> f d' = f d ->
  map f (replaceFirst sel d' l) = map f l.
Proof.
  intros Hf He. induction l as [|x l IH]; simpl in *; [reflexivity|].
  destruct (sel x).
  - injection Hf as ->. simpl. now rewrite He.
  - simpl. now rewrite IH.
Qed.

(** Case analysis on a scrutinee that holds no case analysis itself. *)
Ltac innermost_case :=
  match goal with
  | |- context [match ?x with _ => _ end] =>
      lazymatch x with
      | context [match _ with _ => _ end] => fail
      | _ => destruct x
      end
  end.

Lemma triple_weaken {A} (P : World -> Prop) (m : Js A)
    (Q Q' : A -> World -> Prop) (E E' : World -> Prop) :
  triple P m Q E ->
  (forall a w, Q a w -> Q' a w) -> (forall w, E w -> E' w) ->
  triple P m Q' E'.
Proof.
  intros H HQ HE w Hw. specialize (H w Hw).
  destruct (m w) as [[a|e] w1]; auto.
Qed.

Lemma saveLoaded_keeps_credentials hash (old cur : UserDoc.t) (us0 : list UserDoc.t) :
  credentials cur = credentials old ->
  triple (fun w => map credentials (users w) = map credentials us0
                   /\ List.find (fun u => String.eqb (UserDoc._id u) (UserDoc._id old))
                                (users w) = Some old)
         (User.saveLoaded hash old cur)
         (fun _ w => map credentials (users w) = map credentials us0)
         (fun w => map credentials (users w) = map credentials us0).
Proof.
  intros Hc w [Hm Hf]. unfold credentials in Hc. injection Hc as Hid Hrole Hpw.
  unfold User.saveLoaded. rewrite Hpw, String.eqb_refl. cbn [negb orb].
  match goal with |- context [if ?c then _ else _] => destruct c end;
    [|exact Hm].
  destruct (existsb _ (users w)); [exact Hm|].
  cbn [users setUsers]. rewrite <- Hm.
  assert (Hf' : List.find (fun u => String.eqb (UserDoc._id u) (UserDoc._id cur))
                  (users w) = Some old) by (rewrite Hid; exact Hf).
  apply (map_replaceFirst credentials _ old); [exact Hf'|].
  unfold credentials. cbn. now rewrite Hid, Hrole.
Qed.

(** X12. A profile update cannot change who a user is, a role or a
    credential: whatever the request (a role or password in the body
    included), after updateMyProfile every stored user has the _id, the
    role and the stored password hash it had before, in the same order;
    the albums are untouched. *)
Theorem updateMyProfile_keeps_credentials :
  forall prim (req : Req.t) (w : World),
    map credentials (users (snd (UsersControllers.updateMyProfile prim req w)))
    = map credentials (users w)
    /\ albums (snd (UsersControllers.updateMyProfile prim req w)) = albums w.
Proof.
  intros prim req w. split.
  - set (I := fun us : list UserDoc.t => map credentials us = map credentials (users w)).
    change (I (users (snd (UsersControllers.updateMyProfile prim req w)))).
    apply (triple_tryNext (fun w0 => I (users w0)) (fun w0 => I (users w0)));
      [|intros; assumption|reflexivity].
    eapply triple_bind; [apply (triple_keepsUsers I); keeps_users|]. intros me.
    apply (triple_bind _ _ _ _
             (fun found w0 =>
                I (users w0)
                /\ List.find (fun u => String.eqb (UserDoc._id u) (UserDoc._id me))
                             (users w0) = found)).
    { intros w0 H0. unfold User.findById. now split. }
    intros [user|]; [|apply triple_throwCreateError; tauto].
    destruct (truthyOpt (Body.role (Req.body req)));
      [apply triple_throwCreateError; tauto|].
    destruct (truthyOpt (Body.password (Req.body req)));
      [apply triple_throwCreateError; tauto|].
    cbv zeta.
    set (J := fun us : list UserDoc.t =>
                I us /\ List.find (fun u => String.eqb (UserDoc._id u) (UserDoc._id me))
                                  us = Some user).
    apply (triple_bind _ _ _ _
             (fun u3 w0 => J (users w0) /\ credentials u3 = credentials user)).
    { assert (C : forall u2, credentials u2 = credentials user ->
                   forall f : File.t,
                     credentials (UsersControllers.assignImage u2 (File.path f)
                                    (File.filename f)) = credentials user)
        by (intros u2 H f; exact H).
      match goal with
      | |- triple _ (match Req.file req with
                     | Some _ => _
                     | None => ret ?u2
                     end) _ _ =>
          assert (C2 : credentials u2 = credentials user)
            by (destruct (Body.email (Req.body req)) as [e|];
                [destruct (JsString.nonEmpty e)|];
                destruct (Body.name (Req.body req)) as [n|];
                try destruct (JsString.nonEmpty n); reflexivity);
          revert C2; generalize u2; intros user2 C2
      end.
      destruct (Req.file req) as [f|].
      - apply (triple_bind _ _ _ _ (fun _ w0 => J (users w0))).
        + apply (triple_weaken _ _ (fun _ w0 => J (users w0)) _
                   (fun w0 => J (users w0)));
            [apply (triple_keepsUsers J); keeps_users | auto | intros ? []; auto].
        + intros _. apply triple_ret. intros w0 H0. split; [exact H0|]. now apply C.
      - apply triple_ret. intros w0 H0. now split. }
    intros u3. apply (triple_bind _ _ _ _ (fun _ w0 => I (users w0))).
    + intros w0 [[H1 H2] H3]. apply find_some in H2 as H4.
      destruct H4 as [_ H4]. apply String.eqb_eq in H4.
      apply (saveLoaded_keeps_credentials (Primitives.hash prim) user u3 (users w) H3).
      split; [exact H1|]. rewrite H4. exact H2.
    + intros saved. apply triple_ret. auto.
  - apply (triple_tryNext (fun w0 => albums w0 = albums w)
                          (fun w0 => albums w0 = albums w));
      [|intros; assumption|reflexivity].
    intros w0 H0.
    assert (K : forall (m : Js Response), (forall w1, albums (snd (m w1)) = albums w1) ->
                  match m w0 with
                  | (Normal _, w') => albums w' = albums w
                  | (Thrown _, w') => albums w' = albums w
                  end).
    { intros m Hm. specialize (Hm w0). destruct (m w0) as [[r|e] w1];
        cbn [snd] in Hm; congruence. }
    apply K. intros w1.
    unfold User.saveLoaded, User.findById, when, deleteImgCloudinary, reqUser,
      throwCreateError, bind, ret, throw.
    repeat (cbn [fst snd albums setUsers]; innermost_case); reflexivity.
Qed.

(** X13. A password change that is not answered 200 has changed
    nothing: whichever check refuses it (a missing field, a mismatch, an
    unknown user, a wrong current password, a short password, the
    schema's validators), the world after it is the world before it. *)
Theorem changeMyPassword_failure_writes_nothing :
  forall prim (req : Req.t) (w : World),
    statusCode (fst (UsersControllers.changeMyPassword prim req w)) <> 200 ->
    snd (UsersControllers.changeMyPassword prim req w) = w.
Proof.
  intros prim req w.
  unfold UsersControllers.changeMyPassword, tryNext.
  unfold UsersControllers.savePassword, UsersControllers.bcryptCompare, Ecma.orThrow.
  unfold User.saveLoaded, User.findById, reqUser, throwCreateError, bind, ret, throw.
  repeat (cbn [fst snd]; innermost_case);
    cbn [fst snd statusCode sendResponse]; intros H;
    first [reflexivity | exfalso; apply H; reflexivity].
Qed.

Lemma changeMyPassword_failure_writes_nothing_witness :
  statusCode
    (fst (UsersControllers.changeMyPassword Sample.prim
            (Req.setUser
               (Sample.request None ""
                  (Sample.passwords "wrong-password" "newpassword" "newpassword") None)
               Sample.alice)
            Sample.world)) <> 200
  /\ snd (UsersControllers.changeMyPassword Sample.prim
            (Req.setUser
               (Sample.request None ""
                  (Sample.passwords "wrong-password" "newpassword" "newpassword") None)
               Sample.alice)
            Sample.world) = Sample.world.
Proof.
  assert (H : statusCode
                (fst (UsersControllers.changeMyPassword Sample.prim
                        (Req.setUser
                           (Sample.request None ""
                              (Sample.passwords "wrong-password" "newpassword"
                                                "newpassword") None)
                           Sample.alice)
                        Sample.world)) <> 200) by (vm_compute; discriminate).
  split; [exact H|].
  exact (changeMyPassword_failure_writes_nothing Sample.prim _ Sample.world H).
Defined.

Lemma find_deleteFirst_same {D} (sel : D -> bool) (l : list D) :
  List.find sel l = None -> deleteFirst sel l = l.
Proof.
  induction l as [|y l IH]; simpl; [reflexivity|].
  destruct (sel y); [discriminate|]. intros H. now rewrite IH.
Qed.

Lemma deleteMyAccount_eval (req : Req.t) (w : World) (me user : UserDoc.t) :
  Req.user req = Some me ->
  User.findById (UserDoc._id me) w = (Normal (Some user), w) ->
  let out := UsersControllers.deleteMyAccount req w in
  fst out = sendResponse 200 true "Account deleted successfully" (UserDoc.toJSON user)
  /\ users (snd out)
     = deleteFirst (fun x => String.eqb (UserDoc._id x) (UserDoc._id me)) (users w)
  /\ albums (snd out) = albums w
  /\ destroyed (snd out) = destroyed w ++ profileIds user.
Proof.
  intros Hme Hu. unfold User.findById in Hu. injection Hu as Hu. cbv zeta.
  unfold UsersControllers.deleteMyAccount, tryNext, bind, reqUser. rewrite Hme.
  unfold User.findById, when, profileIds, truthyOpt, deleteImgCloudinary,
    User.findByIdAndDelete, ret.
  rewrite Hu.
  destruct (UserDoc.profileImageId user) as [c|]; cbn beta iota;
    [destruct (JsString.nonEmpty c)|];
    cbn [fst snd albums users destroyed]; rewrite Hu;
    cbn [fst snd albums users destroyed setUsers];
    rewrite ?app_nil_r; repeat split; reflexivity.
Qed.

(** X14. DELETE /users/me for a stored caller (user ids being unique):
    the answer is 200; exactly the caller's document leaves the users
    collection; the caller's albums stay stored (there is no cascade);
    the image host is asked to delete the profile image when there is
    one; and from then on the caller's token, though it still verifies,
    is refused by isAuth with 401. *)
Theorem deleteMyAccount_no_cascade :
  forall (req : Req.t) (w : World) (me user : UserDoc.t),
    Req.user req = Some me ->
    User.findById (UserDoc._id me) w = (Normal (Some user), w) ->
    NoDup (map UserDoc._id (users w)) ->
    let out := UsersControllers.deleteMyAccount req w in
    statusCode (fst out) = 200
    /\ (forall u, In u (users (snd out))
                  <-> In u (users w) /\ UserDoc._id u <> UserDoc._id me)
    /\ albums (snd out) = albums w
    /\ destroyed (snd out) = destroyed w ++ profileIds user
    /\ (forall prim R req' t d,
          AuthMiddleware.tokenOf req' = Some t ->
          JsString.nonEmpty t = true ->
          Primitives.verifyToken prim t = inr d ->
          Decoded.id d = UserDoc._id me ->
          fst (AuthMiddleware.isAuth prim R req' (snd out))
          = Thrown (createError 401 "Unauthorized: No user found in request")).
Proof.
  intros req w me user Hme Hu Hnd out. subst out.
  destruct (deleteMyAccount_eval req w me user Hme Hu) as [R1 [R2 [R3 R4]]].
  cbv zeta in R1, R2, R3, R4.
  assert (I : forall u,
             In u (users (snd (UsersControllers.deleteMyAccount req w)))
             <-> In u (users w) /\ UserDoc._id u <> UserDoc._id me).
  { intros u. rewrite R2. now apply in_deleteFirst_unique. }
  split; [now rewrite R1|]. split; [exact I|]. split; [exact R3|].
  split; [exact R4|].
  intros prim R req' t d Ht Hne Hv Hd.
  rewrite (isAuth_stale prim R req' _ t d Ht Hne Hv); [reflexivity|].
  unfold User.findById. f_equal. f_equal. apply find_none_iff.
  intros u Hin. apply I in Hin. apply String.eqb_neq. rewrite Hd. tauto.
Qed.

Lemma deleteMyAccount_no_cascade_witness :
  NoDup (map UserDoc._id (users Sample.world))
  /\ albums (snd (UsersControllers.deleteMyAccount
                    (Req.setUser (Sample.request None "" Body.empty None) Sample.alice)
                    Sample.world)) = [Sample.okComputer]
  /\ users (snd (UsersControllers.deleteMyAccount
                   (Req.setUser (Sample.request None "" Body.empty None) Sample.alice)
                   Sample.world)) = [Sample.root; Sample.bob].
Proof.
  assert (H : NoDup (map UserDoc._id (users Sample.world))).
  { simpl. repeat constructor; simpl; intuition discriminate. }
  split; [exact H|].
  destruct (deleteMyAccount_no_cascade
              (Req.setUser (Sample.request None "" Body.empty None) Sample.alice)
              Sample.world Sample.alice Sample.alice eq_refl eq_refl H)
    as [_ [_ [H3 _]]].
  split; [rewrite H3; reflexivity | reflexivity].
Defined.

(** X15. DELETE /admin/users/:id when a user has the id (user ids being
    unique): deleteUser answers 200 with the deleted document, exactly
    that user leaves the collection, the user's albums stay stored, and
    the image host is asked to delete the profile image when there is
    one. *)
Theorem deleteUser_removes_one_user :
  forall (req : Req.t) (w : World) (u : UserDoc.t),
    User.findById (Req.params_id req) w = (Normal (Some u), w) ->
    NoDup (map UserDoc._id (users w)) ->
    let out := AdminControllers.deleteUser req w in
    fst out = sendResponse 200 true "User deleted successfully" (UserDoc.toJSON u)
    /\ (forall x, In x (users (snd out))
                  <-> In x (users w) /\ UserDoc._id x <> Req.params_id req)
    /\ albums (snd out) = albums w
    /\ destroyed (snd out) = destroyed w ++ profileIds u.
Proof.
  intros req w u Hu Hnd out. subst out.
  unfold User.findById in Hu. injection Hu as Hu.
  unfold AdminControllers.deleteUser, tryNext, bind, User.findByIdAndDelete.
  rewrite Hu. unfold when, profileIds, truthyOpt, deleteImgCloudinary, ret.
  assert (I : forall x,
             In x (deleteFirst (fun y => String.eqb (UserDoc._id y) (Req.params_id req))
                               (users w))
             <-> In x (users w) /\ UserDoc._id x <> Req.params_id req)
    by (intros x; now apply in_deleteFirst_unique).
  destruct (UserDoc.profileImageId u) as [c|]; cbn beta iota;
    [destruct (JsString.nonEmpty c)|];
    cbn [fst snd albums users destroyed setUsers];
    rewrite ?app_nil_r;
    (split; [reflexivity|]); (split; [exact I|]); split; reflexivity.
Qed.

Lemma deleteUser_removes_one_user_witness :
  NoDup (map UserDoc._id (users Sample.world))
  /\ fst (AdminControllers.deleteUser
            (Sample.request None "5f0000000000000000000002" Body.empty None) Sample.world)
     = sendResponse 200 true "User deleted successfully" (UserDoc.toJSON Sample.bob)
  /\ users (snd (AdminControllers.deleteUser
                   (Sample.request None "5f0000000000000000000002" Body.empty None) Sample.world))
     = [Sample.root; Sample.alice].
Proof.
  assert (H : NoDup (map UserDoc._id (users Sample.world))).
  { simpl. repeat constructor; simpl; intuition discriminate. }
  split; [exact H|].
  destruct (deleteUser_removes_one_user
              (Sample.request None "5f0000000000000000000002" Body.empty None) Sample.world Sample.bob
              eq_refl H) as [H1 _].
  split; [exact H1 | reflexivity].
Defined.

Lemma hidesPassword_error (e : JsError.t) : hidesPassword (errorHandler e).
Proof. intros d H. rewrite (proj2 (errorHandler_fails e)) in H. discriminate. Qed.

Lemma hidesPassword_stripped st ok m (u : UserDoc.t) :
  hidesPassword (sendResponse st ok m (VObj (UserDoc.deletePassword (UserDoc.toObject u)))).
Proof.
  intros d H. cbn in H. injection H as <-.
  exact (deletePassword_no_key u).
Qed.

Lemma tryNext_post (Q : Response -> Prop) (body : Js Response) (cleanup : Js unit)
    (w : World) :
  post body Q -> (forall e, Q (errorHandler e)) ->
  Q (fst (tryNext body cleanup w)).
Proof.
  intros H He. unfold tryNext.
  destruct (body w) as [[r|e] w'] eqn:E; [exact (H w r w' E) | apply He].
Qed.

Ltac post_with final :=
  repeat (cbv zeta;
          first
            [ apply post_throwCreateError
            | apply post_throw
            | apply post_ret; final
            | apply post_bind; intros ?
            | match goal with
              | |- post (match ?x with _ => _ end) _ => destruct x
              end ]).

(** X16. The two profile handlers never show the password: whatever the
    request and the store, if the response of getMyProfile or of
    updateMyProfile carries data, that data has no password field. *)
Theorem profile_responses_hide_password :
  forall prim (req : Req.t) (w : World),
    hidesPassword (fst (UsersControllers.getMyProfile req w))
    /\ hidesPassword (fst (UsersControllers.updateMyProfile prim req w)).
Proof.
  intros prim req w. split.
  - apply (tryNext_post hidesPassword); [|exact hidesPassword_error].
    post_with ltac:(apply hidesPassword_stripped).
  - apply (tryNext_post hidesPassword); [|exact hidesPassword_error].
    post_with ltac:(apply hidesPassword_stripped).
Qed.

(** ** Runs of the application *)

(** X17. Stored emails are always in the form the schema's setters give
    them (lower case, no white space around): if that holds of a store,
    for instance of the empty one, it holds after any sequence of
    requests on any routes, registrations and profile updates with
    emails in any case and padding included. *)
Theorem stored_emails_stay_cast :
  forall prim (trace : list (Routes.t * Req.t)) (w : World),
    emailsCast w -> emailsCast (serve prim trace w).
Proof.
  intros prim trace. induction trace as [|[r req] rest IH]; intros w Hw; simpl.
  - exact Hw.
  - apply IH. now apply app_keeps_emails_cast.
Qed.

Lemma stored_emails_stay_cast_witness :
  emailsCast Sample.world
  /\ emailsCast
       (serve Sample.prim
          [(Routes.Auth Routes.Register,
            Sample.request None ""
              (Sample.registration "Carol" "  Carol@X.COM " "pw12345678") None)]
          Sample.world)
  /\ map UserDoc.email
       (users (serve Sample.prim
                 [(Routes.Auth Routes.Register,
                   Sample.request None ""
                     (Sample.registration "Carol" "  Carol@X.COM " "pw12345678") None)]
                 Sample.world))
     = ["root@x.com"; "alice@x.com"; "bob@x.com"; "carol@x.com"].
Proof.
  assert (H : emailsCast Sample.world).
  { intros u [<-|[<-|[<-|[]]]]; reflexivity. }
  split; [exact H|]. split; [|reflexivity].
  exact (stored_emails_stay_cast Sample.prim _ Sample.world H).
Defined.

(** ** Creating an album *)

Lemma postAlbum_eval (req : Req.t) (w : World) (u : UserDoc.t) (t f : string) (r : Z) :
  Req.user req = Some u ->
  storable req t f r ->
  List.find (Album.selects (duplicateFilter req u t)) (albums w) = None ->
  AlbumsControllers.postAlbum req w
  = (sendResponse 201 true "Album created successfully"
       (AlbumDoc.toJSON (created req w u t f r)),
     mkWorld (users w) (albums w ++ [created req w u t f r]) (destroyed w)
             (verified w) (S (nextOid w)) (clock w)).
Proof.
  intros Hu [Ht [Hf [Hr [Vt [Va [Vf Vd]]]]]] Hnone.
  unfold duplicateFilter, artistsOf in Hnone. unfold artistsOf in Va.
  unfold AlbumsControllers.postAlbum, tryNext, bind, reqUser. rewrite Hu, Ht.
  unfold ret, Album.findOne. cbv zeta. rewrite Hnone. cbn [isSome].
  unfold Album.new, bind, newObjectId, ret, Album.save, created, artistsOf.
  destruct (Req.file req) as [x|];
    cbn [Album.setCover Album.d_title Album.d_format Album.d_releaseDate
         Album.d_addedBy Album.d_artists Album.d_id Album.d_coverArtUrl
         Album.d_coverArtId AlbumsControllers.spreadForCreate Body.title
         Body.format Body.releaseDate Body.addedBy Body.artists Body.coverArtUrl
         Body.coverArtId];
    rewrite Ht, Hf, Hr; cbn [option_map]; rewrite Vt, Va, Vf, Vd; reflexivity.
Qed.

(** X18. POST /albums with a body the schema accepts (the release date
    a timestamp a Date can hold) and no duplicate found is answered 201
    and appends exactly one album: its owner is
    the caller, whatever addedBy the body carries; its title and artists
    are the ones sent, trimmed but in their own case (the lower-cased
    forms serve the duplicate check only and are not stored); its cover
    paths are those of the uploaded file when there is one. Users and
    the image host are untouched. *)
Theorem postAlbum_stores_callers_album :
  forall (req : Req.t) (w : World) (u : UserDoc.t) (t f : string) (r : Z),
    Req.user req = Some u ->
    storable req t f r ->
    List.find (Album.selects (duplicateFilter req u t)) (albums w) = None ->
    let out := AlbumsControllers.postAlbum req w in
    let a := created req w u t f r in
    fst out = sendResponse 201 true "Album created successfully" (AlbumDoc.toJSON a)
    /\ albums (snd out) = albums w ++ [a]
    /\ AlbumDoc.addedBy a = UserDoc._id u
    /\ AlbumDoc.title a = JsString.trim t
    /\ AlbumDoc.artists a = map JsString.trim (artistsOf req)
    /\ users (snd out) = users w
    /\ destroyed (snd out) = destroyed w.
Proof.
  intros req w u t f r Hu Hs Hn. cbv zeta.
  rewrite (postAlbum_eval req w u t f r Hu Hs Hn). repeat split.
Qed.

Lemma postAlbum_stores_callers_album_witness :
  storable (Req.setUser (Sample.request None "" Sample.thriller None) Sample.alice)
           "Thriller" "LP" 407462400000
  /\ map (fun a => (AlbumDoc.title a, AlbumDoc.addedBy a))
         (albums (snd (AlbumsControllers.postAlbum
                         (Req.setUser (Sample.request None "" Sample.thriller None)
                                      Sample.alice)
                         Sample.world)))
     = [("OK Computer", "5f0000000000000000000001"); ("Thriller", "5f0000000000000000000001")].
Proof.
  assert (S : storable
                (Req.setUser (Sample.request None "" Sample.thriller None) Sample.alice)
                "Thriller" "LP" 407462400000) by (repeat split).
  split; [exact S|].
  destruct (postAlbum_stores_callers_album
              (Req.setUser (Sample.request None "" Sample.thriller None) Sample.alice)
              Sample.world Sample.alice "Thriller" "LP" 407462400000
              eq_refl S eq_refl) as [_ [H _]].
  rewrite H. reflexivity.
Defined.

(** X19. POST /albums is answered 400 exactly when the duplicate filter
    selects a stored album: one owned by the caller whose stored title
    equals the lower-cased, trimmed title of the request and whose
    stored artists array has the length of, and contains, the
    lower-cased, trimmed artists of the request. So the rule is per
    owner: a caller who has no album stored is never answered 400,
    whatever the other users have stored. *)
Theorem postAlbum_400_iff_selected :
  forall (req : Req.t) (w : World) (u : UserDoc.t) (t : string),
    Req.user req = Some u ->
    Body.title (Req.body req) = Some t ->
    (statusCode (fst (AlbumsControllers.postAlbum req w)) = 400
     <-> exists a, In a (albums w)
                   /\ Album.selects (duplicateFilter req u t) a = true)
    /\ ((forall a, In a (albums w) -> AlbumDoc.addedBy a <> UserDoc._id u) ->
        statusCode (fst (AlbumsControllers.postAlbum req w)) <> 400).
Proof.
  intros req w u t Hu Ht.
  assert (Some400 : forall a,
             List.find (Album.selects (duplicateFilter req u t)) (albums w) = Some a ->
             statusCode (fst (AlbumsControllers.postAlbum req w)) = 400).
  { intros a F. unfold duplicateFilter, artistsOf in F.
    unfold AlbumsControllers.postAlbum, tryNext, bind, reqUser. rewrite Hu, Ht.
    unfold ret, Album.findOne. cbv zeta. rewrite F. reflexivity. }
  assert (None400 :
             List.find (Album.selects (duplicateFilter req u t)) (albums w) = None ->
             statusCode (fst (AlbumsControllers.postAlbum req w)) <> 400).
  { intros F. unfold duplicateFilter, artistsOf in F.
    unfold AlbumsControllers.postAlbum, tryNext, bind, reqUser. rewrite Hu, Ht.
    unfold ret, Album.findOne. cbv zeta. rewrite F. cbn [isSome].
    unfold Album.new, bind, newObjectId, ret, Album.save, throw.
    repeat (cbn [fst snd]; innermost_case); cbn; discriminate. }
  assert (Iff : statusCode (fst (AlbumsControllers.postAlbum req w)) = 400
                <-> exists a, In a (albums w)
                              /\ Album.selects (duplicateFilter req u t) a = true).
  { destruct (List.find (Album.selects (duplicateFilter req u t)) (albums w))
      as [a|] eqn:F.
    - split; [|intros _; exact (Some400 a eq_refl)].
      intros _. exists a. now apply find_some in F.
    - split; [intros H; now apply None400 in H|].
      intros [a [Hin Hsel]]. apply find_none_iff with (d := a) in F; [|exact Hin].
      rewrite F in Hsel. discriminate. }
  split; [exact Iff|].
  intros Hother H. apply Iff in H. destruct H as [a [Hin Hsel]].
  apply (Hother a Hin). unfold Album.selects in Hsel.
  apply andb_true_iff in Hsel. destruct Hsel as [_ Hsel].
  now apply String.eqb_eq in Hsel.
Qed.

Lemma postAlbum_400_iff_selected_witness :
  (forall a, In a (albums Sample.world) ->
             AlbumDoc.addedBy a <> UserDoc._id Sample.bob)
  /\ statusCode
       (fst (AlbumsControllers.postAlbum
               (Req.setUser
                  (Sample.request None ""
                     (Body.mk (Some "ok computer") (Some ["radiohead"]) (Some "LP")
                        (Some 864950400000%Z) None None None None None
                        None None None None None None None None None) None)
                  Sample.bob)
               Sample.world)) <> 400.
Proof.
  assert (H : forall a, In a (albums Sample.world) ->
                        AlbumDoc.addedBy a <> UserDoc._id Sample.bob).
  { intros a [<-|[]]. discriminate. }
  split; [exact H|].
  exact (proj2 (postAlbum_400_iff_selected
                  (Req.setUser
                     (Sample.request None ""
                        (Body.mk (Some "ok computer") (Some ["radiohead"]) (Some "LP")
                           (Some 864950400000%Z) None None None None None
                           None None None None None None None None None) None)
                     Sample.bob)
                  Sample.world Sample.bob "ok computer" eq_refl eq_refl) H).
Defined.

(** X20. A POST /albums that came with an uploaded cover and is not
    answered 201 leaves no album behind and asks the image host, once,
    to delete the uploaded file; one that is answered 201 asks for no
    deletion. Users are untouched either way. *)
Theorem postAlbum_cleans_up_upload :
  forall (req : Req.t) (w : World) (x : File.t),
    Req.file req = Some x ->
    JsString.nonEmpty (File.filename x) = true ->
    let out := AlbumsControllers.postAlbum req w in
    users (snd out) = users w
    /\ (statusCode (fst out) <> 201 ->
        albums (snd out) = albums w
        /\ destroyed (snd out) = destroyed w ++ [File.filename x])
    /\ (statusCode (fst out) = 201 -> destroyed (snd out) = destroyed w).
Proof.
  intros req w x Hx Hne. cbv zeta.
  unfold AlbumsControllers.postAlbum, tryNext, fileCleanup, deleteImgCloudinary.
  rewrite Hx, Hne.
  unfold Album.findOne, Album.new, bind, reqUser, newObjectId, Album.save,
    throwCreateError, ret, throw.
  repeat (cbn [fst snd]; innermost_case);
    cbn [fst snd users albums destroyed setAlbums statusCode sendResponse
         errorHandler createError TypeError ValidationError JsError.status];
    (split; [reflexivity|]); split; intros H;
    first [ now split
          | reflexivity
          | discriminate
          | exfalso; apply H; reflexivity ].
Qed.

Lemma postAlbum_cleans_up_upload_witness :
  JsString.nonEmpty (File.filename Sample.avatar) = true
  /\ destroyed
       (snd (AlbumsControllers.postAlbum
               (Req.setFile
                  (Req.setUser (Sample.request None "" Body.empty (Some Sample.avatar))
                               Sample.alice)
                  (Some Sample.avatar))
               Sample.world)) = ["Craterra/avatar"].
Proof.
  split; [reflexivity|].
  destruct (postAlbum_cleans_up_upload
              (Req.setFile
                 (Req.setUser (Sample.request None "" Body.empty (Some Sample.avatar))
                              Sample.alice)
                 (Some Sample.avatar))
              Sample.world Sample.avatar eq_refl eq_refl) as [_ [H _]].
  apply H. vm_compute. discriminate.
Defined.

(** ** Success and failure *)

Lemma verdict_error (e : JsError.t) : verdict (errorHandler e).
Proof. right. apply errorHandler_fails. Qed.

Lemma verdict_200 m d : verdict (sendResponse 200 true m d).
Proof. left. split; [reflexivity | now left]. Qed.

Lemma verdict_201 m d : verdict (sendResponse 201 true m d).
Proof. left. split; [reflexivity | now right]. Qed.

Lemma chain_post (Q : Response -> Prop) (guards : list Middleware) (h : Handler) :
  (forall e, Q (errorHandler e)) ->
  (forall req w, Q (fst (h req w))) ->
  forall req w, Q (fst (chain guards h req w)).
Proof.
  intros He H. induction guards as [|g rest IH]; intros req w; simpl.
  - apply H.
  - destruct (g req w) as [[req'|e] w']; [apply IH | apply He].
Qed.

Ltac verdict_body :=
  apply (tryNext_post verdict); [|exact verdict_error];
  post_with ltac:(first [apply verdict_200 | apply verdict_201]).

Lemma controllers_verdict prim (req : Req.t) (w : World) :
  (verdict (fst (AlbumsControllers.getMyAlbums req w))
   /\ verdict (fst (AlbumsControllers.getAlbumById req w))
   /\ verdict (fst (AlbumsControllers.postAlbum req w))
   /\ verdict (fst (AlbumsControllers.updateAlbum req w))
   /\ verdict (fst (AlbumsControllers.deleteAlbum req w)))
  /\ (verdict (fst (UsersControllers.getMyProfile req w))
      /\ verdict (fst (UsersControllers.updateMyProfile prim req w))
      /\ verdict (fst (UsersControllers.changeMyPassword prim req w))
      /\ verdict (fst (UsersControllers.deleteMyAccount req w)))
  /\ (verdict (fst (AuthControllers.registerUser prim req w))
      /\ verdict (fst (AuthControllers.loginUser prim req w)))
  /\ (verdict (fst (AdminControllers.getAllAlbums req w))
      /\ verdict (fst (AdminControllers.deleteAlbum req w))
      /\ verdict (fst (AdminControllers.getAllUsers req w))
      /\ verdict (fst (AdminControllers.deleteUser req w))).
Proof. repeat split; verdict_body. Qed.

(** X21. Every response of the application is either a success, with
    [success: true] and status 200 or 201, or a failure, with [success:
    false] and no data field: an error never carries a payload, and a
    success is never sent with an error status. *)
Theorem every_response_has_a_verdict :
  forall prim (r : Routes.t) (req : Req.t) (w : World),
    verdict (fst (app prim r req w)).
Proof.
  intros prim r req w.
  assert (C := controllers_verdict prim).
  assert (F : forall req w, verdict (fst (fallThrough req w)))
    by (intros; right; split; reflexivity).
  revert req w.
  destruct r as [[]|[]|[]|[]| |];
    cbn [app authRouter albumsRouter usersRouter adminRouter]; cbv zeta;
    try (apply (chain_post verdict); [exact verdict_error|]);
    try exact F; intros req w; try apply verdict_200;
    destruct (C req w) as [[A1 [A2 [A3 [A4 A5]]]] [[U1 [U2 [U3 U4]]]
                           [[T1 T2] [D1 [D2 [D3 D4]]]]]]; assumption.
Qed.

(** ** Updating an album *)





(** ** What the account handlers refuse and preserve *)

(** X23. PUT /users/me with a role or a password in the body, from a
    stored caller, is refused with 403 and nothing is written: not the
    name or email sent along, not the uploaded image. *)
Theorem updateMyProfile_refuses_role_and_password :
  forall prim (req : Req.t) (w : World) (me user : UserDoc.t),
    Req.user req = Some me ->
    User.findById (UserDoc._id me) w = (Normal (Some user), w) ->
    truthyOpt (Body.role (Req.body req)) = true
    \/ truthyOpt (Body.password (Req.body req)) = true ->
    exists m,
      UsersControllers.updateMyProfile prim req w
      = (sendResponse 403 false m VNull, w).
Proof.
  intros prim req w me user Hme Hu H.
  unfold User.findById in Hu. injection Hu as Hu.
  unfold UsersControllers.updateMyProfile, tryNext, bind, reqUser. rewrite Hme.
  unfold ret, User.findById. rewrite Hu.
  destruct (truthyOpt (Body.role (Req.body req))) eqn:R.
  - eexists. reflexivity.
  - destruct H as [H|H]; [discriminate|]. rewrite H. eexists. reflexivity.
Qed.

Lemma updateMyProfile_refuses_role_and_password_witness :
  truthyOpt (Some "admin") = true
  /\ exists m,
       UsersControllers.updateMyProfile Sample.prim
         (Req.setUser
            (Sample.request None ""
               (Body.mk None None None None None None None None None
                  (Some "Alicia") None None (Some "admin") None None None None None)
               None)
            Sample.alice)
         Sample.world
       = (sendResponse 403 false m VNull, Sample.world).
Proof.
  split; [reflexivity|].
  apply (updateMyProfile_refuses_role_and_password Sample.prim
           (Req.setUser
              (Sample.request None ""
                 (Body.mk None None None None None None None None None
                    (Some "Alicia") None None (Some "admin") None None None None None)
                 None)
              Sample.alice)
           Sample.world Sample.alice Sample.alice eq_refl eq_refl).
  left. reflexivity.
Defined.

Lemma saveLoaded_keeps_profile hash (old : UserDoc.t) (v : string)
    (us0 : list UserDoc.t) :
  triple (fun w => map profile (users w) = map profile us0
                   /\ List.find (fun u => String.eqb (UserDoc._id u) (UserDoc._id old))
                                (users w) = Some old)
         (User.saveLoaded hash old (UsersControllers.assignPassword old v))
         (fun _ w => map profile (users w) = map profile us0)
         (fun w => map profile (users w) = map profile us0).
Proof.
  intros w [Hm Hf]. unfold User.saveLoaded.
  cbn [UsersControllers.assignPassword UserDoc._id UserDoc.name UserDoc.email
       UserDoc.password UserDoc.role UserDoc.profileImageUrl UserDoc.profileImageId].
  match goal with |- context [if ?c then _ else _] => destruct c end;
    [|exact Hm].
  destruct (existsb _ (users w)); [exact Hm|].
  cbn [users setUsers]. rewrite <- Hm.
  apply (map_replaceFirst profile _ old); [exact Hf | reflexivity].
Qed.

(** X24. A password change changes nothing but a password: whatever the
    request, after changeMyPassword every stored user has the _id, name,
    email, role and image paths it had before, in the same order, and
    the albums are untouched. *)
Theorem changeMyPassword_changes_only_password :
  forall prim (req : Req.t) (w : World),
    map profile (users (snd (UsersControllers.changeMyPassword prim req w)))
    = map profile (users w)
    /\ albums (snd (UsersControllers.changeMyPassword prim req w)) = albums w.
Proof.
  intros prim req w. split.
  - set (I := fun us : list UserDoc.t => map profile us = map profile (users w)).
    change (I (users (snd (UsersControllers.changeMyPassword prim req w)))).
    apply (triple_tryNext (fun w0 => I (users w0)) (fun w0 => I (users w0)));
      [|intros; assumption|reflexivity].
    cbv zeta.
    destruct (negb (truthy (Body.currentPasswordValue (Req.body req)))
              || negb (truthy (Body.newPasswordValue (Req.body req)))
              || negb (truthy (Body.confirmPasswordValue (Req.body req))));
      [apply triple_throwCreateError; tauto|].
    eapply triple_bind; [apply (triple_keepsUsers I); keeps_users|]. intros equal.
    destruct (negb equal); [apply triple_throwCreateError; tauto|].
    eapply triple_bind; [apply (triple_keepsUsers I); keeps_users|]. intros me.
    apply (triple_bind _ _ _ _
             (fun found w0 =>
                I (users w0)
                /\ List.find (fun u => String.eqb (UserDoc._id u) (UserDoc._id me))
                             (users w0) = found)).
    { intros w0 H0. unfold User.findById. now split. }
    intros [user|]; [|apply triple_throwCreateError; tauto].
    apply (triple_bind _ _ _ _
             (fun _ w0 =>
                I (users w0)
                /\ List.find (fun u => String.eqb (UserDoc._id u) (UserDoc._id me))
                             (users w0) = Some user)).
    { intros w0 H0. unfold UsersControllers.bcryptCompare.
      destruct (Body.currentPasswordValue (Req.body req));
        first [exact H0 | exact (proj1 H0)]. }
    intros isMatch.
    destruct (negb isMatch); [apply triple_throwCreateError; tauto|].
    apply (triple_bind _ _ _ _
             (fun _ w0 =>
                I (users w0)
                /\ List.find (fun u => String.eqb (UserDoc._id u) (UserDoc._id me))
                             (users w0) = Some user)).
    { intros w0 H0. unfold Ecma.orThrow.
      destruct (Ecma.lessThan prim _ 8); first [exact H0 | exact (proj1 H0)]. }
    intros short.
    destruct short; [apply triple_throwCreateError; tauto|].
    apply (triple_bind _ _ _ _ (fun _ w0 => I (users w0))).
    + intros w0 [H1 H2]. unfold UsersControllers.savePassword.
      destruct (Ecma.castString prim _) as [new|]; [|exact H1].
      apply find_some in H2 as H4.
      destruct H4 as [_ H4]. apply String.eqb_eq in H4.
      apply (saveLoaded_keeps_profile (Primitives.hash prim) user new (users w)).
      split; [exact H1|]. rewrite H4. exact H2.
    + intros saved. apply triple_ret. auto.
  - unfold UsersControllers.changeMyPassword, tryNext.
    unfold UsersControllers.savePassword, UsersControllers.bcryptCompare, Ecma.orThrow.
    unfold User.saveLoaded, User.findById, reqUser, throwCreateError, bind, ret, throw.
    repeat (cbn [fst snd albums setUsers]; innermost_case); reflexivity.
Qed.

